(** * scraper-app: the scraping job pipeline

    A shallow embedding of
    - [server/services/scraperService.ts] (link extraction, [scrapePage], the
      queue worker [scraperWorker], [addScrapingJob]),
    - [server/routes/pages.ts] (the create and retry routes), and
    - the Dashboard component (notification de-duplication in
      [checkForCompletedJobs]),
    followed by the properties of the specification that concern them.

    Conventions.  A JavaScript string is a [string]; [undefined]/[null] is
    [None].  A database table is the list of its rows.  A promise that rejects
    or a [throw] is [Err msg].  Timestamps ([createdAt], [updatedAt],
    [scrapedAt]), the row ids of links and the response metadata of a fetch
    are maintained by the platform and read by none of the code below; they
    are left out of the records.

    Limits.  A [string] is a sequence of bytes: [String.length], [JS.trim]
    and [JS.toLowerCase] agree with JavaScript on ASCII text (blanks and
    letters outside ASCII are neither trimmed nor folded, and a length counts
    bytes).  Integers are exact; JavaScript's agree with them up to
    [JS.MAX_SAFE_INTEGER].  Redis is taken to be reachable, so that
    [scrapingQueue.add] resolves.  Inside a transaction only the fetch takes
    time. *)

From Stdlib Require Import String Ascii List ZArith Bool Lia DecimalString.
From Stdlib Require Import Permutation.
Import ListNotations.
Open Scope string_scope.
Open Scope list_scope.

Set Implicit Arguments.

(* ------------------------------------------------------------------ *)
(** ** JavaScript string and array helpers *)

Module JS.

(** [a || b] on a string that may be undefined: the empty string and
    [undefined] are falsy. *)
Definition or_else (a : option string) (b : string) : string :=
  match a with
  | Some s => if String.eqb s "" then b else s
  | None => b
  end.

(** Truthiness of a possibly undefined string. *)
Definition truthy (a : option string) : bool :=
  match a with
  | Some s => negb (String.eqb s "")
  | None => false
  end.

(** [s.startsWith(p)] *)
Definition startsWith (s p : string) : bool := String.prefix p s.

Definition is_space (c : ascii) : bool :=
  let n := nat_of_ascii c in
  (n =? 32)%nat || ((9 <=? n)%nat && (n <=? 13)%nat).

Fixpoint trimStart (s : string) : string :=
  match s with
  | EmptyString => EmptyString
  | String c r => if is_space c then trimStart r else s
  end.

Fixpoint trimEnd (s : string) : string :=
  match s with
  | EmptyString => EmptyString
  | String c r =>
      let r' := trimEnd r in
      if is_space c && String.eqb r' "" then EmptyString else String c r'
  end.

(** [s.trim()], on ASCII blanks. *)
Definition trim (s : string) : string := trimEnd (trimStart s).

Definition lower_ascii (c : ascii) : ascii :=
  let n := nat_of_ascii c in
  if (65 <=? n)%nat && (n <=? 90)%nat then ascii_of_nat (n + 32) else c.

(** [s.toLowerCase()], on ASCII letters. *)
Fixpoint toLowerCase (s : string) : string :=
  match s with
  | EmptyString => EmptyString
  | String c r => String (lower_ascii c) (toLowerCase r)
  end.

(** [xs.slice(0, n)]: a negative [n] counts from the end. *)
Definition slice0 {A} (xs : list A) (n : Z) : list A :=
  if (n <? 0)%Z
  then firstn (Z.to_nat (Z.of_nat (length xs) + n)) xs
  else firstn (Z.to_nat n) xs.

(** Template literal interpolation of an integer. *)
Definition of_Z (z : Z) : string := NilZero.string_of_int (Z.to_int z).

(** [Number.MAX_SAFE_INTEGER]: up to it every integer is a JavaScript number
    and sums and products of integers are exact. *)
Definition MAX_SAFE_INTEGER : Z := 9007199254740991.

End JS.

(* ------------------------------------------------------------------ *)
(** ** Results of fallible computations *)

Inductive result (A : Type) : Type :=
| Ok (a : A)
| Err (message : string).
Arguments Err {A} message.

Definition is_ok {A} (r : result A) : bool :=
  match r with Ok _ => true | Err _ => false end.

(* ------------------------------------------------------------------ *)
(** ** Data model (the [pages] and [links] tables) *)

Inductive Status : Type := PENDING | PROCESSING | COMPLETED | FAILED.

Definition Status_eqb (a b : Status) : bool :=
  match a, b with
  | PENDING, PENDING | PROCESSING, PROCESSING
  | COMPLETED, COMPLETED | FAILED, FAILED => true
  | _, _ => false
  end.

Definition Status_text (s : Status) : string :=
  match s with
  | PENDING => "PENDING"
  | PROCESSING => "PROCESSING"
  | COMPLETED => "COMPLETED"
  | FAILED => "FAILED"
  end.

Record Page : Type := mkPage {
  page_id : string;
  page_url : string;
  page_title : option string;
  page_status : Status;
  page_linkCount : Z;
  page_userId : string
}.

Record Link : Type := mkLink {
  link_url : string;
  link_name : string;
  link_isExternal : bool;
  link_pageId : string
}.

Record Db : Type := mkDb {
  pages : list Page;
  links : list Link
}.

Definition set_status (s : Status) (p : Page) : Page :=
  mkPage (page_id p) (page_url p) (page_title p) s (page_linkCount p)
         (page_userId p).

Definition set_failed (p : Page) : Page :=
  mkPage (page_id p) (page_url p) (Some "Scraping Failed") FAILED
         (page_linkCount p) (page_userId p).

Definition set_completed (title : string) (n : Z) (p : Page) : Page :=
  mkPage (page_id p) (page_url p) (Some title) COMPLETED n (page_userId p).

(** The link rows stored for a page, and their number. *)
Definition links_of (pageId : string) (db : Db) : list Link :=
  filter (fun l => String.eqb (link_pageId l) pageId) (links db).

Definition link_rows (pageId : string) (db : Db) : Z :=
  Z.of_nat (length (links_of pageId db)).

(* ------------------------------------------------------------------ *)
(** ** Prisma client operations on the store *)

Module Prisma.

(** [page.findUnique({ where: { id } })] *)
Definition page_findUnique (id : string) (db : Db) : option Page :=
  find (fun p => String.eqb (page_id p) id) (pages db).

(** [page.findFirst({ where: { id, userId } })] *)
Definition page_findFirst_id (id userId : string) (db : Db) : option Page :=
  find (fun p => String.eqb (page_id p) id && String.eqb (page_userId p) userId)
       (pages db).

(** [page.findFirst({ where: { url, userId } })]: equality of the stored
    text with the given one (SQLite compares TEXT byte by byte). *)
Definition page_findFirst_url (url userId : string) (db : Db) : option Page :=
  find (fun p => String.eqb (page_url p) url && String.eqb (page_userId p) userId)
       (pages db).

Definition update_rows (id : string) (f : Page -> Page) (ps : list Page)
  : list Page :=
  map (fun p => if String.eqb (page_id p) id then f p else p) ps.

(** [page.update({ where: { id }, data })]: the updated row, or an error
    when no row has this id. *)
Definition page_update (id : string) (f : Page -> Page) (db : Db)
  : result (Page * Db) :=
  match page_findUnique id db with
  | Some p => Ok (f p, mkDb (update_rows id f (pages db)) (links db))
  | None => Err "Record to update not found."
  end.

(** [page.create({ data: { url, userId, status } })]: title is NULL and
    linkCount takes its column default 0; [id] is the key the client
    generates, and a key already in use violates the primary key. *)
Definition page_create (id url userId : string) (s : Status) (db : Db)
  : result (Page * Db) :=
  match page_findUnique id db with
  | Some _ => Err "Unique constraint failed on the fields: (`id`)"
  | None =>
      let p := mkPage id url None s 0 userId in
      Ok (p, mkDb (pages db ++ [p]) (links db))
  end.

(** [link.createMany({ data })] *)
Definition link_createMany (rows : list Link) (db : Db) : Db :=
  mkDb (pages db) (links db ++ rows).

End Prisma.

(* ------------------------------------------------------------------ *)
(** ** The platform's URL parser

    [new URL(href, base).href] and [new URL(u).origin] belong to the runtime.
    The code is verified against any parser; [url_href] is [None] where the
    constructor throws.  [url_origin] is only evaluated on a base against
    which a reference has just been resolved. *)

Class URLParser : Type := {
  url_href : string -> string -> option string;
  url_origin : string -> string
}.

(** The parser's results on the inputs used in the examples below: lower-case
    http(s) URLs in serialised form without credentials, ports equal to the
    scheme's default, dot segments or characters that need escaping;
    path-absolute references against such a base; and javascript: URLs, whose
    scheme is matched in any letter case and serialised in lower case.  Every
    other reference is outside this table and reported as unresolvable. *)
Module SampleURL.

Definition is_delim (c : ascii) : bool :=
  let n := nat_of_ascii c in
  (n =? 47)%nat || (n =? 63)%nat || (n =? 35)%nat.

(** The characters before the first of [/], [?] and [#]. *)
Fixpoint authority (s : string) : string :=
  match s with
  | EmptyString => EmptyString
  | String c r => if is_delim c then EmptyString else String c (authority r)
  end.

Definition drop (n : nat) (s : string) : string :=
  String.substring n (String.length s - n) s.

Definition scheme_len (u : string) : option nat :=
  if String.prefix "https://" u then Some 8%nat
  else if String.prefix "http://" u then Some 7%nat
  else None.

Definition origin (u : string) : string :=
  match scheme_len u with
  | Some n => (String.substring 0 n u ++ authority (drop n u))%string
  | None => "null"
  end.

Definition href (ref base : string) : option string :=
  match scheme_len base with
  | None => None
  | Some _ =>
      match scheme_len ref with
      | Some n =>
          if String.eqb (authority (drop n ref)) "" then None
          else if String.eqb (drop (n + String.length (authority (drop n ref))) ref) ""
               then Some (ref ++ "/")%string
               else Some ref
      | None =>
          if String.prefix "/" ref && negb (String.prefix "//" ref)
          then Some (origin base ++ ref)%string
          else if String.prefix "javascript:" (JS.toLowerCase ref)
               then Some ("javascript:" ++ drop 11 ref)%string
               else None
      end
  end.

Definition parser : URLParser :=
  {| url_href := href; url_origin := origin |}.

End SampleURL.

(* ------------------------------------------------------------------ *)
(** ** Scraping: [scrapePage] and [extractLinks] *)

(** What the code reads from the parsed document through cheerio. *)
Record Img : Type := mkImg {
  img_alt : option string;
  img_title : option string
}.

(** One element selected by [$('a[href]')]. *)
Record Anchor : Type := mkAnchor {
  a_href : string;            (* attr('href') *)
  a_text : string;            (* text() *)
  a_title : option string;    (* attr('title') *)
  a_imgs : list Img           (* find('img') *)
}.

Record Document : Type := mkDocument {
  doc_title : string;                     (* $('title').text() *)
  doc_h1 : string;                        (* $('h1').first().text() *)
  doc_description : option string;        (* meta[name="description"] *)
  doc_og_description : option string;     (* meta[property="og:description"] *)
  doc_anchors : list Anchor               (* $('a[href]'), document order *)
}.

Record ScrapedLink : Type := mkScrapedLink {
  href : string;
  text : string;
  isExternal : bool;
  title : option string
}.

Record ScrapedPage : Type := mkScrapedPage {
  sp_url : string;
  sp_title : string;
  sp_description : string;
  sp_links : list ScrapedLink
}.

Record ScrapingOptions : Type := mkScrapingOptions {
  maxLinks : option Z
}.

Section Scraping.

Context {U : URLParser}.

(** The test [!href || href.startsWith('javascript:') || href === '#']. *)
Definition skipped_href (h : string) : bool :=
  String.eqb h "" || JS.startsWith h "javascript:" || String.eqb h "#".

(** [!absoluteUrl.startsWith(new URL(url).origin)] *)
Definition external (absoluteUrl base : string) : bool :=
  negb (JS.startsWith absoluteUrl (url_origin base)).

(** [title: $element.attr('title') || undefined] *)
Definition title_attr (a : Anchor) : option string :=
  if JS.truthy (a_title a) then a_title a else None.

(** Body of the [each] callback of [extractLinks]: [None] is an early
    [return]. *)
Definition extractLinks_each (baseUrl : string) (a : Anchor)
  : option ScrapedLink :=
  let linkText := JS.trim (a_text a) in
  if skipped_href (a_href a) then None
  else
    match url_href (a_href a) baseUrl with
    | None => None
    | Some absoluteUrl =>
        Some (mkScrapedLink absoluteUrl
                            (JS.or_else (Some linkText) "Link")
                            (external absoluteUrl baseUrl)
                            (title_attr a))
    end.

(** [links.push] in document order. *)
Definition push_each (each : Anchor -> option ScrapedLink)
           (acc : list ScrapedLink) (a : Anchor) : list ScrapedLink :=
  match each a with
  | Some l => acc ++ [l]
  | None => acc
  end.

Definition extractLinks (doc : Document) (baseUrl : string)
  : list ScrapedLink :=
  fold_left (push_each (extractLinks_each baseUrl)) (doc_anchors doc) [].

(** The link name of [scrapePage]: text, else the first image's alt or
    title, else the anchor's title, then truncated.  The length is counted
    in bytes, which is [linkName.length] on ASCII text. *)
Definition linkName_of (a : Anchor) : string :=
  let linkText := JS.trim (a_text a) in
  let linkName :=
    if String.eqb linkText "" then
      match a_imgs a with
      | img :: _ =>
          JS.or_else (img_alt img) (JS.or_else (img_title img) "Image Link")
      | [] => JS.or_else (a_title a) "Link"
      end
    else linkText in
  if (200 <? String.length linkName)%nat
  then (String.substring 0 197 linkName ++ "...")%string
  else linkName.

Definition scrapePage_each (url : string) (a : Anchor) : option ScrapedLink :=
  if skipped_href (a_href a) then None
  else
    match url_href (a_href a) url with
    | None => None
    | Some absoluteUrl =>
        Some (mkScrapedLink absoluteUrl
                            (JS.or_else (Some (linkName_of a)) "Link")
                            (external absoluteUrl url)
                            (title_attr a))
    end.

(** [options?.maxLinks ? links.slice(0, options.maxLinks) : links] *)
Definition limit_links (options : option ScrapingOptions)
           (ls : list ScrapedLink) : list ScrapedLink :=
  match options with
  | Some o =>
      match maxLinks o with
      | Some n => if (n =? 0)%Z then ls else JS.slice0 ls n
      | None => ls
      end
  | None => ls
  end.

(** [scrapePage(url, options)], given how [axios.get(url)] settles: a
    rejection (connection failure, timeout, non-2xx status) or the parsed
    body.  Every error is rethrown with the prefix. *)
Definition scrapePage (response : result Document) (url : string)
           (options : option ScrapingOptions) : result ScrapedPage :=
  match response with
  | Err message => Err ("Failed to scrape page: " ++ message)%string
  | Ok doc =>
      let title :=
        JS.or_else (Some (doc_title doc)) (JS.or_else (Some (doc_h1 doc)) "Untitled") in
      let description :=
        JS.or_else (doc_description doc) (JS.or_else (doc_og_description doc) "") in
      let links := fold_left (push_each (scrapePage_each url)) (doc_anchors doc) [] in
      Ok (mkScrapedPage url (JS.trim title) (JS.trim description)
                        (limit_links options links))
  end.

End Scraping.

(* ------------------------------------------------------------------ *)
(** ** Interactive transactions

    [prisma.$transaction(async tx => ...)] runs the callback on a private view
    [tx] of the store.  Writes made through [tx] reach the store that other
    connections read only when the callback returns (commit); they are
    discarded when it throws (rollback).  The worker passes no options, so
    the transaction has the default time limit of 5000 ms: once that long has
    passed since it was opened it is rolled back, every further query through
    [tx] is refused, and it can no longer commit.  A callback is a function of
    the state of the transaction (its view and the time passed since it was
    opened); it reports the points it passes through, each with the view at
    that moment, so that a run can be laid out as a timeline.  Queries are
    taken to cost no time; only awaiting the fetch does. *)

Inductive Point : Type :=
| StatusWritten      (* after tx.page.update({ status: 'PROCESSING' }) *)
| FetchInFlight      (* while scrapePage(url) is awaited *)
| Committed          (* the transaction has committed *)
| RolledBack         (* the transaction has been rolled back *)
| FailureHandled.    (* end of the catch block of the worker *)

Definition Point_eqb (a b : Point) : bool :=
  match a, b with
  | StatusWritten, StatusWritten | FetchInFlight, FetchInFlight
  | Committed, Committed | RolledBack, RolledBack
  | FailureHandled, FailureHandled => true
  | _, _ => false
  end.

(** The default [timeout] of an interactive transaction, in ms. *)
Definition tx_timeout : Z := 5000.

(** The error of a query on a transaction that has run out of time. *)
Definition tx_closed : string :=
  "Transaction API error: Transaction already closed: A query cannot be executed on an expired transaction.".

Record TxState : Type := mkTxState {
  tx_view : Db;      (* the store as the transaction sees it *)
  tx_clock : Z       (* ms since the transaction was opened *)
}.

Definition tx_expired (st : TxState) : bool := (tx_timeout <? tx_clock st)%Z.

Record TxRun (A : Type) : Type := mkTxRun {
  tx_points : list (Point * Db);
  tx_result : result (A * TxState)
}.

Definition Tx (A : Type) : Type := TxState -> TxRun A.

Module TxM.

Definition ret {A} (a : A) : Tx A :=
  fun tx => mkTxRun [] (Ok (a, tx)).

Definition throw {A} (message : string) : Tx A :=
  fun _ => mkTxRun [] (Err message).

Definition bind {A B} (m : Tx A) (k : A -> Tx B) : Tx B :=
  fun tx =>
    let r := m tx in
    match tx_result r with
    | Ok (a, tx') =>
        let r' := k a tx' in
        mkTxRun (tx_points r ++ tx_points r') (tx_result r')
    | Err message => mkTxRun (tx_points r) (Err message)
    end.

(** A read through [tx]. *)
Definition read {A} (q : Db -> A) : Tx A :=
  fun tx =>
    mkTxRun [] (if tx_expired tx then Err tx_closed else Ok (q (tx_view tx), tx)).

(** A write through [tx] that may fail. *)
Definition write {A} (w : Db -> result (A * Db)) : Tx A :=
  fun tx =>
    mkTxRun []
            (if tx_expired tx then Err tx_closed
             else match w (tx_view tx) with
                  | Ok (a, view') => Ok (a, mkTxState view' (tx_clock tx))
                  | Err message => Err message
                  end).

Definition mark (p : Point) : Tx unit :=
  fun tx => mkTxRun [(p, tx_view tx)] (Ok (tt, tx)).

(** Awaiting a promise that settles outside the transaction, [ms] after the
    transaction was opened. *)
Definition await {A} (p : Point) (ms : Z) (settled : result A) : Tx A :=
  fun tx =>
    mkTxRun [(p, tx_view tx)]
            match settled with
            | Ok a => Ok (a, mkTxState (tx_view tx) (Z.max (tx_clock tx) ms))
            | Err message => Err message
            end.

End TxM.

Notation "x <- m ;; k" := (TxM.bind m (fun x => k))
  (at level 61, m at next level, right associativity).
Notation "m ;;; k" := (TxM.bind m (fun _ => k))
  (at level 61, right associativity).

(** What a reader on another connection can see at one point of a run
    ([committed]), next to the private view of an open transaction. *)
Record Seen : Type := mkSeen {
  at_point : Point;
  committed : Db;
  in_tx : option Db
}.

Definition Timeline : Type := list Seen.

Definition transaction {A} (callback : Tx A) (db : Db)
  : Timeline * Db * result A :=
  let r := callback (mkTxState db 0) in
  let during := map (fun pv => mkSeen (fst pv) db (Some (snd pv))) (tx_points r) in
  match tx_result r with
  | Ok (a, tx') =>
      if tx_expired tx'
      then (during ++ [mkSeen RolledBack db None], db, Err tx_closed)
      else (during ++ [mkSeen Committed (tx_view tx') None], tx_view tx', Ok a)
  | Err message => (during ++ [mkSeen RolledBack db None], db, Err message)
  end.

(* ------------------------------------------------------------------ *)
(** ** The queue worker *)

Record JobData : Type := mkJobData {
  job_pageId : string;
  job_url : string;
  job_userId : string
}.

(** The options [addScrapingJob] passes to [scrapingQueue.add]. *)
Record Job : Type := mkJob {
  job_data : JobData;
  job_attempts : nat;
  job_backoff_delay : Z
}.

(** A fetch as the worker experiences it: how [axios.get(url)] settles, and
    how long after the opening of the transaction. *)
Record Fetch : Type := mkFetch {
  fetch_settled : result Document;
  fetch_ms : Z
}.

Definition link_row (pageId : string) (l : ScrapedLink) : Link :=
  mkLink (href l) (text l) (isExternal l) pageId.

Section Worker.

Context {U : URLParser}.

(** The callback given to [prisma.$transaction] by the worker. *)
Definition scrape_tx (fetch : Fetch) (pageId url : string) : Tx Page :=
  existingPage <- TxM.read (Prisma.page_findUnique pageId) ;;
  match existingPage with
  | None => TxM.throw "Page not found"
  | Some _ =>
      TxM.write (Prisma.page_update pageId (set_status PROCESSING)) ;;;
      TxM.mark StatusWritten ;;;
      scrapedData <- TxM.await FetchInFlight (fetch_ms fetch)
                               (scrapePage (fetch_settled fetch) url None) ;;
      updatedPage <-
        TxM.write (Prisma.page_update pageId
                     (set_completed (sp_title scrapedData)
                                    (Z.of_nat (length (sp_links scrapedData))))) ;;
      let linkData := map (link_row pageId) (sp_links scrapedData) in
      (if (0 <? length linkData)%nat
       then TxM.write (fun tx => Ok (tt, Prisma.link_createMany linkData tx))
       else TxM.ret tt) ;;;
      TxM.ret updatedPage
  end.

(** The [catch] block: mark the page FAILED if it exists; an error of the
    update itself is logged and swallowed. *)
Definition record_failure (pageId : string) (db : Db) : Db :=
  match Prisma.page_findUnique pageId db with
  | Some _ =>
      match Prisma.page_update pageId set_failed db with
      | Ok (_, db') => db'
      | Err _ => db
      end
  | None => db
  end.

(** One run of the worker's processor on a job.  The result is [Err] when
    the processor rethrows. *)
Definition scraperWorker (fetch : Fetch) (job : JobData) (db : Db)
  : Timeline * Db * result Page :=
  let '(t, db1, r) :=
    transaction (scrape_tx fetch (job_pageId job) (job_url job)) db in
  match r with
  | Ok result => (t, db1, Ok result)
  | Err error =>
      let db2 := record_failure (job_pageId job) db1 in
      (t ++ [mkSeen FailureHandled db2 None], db2, Err error)
  end.

Definition worker_timeline fetch job db : Timeline :=
  fst (fst (scraperWorker fetch job db)).

Definition worker_store fetch job db : Db :=
  snd (fst (scraperWorker fetch job db)).

Definition worker_result fetch job db : result Page :=
  snd (scraperWorker fetch job db).

(** The queue runs the processor again while it throws, until the job's
    [attempts] are used up (the delay between attempts is not modelled).
    [fetches k] is the fetch of attempt [k].  Returns the store and the
    result of every attempt made, in order. *)
Fixpoint run_attempts (left : nat) (k : nat) (fetches : nat -> Fetch)
         (job : JobData) (db : Db) : Db * list (result Page) :=
  match left with
  | O => (db, [])
  | S left' =>
      let db' := worker_store (fetches k) job db in
      let r := worker_result (fetches k) job db in
      match r with
      | Ok _ => (db', [r])
      | Err _ =>
          let '(db'', rs) := run_attempts left' (S k) fetches job db' in
          (db'', r :: rs)
      end
  end.

Definition process_job (fetches : nat -> Fetch) (job : Job) (db : Db)
  : Db * list (result Page) :=
  run_attempts (job_attempts job) 0 fetches (job_data job) db.

End Worker.

(** [addScrapingJob]: [attempts: 3], exponential backoff from 2000 ms.
    [scrapingQueue.add] is taken to resolve; with Redis unreachable it
    rejects, and the routes then answer 500 after their write to the store. *)
Definition addScrapingJob (pageId url userId : string) (queue : list Job)
  : list Job :=
  queue ++ [mkJob (mkJobData pageId url userId) 3 2000].

(* ------------------------------------------------------------------ *)
(** ** The page routes ([POST /api/pages], [POST /api/pages/:id/retry]) *)

Record Server : Type := mkServer {
  srv_db : Db;
  srv_queue : list Job
}.

Inductive Body : Type :=
| ValidationErrors                              (* { errors: [...] } *)
| ErrorBody (error : string)                    (* { error } *)
| CreatedBody (message : string) (page : Page)  (* { message, page } *)
| MessageBody (message : string).               (* { message } *)

Record Response : Type := mkResponse {
  res_status : Z;
  res_body : Body
}.

Section Routes.

(** express-validator's [isURL()], a check of the validator library. *)
Variable isURL : string -> bool.

(** [body('url').isURL().matches(/^https?:\/\//)] *)
Definition validateUrl (url : string) : bool :=
  isURL url && (String.prefix "http://" url || String.prefix "https://" url).

(** [router.post('/')].  [newId] is the key generated for the new row. *)
Definition post_pages (newId url userId : string) (s : Server)
  : Server * Response :=
  if negb (validateUrl url) then (s, mkResponse 400 ValidationErrors)
  else
    match Prisma.page_findFirst_url url userId (srv_db s) with
    | Some _ =>
        (s, mkResponse 400 (ErrorBody "This URL has already been added for scraping"))
    | None =>
        match Prisma.page_create newId url userId PENDING (srv_db s) with
        | Err _ => (s, mkResponse 500 (ErrorBody "Failed to create page"))
        | Ok (page, db') =>
            (mkServer db' (addScrapingJob (page_id page) url userId (srv_queue s)),
             mkResponse 201 (CreatedBody "Page scraping started" page))
        end
    end.

End Routes.

(** [router.post('/:id/retry')] *)
Definition post_retry (id userId : string) (s : Server) : Server * Response :=
  match Prisma.page_findFirst_id id userId (srv_db s) with
  | None => (s, mkResponse 404 (ErrorBody "Page not found"))
  | Some page =>
      if negb (Status_eqb (page_status page) FAILED)
      then (s, mkResponse 400 (ErrorBody "Only failed pages can be retried"))
      else
        match Prisma.page_update id (set_status PENDING) (srv_db s) with
        | Err _ => (s, mkResponse 500 (ErrorBody "Failed to retry page scraping"))
        | Ok (_, db') =>
            (mkServer db' (addScrapingJob (page_id page) (page_url page) userId
                                          (srv_queue s)),
             mkResponse 200 (MessageBody "Page scraping restarted"))
        end
  end.

(** The pages of an owner whose url equals [url] when letter case is
    ignored. *)
Definition pages_with_url_ci (url userId : string) (db : Db) : list Page :=
  filter (fun p => String.eqb (JS.toLowerCase (page_url p)) (JS.toLowerCase url)
                   && String.eqb (page_userId p) userId)
         (pages db).

(* ------------------------------------------------------------------ *)
(** ** Dashboard: notifications for finished jobs *)

Record PageView : Type := mkPageView {
  pv_id : string;
  pv_url : string;
  pv_title : option string;
  pv_status : Status;
  pv_linkCount : Z;
  pv_isTemporary : bool
}.

Inductive Toast : Type :=
| toast_success (id message : string)
| toast_error (id message : string).

(** A JavaScript [Set] of strings, in insertion order. *)
Module StrSet.

Definition has (k : string) (s : list string) : bool :=
  existsb (String.eqb k) s.

Definition add (k : string) (s : list string) : list string :=
  if has k s then s else s ++ [k].

(** [new Set(array)] *)
Definition of_array (l : list string) : list string :=
  fold_left (fun acc k => add k acc) l [].

End StrSet.

(** [notifiedPagesRef.current] and the [notifiedPages] item of localStorage
    ([None] when the item is absent, else the parsed JSON array). *)
Record Notifier : Type := mkNotifier {
  notifiedPagesRef : list string;
  localStorage_notifiedPages : option (list string)
}.

Definition pageKey (id : string) (s : Status) : string :=
  (id ++ "-" ++ Status_text s)%string.

(** Body of [pages.forEach] in [checkForCompletedJobs]; the accumulator holds
    the notifier, the toasts shown so far and [hasStatusChange]. *)
Definition check_page (acc : Notifier * list Toast * bool) (page : PageView)
  : Notifier * list Toast * bool :=
  let '(n, toasts, hasStatusChange) := acc in
  if pv_isTemporary page then acc
  else
    let key := pageKey (pv_id page) (pv_status page) in
    let shown := JS.or_else (pv_title page) (pv_url page) in
    if Status_eqb (pv_status page) COMPLETED
       && (0 <? pv_linkCount page)%Z
       && negb (StrSet.has key (notifiedPagesRef n))
    then
      let ref' := StrSet.add key (notifiedPagesRef n) in
      (mkNotifier ref' (Some ref'),
       toasts ++ [toast_success ("completed-" ++ pv_id page)
                    ("Scraping completed for " ++ shown ++ ": "
                     ++ JS.of_Z (pv_linkCount page) ++ " links found!")%string],
       true)
    else if Status_eqb (pv_status page) FAILED
            && negb (StrSet.has key (notifiedPagesRef n))
    then
      let ref' := StrSet.add key (notifiedPagesRef n) in
      (mkNotifier ref' (Some ref'),
       toasts ++ [toast_error ("failed-" ++ pv_id page)
                    ("Scraping failed for " ++ shown)%string],
       true)
    else acc.

Definition checkForCompletedJobs (pages : list PageView) (n : Notifier)
  : Notifier * list Toast * bool :=
  fold_left check_page pages (n, [], false).

(** What happens to the notifier during a session. *)
Inductive ClientEvent : Type :=
| Reload                                          (* the component mounts afresh *)
| Fetched                                         (* fetchPages got its response *)
| Rendered (pages : list PageView) (loading : bool). (* effect on [pages, loading] *)

(** Mounting: an empty Set in the ref, then the item of localStorage if there
    is one. *)
Definition mount (saved : option (list string)) : Notifier :=
  mkNotifier (match saved with
              | Some l => StrSet.of_array l
              | None => []
              end) saved.

Definition client_step (n : Notifier) (e : ClientEvent) : Notifier * list Toast :=
  match e with
  | Reload => (mount (localStorage_notifiedPages n), [])
  | Fetched =>
      (match localStorage_notifiedPages n with
       | Some l => mkNotifier (StrSet.of_array l) (Some l)
       | None => n
       end, [])
  | Rendered pages loading =>
      if (0 <? length pages)%nat && negb loading
      then fst (checkForCompletedJobs pages n)
      else (n, [])
  end.

(** A session: the toasts of all events, in order. *)
Fixpoint client_run (es : list ClientEvent) (n : Notifier)
  : Notifier * list Toast :=
  match es with
  | [] => (n, [])
  | e :: es' =>
      let '(n1, t1) := client_step n e in
      let '(n2, t2) := client_run es' n1 in
      (n2, t1 ++ t2)
  end.

(** Whether a toast announces status [s] of page [id]. *)
Definition announces (id : string) (s : Status) (t : Toast) : bool :=
  match t with
  | toast_success tid _ =>
      Status_eqb s COMPLETED && String.eqb tid ("completed-" ++ id)
  | toast_error tid _ =>
      Status_eqb s FAILED && String.eqb tid ("failed-" ++ id)
  end.

Definition announcements (id : string) (s : Status) (ts : list Toast) : nat :=
  length (filter (announces id s) ts).

(* ------------------------------------------------------------------ *)
(** ** Stores a run of the worker passes through *)

(** The view of the transaction once PROCESSING is written. *)
Definition processing_view (id : string) (db : Db) : Db :=
  mkDb (Prisma.update_rows id (set_status PROCESSING) (pages db)) (links db).

(** The store a successful run commits. *)
Definition completed_store (id : string) (data : ScrapedPage) (db : Db) : Db :=
  mkDb (Prisma.update_rows id
          (set_completed (sp_title data) (Z.of_nat (length (sp_links data))))
          (pages db))
       (links db ++ map (link_row id) (sp_links data)).

(** The store after the catch block has marked the page. *)
Definition failed_store (id : string) (db : Db) : Db :=
  mkDb (Prisma.update_rows id set_failed (pages db)) (links db).

(** Whether a store shows the page in a given status. *)
Definition shows_status (id : string) (s : Status) (db : Db) : bool :=
  match Prisma.page_findUnique id db with
  | Some p => Status_eqb (page_status p) s
  | None => false
  end.

(* ------------------------------------------------------------------ *)
(** ** The extractor as the specification words it *)

Section ExtractorSpec.

Context {U : URLParser}.

(** An href is a javascript: pseudo-URL when it is written with that scheme
    or the parser reads it as a URL of that scheme; a serialised URL has its
    scheme in lower case, however the reference spells it. *)
Definition javascript_url (baseUrl h : string) : bool :=
  String.prefix "javascript:" h
  || match url_href h baseUrl with
     | Some u => String.prefix "javascript:" u
     | None => false
     end.


(** Every javascript: pseudo-URL of the document is spelled with the
    lower-case prefix. *)
Definition javascript_hrefs_plain (doc : Document) (baseUrl : string) : bool :=
  forallb (fun a => implb (javascript_url baseUrl (a_href a))
                          (String.prefix "javascript:" (a_href a)))
          (doc_anchors doc).



End ExtractorSpec.

(* ------------------------------------------------------------------ *)
(** ** Bookkeeping of the notifier *)

(** The keys the persisted record holds. *)
Definition stored (n : Notifier) : list string :=
  match localStorage_notifiedPages n with
  | Some l => l
  | None => []
  end.

(** The ref and the persisted record hold the same keys. *)
Definition synced (n : Notifier) : Prop :=
  forall k, In k (notifiedPagesRef n) <-> In k (stored n).

(** How the toasts [ts] shown between notifier [n] and notifier [n'] relate
    to the keys recorded. *)
Record tracks (n n' : Notifier) (ts : list Toast) : Prop := mkTracks {
  tr_synced : synced n';
  tr_grows : incl (notifiedPagesRef n) (notifiedPagesRef n');
  tr_once : forall id s, (announcements id s ts <= 1)%nat;
  tr_known : forall id s,
      In (pageKey id s) (notifiedPagesRef n) -> announcements id s ts = 0%nat;
  tr_recorded : forall id s,
      (0 < announcements id s ts)%nat -> In (pageKey id s) (notifiedPagesRef n');
  tr_origin : forall k,
      In k (notifiedPagesRef n') ->
      In k (notifiedPagesRef n)
      \/ exists id,
           (k = pageKey id COMPLETED /\ (0 < announcements id COMPLETED ts)%nat)
           \/ (k = pageKey id FAILED /\ (0 < announcements id FAILED ts)%nat)
}.

(** A page a success toast is due for. *)
Definition announceable (p : PageView) : Prop :=
  pv_isTemporary p = false /\ pv_status p = COMPLETED /\ (0 < pv_linkCount p)%Z.

(* ------------------------------------------------------------------ *)
(** ** Sample data *)

Module Sample.

Definition base : string := "https://example.com/".

(** Two absolute anchors, one relative, one javascript: and one
    fragment-only anchor. *)
Definition fixture : Document :=
  mkDocument "Example Page" "Welcome to Example" None None
    [ mkAnchor "https://example.com/page1" "Page 1" None [];
      mkAnchor "https://external.com/" "External Link" None [];
      mkAnchor "/about" "About" None [];
      mkAnchor "javascript:void(0)" "JavaScript Link" None [];
      mkAnchor "#" "Empty Link" None [] ].

Definition accept_all (url : string) : bool := true.

Definition job1 : JobData := mkJobData "p1" base "u1".

Definition server0 : Server := mkServer (mkDb [] []) [].

(** The owner submits [base]; the page gets the key p1. *)
Definition server1 : Server :=
  fst (post_pages accept_all "p1" base "u1" server0).

(** The fixture is fetched in 300 ms; a request times out after 30 s; the
    fixture arrives, but only after 5.5 s. *)
Definition fetched : Fetch := mkFetch (Ok fixture) 300.

Definition timed_out : Fetch := mkFetch (Err "timeout of 30000ms exceeded") 30000.

Definition slow : Fetch := mkFetch (Ok fixture) 5500.

(** The first attempt of the job times out. *)
Definition db2 : Db :=
  worker_store (U := SampleURL.parser) timed_out job1 (srv_db server1).

(** The owner retries the failed page, which enqueues a second job. *)
Definition server3 : Server :=
  fst (post_retry "p1" "u1" (mkServer db2 (srv_queue server1))).

(** The second job runs and succeeds. *)
Definition db4 : Db :=
  worker_store (U := SampleURL.parser) fetched job1 (srv_db server3).

(** The second attempt of the first job, due after its backoff, runs on
    the completed page. *)
Definition db5 : Db :=
  worker_store (U := SampleURL.parser) fetched job1 db4.

(** A javascript: anchor whose scheme is not spelled in lower case. *)
Definition mixed_case : Document :=
  mkDocument "" "" None None
    [ mkAnchor "JavaScript:void(0)" "Run" None [] ].

(** A page of another origin whose host extends the base's host. *)
Definition lookalike : Document :=
  mkDocument "" "" None None
    [ mkAnchor "http://example.com.evil.org/login" "Sign in" None [] ].

(** A completed page with links, and one without. *)
Definition done5 : PageView :=
  mkPageView "real-1" base (Some "X") COMPLETED 5 false.

Definition done0 : PageView :=
  mkPageView "real-2" base (Some "Y") COMPLETED 0 false.


(** Polls of the same terminal state around a reload. *)
Definition session : list ClientEvent :=
  [ Fetched; Rendered [done5; done0] false; Rendered [done5; done0] false;
    Reload; Fetched; Rendered [done5; done0] false ].

End Sample.

(* ------------------------------------------------------------------ *)
(** ** More of the store: deletion, listings, pagination *)

Module PrismaMore.

(** [page.delete({ where: { id } })].  The links table references pages with
    ON DELETE CASCADE, so the rows of the page go with it. *)
Definition page_delete (id : string) (db : Db) : result (Page * Db) :=
  match Prisma.page_findUnique id db with
  | Some p =>
      Ok (p, mkDb (filter (fun q => negb (String.eqb (page_id q) id)) (pages db))
                  (filter (fun l => negb (String.eqb (link_pageId l) id)) (links db)))
  | None => Err "Record to delete does not exist."
  end.

(** The rows matched by [where: { userId }]. *)
Definition pages_where_user (userId : string) (db : Db) : list Page :=
  filter (fun p => String.eqb (page_userId p) userId) (pages db).

(** [page.count({ where: { userId } })] *)
Definition page_count_user (userId : string) (db : Db) : Z :=
  Z.of_nat (length (pages_where_user userId db)).

(** [link.count({ where: { pageId } })] *)
Definition link_count_page (pageId : string) (db : Db) : Z :=
  Z.of_nat (length (links_of pageId db)).

End PrismaMore.

(** A query parameter that should be an integer: absent, not an integer, or
    the integer it denotes. *)
Inductive QueryInt : Type :=
| QAbsent
| QNotInt
| QInt (z : Z).

(** [query(name).optional().isInt({ min, max })] *)
Definition valid_int (lo : Z) (hi : option Z) (q : QueryInt) : bool :=
  match q with
  | QAbsent => true
  | QNotInt => false
  | QInt z =>
      (lo <=? z)%Z && match hi with Some h => (z <=? h)%Z | None => true end
  end.

(** [validatePagination] *)
Definition validatePagination (qpage qlimit : QueryInt) : bool :=
  valid_int 1 None qpage && valid_int 1 (Some 100%Z) qlimit.

(** [parseInt(req.query.x) || dflt], exact up to [JS.MAX_SAFE_INTEGER]. *)
Definition parse_or (q : QueryInt) (dflt : Z) : Z :=
  match q with
  | QInt z => if (z =? 0)%Z then dflt else z
  | _ => dflt
  end.

(** [Math.ceil(total / limit)] for a positive [limit]. *)
Definition ceil_div (total limit : Z) : Z := (- ((- total) / limit))%Z.

Record Pagination : Type := mkPagination {
  currentPage : Z;
  totalPages : Z;
  totalItems : Z;
  itemsPerPage : Z;
  hasNextPage : bool;
  hasPrevPage : bool
}.

(** The [pagination] object of the list routes. *)
Definition pagination_of (total page limit : Z) : Pagination :=
  let totalPagesCount := ceil_div total limit in
  mkPagination page totalPagesCount total limit
               (page <? totalPagesCount)%Z (1 <? page)%Z.

(** [skip: offset, take: limit] on the ordered rows, with
    [offset = (page - 1) * limit]. *)
Definition skip_take {A} (rows : list A) (page limit : Z) : list A :=
  firstn (Z.to_nat limit) (skipn (Z.to_nat ((page - 1) * limit)) rows).

Inductive Listing (A : Type) : Type :=
| ListingErrors                                    (* 400 { errors } *)
| ListingNotFound                                  (* 404 { error: 'Page not found' } *)
| ListingOk (rows : list A) (p : Pagination).      (* 200 *)
Arguments ListingErrors {A}.
Arguments ListingNotFound {A}.

Section Listings.

(** [orderBy: { createdAt: 'desc' }].  The creation times are not part of the
    modelled rows, so the ordering the database applies is a parameter. *)
Variable newest_pages : list Page -> list Page.
Variable newest_links : list Link -> list Link.

(** [router.get('/')] of the pages routes, for page numbers whose offset is
    a safe integer. *)
Definition get_pages (qpage qlimit : QueryInt) (userId : string) (db : Db)
  : Listing Page :=
  if negb (validatePagination qpage qlimit) then ListingErrors
  else
    let page := parse_or qpage 1 in
    let limit := parse_or qlimit 10 in
    ListingOk (skip_take (newest_pages (PrismaMore.pages_where_user userId db))
                         page limit)
              (pagination_of (PrismaMore.page_count_user userId db) page limit).

(** [router.get('/page/:pageId')] of the links routes, under the same
    limit. *)
Definition get_page_links (pageId : string) (qpage qlimit : QueryInt)
           (userId : string) (db : Db) : Listing Link :=
  if negb (validatePagination qpage qlimit) then ListingErrors
  else
    let page := parse_or qpage 1 in
    let limit := parse_or qlimit 20 in
    match Prisma.page_findFirst_id pageId userId db with
    | None => ListingNotFound
    | Some _ =>
        ListingOk (skip_take (newest_links (links_of pageId db)) page limit)
                  (pagination_of (PrismaMore.link_count_page pageId db) page limit)
    end.

End Listings.

(** [router.get('/:id')]: the page with its links, or 404. *)
Definition get_page (id userId : string) (db : Db) : option (Page * list Link) :=
  match Prisma.page_findFirst_id id userId db with
  | Some page => Some (page, links_of (page_id page) db)
  | None => None
  end.

(** [router.delete('/:id')].  Jobs already queued for the page stay queued. *)
Definition delete_page (id userId : string) (s : Server) : Server * Response :=
  match Prisma.page_findFirst_id id userId (srv_db s) with
  | None => (s, mkResponse 404 (ErrorBody "Page not found"))
  | Some _ =>
      match PrismaMore.page_delete id (srv_db s) with
      | Err _ => (s, mkResponse 500 (ErrorBody "Failed to delete page"))
      | Ok (_, db') =>
          (mkServer db' (srv_queue s),
           mkResponse 200 (MessageBody "Page deleted successfully"))
      end
  end.

(* ------------------------------------------------------------------ *)
(** ** The server as a whole *)

(** What can happen to the store: a request of a user, or the worker
    processing a job once with some fetch. *)
Inductive Action : Type :=
| Submit (newId url userId : string)
| Retry (id userId : string)
| Delete (id userId : string)
| RunJob (fetch : Fetch) (job : JobData).

Section ServerActions.

Context {U : URLParser}.
Variable isURL : string -> bool.

Definition act (s : Server) (a : Action) : Server :=
  match a with
  | Submit newId url userId => fst (post_pages isURL newId url userId s)
  | Retry id userId => fst (post_retry id userId s)
  | Delete id userId => fst (delete_page id userId s)
  | RunJob fetch job =>
      mkServer (worker_store fetch job (srv_db s)) (srv_queue s)
  end.

Definition run_actions (actions : list Action) (s : Server) : Server :=
  fold_left act actions s.

End ServerActions.

(** Invariants of the store. *)
Definition unique_ids (db : Db) : Prop :=
  NoDup (map page_id (pages db)).

Definition unique_urls_per_owner (db : Db) : Prop :=
  NoDup (map (fun p => (page_url p, page_userId p)) (pages db)).

Definition links_have_pages (db : Db) : Prop :=
  forall l, In l (links db) -> In (link_pageId l) (map page_id (pages db)).

(** No page counts more links than are stored for it. *)
Definition linkcount_within_rows (db : Db) : Prop :=
  forall p, In p (pages db) -> (page_linkCount p <= link_rows (page_id p) db)%Z.

(** The three invariants together. *)
Definition store_ok (db : Db) : Prop :=
  unique_ids db /\ unique_urls_per_owner db /\ links_have_pages db.

(** The rows of a listing; none when the request was refused. *)
Definition rows_of {A} (r : Listing A) : list A :=
  match r with
  | ListingOk rows _ => rows
  | _ => []
  end.

Definition terminal (s : Status) : bool :=
  match s with
  | COMPLETED | FAILED => true
  | PENDING | PROCESSING => false
  end.

(* ------------------------------------------------------------------ *)
(** ** Dashboard: the list of pages *)

(** [s.includes(sub)] *)
Definition JS_includes (s sub : string) : bool :=
  match String.index 0 sub s with
  | Some _ => true
  | None => false
  end.

(** [l.findIndex(f)]; [None] stands for -1. *)
Fixpoint findIndex {A} (f : A -> bool) (l : list A) : option nat :=
  match l with
  | [] => None
  | x :: r => if f x then Some 0%nat else option_map S (findIndex f r)
  end.

(** [l[i] = x] for an index within the array. *)
Fixpoint set_nth {A} (i : nat) (x : A) (l : list A) : list A :=
  match l, i with
  | [], _ => []
  | _ :: r, O => x :: r
  | y :: r, S i' => y :: set_nth i' x r
  end.

(** A page object of the server's response shown as it is: it has no
    [isTemporary] property. *)
Definition view_of_server (serverPage : Page) : PageView :=
  mkPageView (page_id serverPage) (page_url serverPage) (page_title serverPage)
             (page_status serverPage) (page_linkCount serverPage) false.

(** [{ ...tempRecord, ...serverPage, title: serverPage.title || tempRecord.title,
       url: serverPage.url || tempRecord.url }], then the status of the
    server. *)
Definition merge_entry (tempRecord : PageView) (serverPage : Page) : PageView :=
  mkPageView (page_id serverPage)
             (JS.or_else (Some (page_url serverPage)) (pv_url tempRecord))
             (if JS.truthy (page_title serverPage) then page_title serverPage
              else pv_title tempRecord)
             (page_status serverPage)
             (page_linkCount serverPage)
             (pv_isTemporary tempRecord).

(** Body of [serverPages.forEach] in [fetchPages]. *)
Definition merge_server_page (mergedPages : list PageView) (serverPage : Page)
  : list PageView :=
  match findIndex (fun p => String.eqb (pv_id p) (page_id serverPage)) mergedPages with
  | Some existingTempIndex =>
      match nth_error mergedPages existingTempIndex with
      | Some tempRecord =>
          set_nth existingTempIndex (merge_entry tempRecord serverPage) mergedPages
      | None => mergedPages
      end
  | None => mergedPages ++ [view_of_server serverPage]
  end.

(** The list [fetchPages] sets from the current list and the server's
    response. *)
Definition merge_pages (pages : list PageView) (serverPages : list Page)
  : list PageView :=
  fold_left merge_server_page serverPages (filter pv_isTemporary pages).

(** The test of [hasProcessingPages] on one page. *)
Definition is_processing (page : PageView) : bool :=
  Status_eqb (pv_status page) PENDING
  || Status_eqb (pv_status page) PROCESSING
  || (pv_isTemporary page
      && (Status_eqb (pv_status page) PENDING
          || Status_eqb (pv_status page) PROCESSING)).

Definition hasProcessingPages (pages : list PageView) : bool :=
  existsb is_processing pages.

(** What [handleSubmit] does before the request. *)
Inductive Submission : Type :=
| SubmitEmpty                                  (* 'Please enter a URL' *)
| SubmitDuplicate (existingPage : PageView)    (* error toast, nothing is sent *)
| SubmitSent (tempId : string) (pages : list PageView) (url : string).
                                               (* POST /api/pages { url } *)

Definition handleSubmit (url : string) (now : Z) (pages : list PageView)
  : Submission :=
  if String.eqb (JS.trim url) "" then SubmitEmpty
  else
    let normalizedUrl := JS.toLowerCase (JS.trim url) in
    match find (fun page => String.eqb (JS.toLowerCase (pv_url page)) normalizedUrl
                            && negb (pv_isTemporary page)) pages with
    | Some existingPage => SubmitDuplicate existingPage
    | None =>
        let tempId := ("temp-" ++ JS.of_Z now)%string in
        SubmitSent tempId
                   (mkPageView tempId (JS.trim url) None PENDING 0 true :: pages)
                   (JS.trim url)
    end.

(** How the POST settles for the client. *)
Inductive PostOutcome : Type :=
| PostResolved (realId : string)
| PostRejected (status : option Z) (error : option string).

(** The outcome axios reports for a response of the create route: a 2xx
    status resolves, any other rejects with [error.response].  [None] for
    a 2xx response without a page, which the route never sends. *)
Definition post_outcome (r : Response) : option PostOutcome :=
  if (200 <=? res_status r)%Z && (res_status r <? 300)%Z then
    match res_body r with
    | CreatedBody _ page => Some (PostResolved (page_id page))
    | _ => None
    end
  else
    Some (PostRejected (Some (res_status r))
                       match res_body r with
                       | ErrorBody e => Some e
                       | _ => None
                       end).

Inductive Notice : Type :=
| NoticeSuccess (message : string)
| NoticeError (message : string).

Definition status_is (status : option Z) (code : Z) : bool :=
  match status with
  | Some z => (z =? code)%Z
  | None => false
  end.

(** What [handleSubmit] does once the POST has settled: the new list and the
    toast shown, if any. *)
Definition submit_settled (tempId : string) (o : PostOutcome)
           (prevPages : list PageView) : list PageView * option Notice :=
  match o with
  | PostResolved realId =>
      (map (fun page =>
              if String.eqb (pv_id page) tempId
              then mkPageView realId (pv_url page) (pv_title page) PROCESSING
                              (pv_linkCount page) false
              else page) prevPages,
       Some (NoticeSuccess "Page added for scraping!"))
  | PostRejected status error =>
      if status_is status 401
      then (filter (fun page => negb (String.eqb (pv_id page) tempId)) prevPages, None)
      else if status_is status 400
              && match error with
                 | Some e => JS_includes e "already exists"
                 | None => false
                 end
      then (filter (fun page => negb (String.eqb (pv_id page) tempId)) prevPages,
            option_map NoticeError error)
      else
        (map (fun page =>
                if String.eqb (pv_id page) tempId
                then mkPageView (pv_id page) (pv_url page) (pv_title page) FAILED
                                (pv_linkCount page) false
                else page) prevPages,
         Some (NoticeError (JS.or_else error "Failed to add page")))
  end.

(** The id of an entry and whether it is temporary. *)
Definition id_and_flag (v : PageView) : string * bool :=
  (pv_id v, pv_isTemporary v).

(** The entry a failed submission leaves in the list. *)
Definition failed_entry (tempId url : string) : PageView :=
  mkPageView tempId url None FAILED 0 false.

(* ================================================================== *)
(** * Properties *)

(** ** Store lemmas *)

Section StoreFacts.

Variable id : string.
Variable f : Page -> Page.
Hypothesis f_keeps_id : forall p, page_id (f p) = page_id p.

Lemma find_update_rows (ps : list Page) :
  find (fun p => String.eqb (page_id p) id) (Prisma.update_rows id f ps)
  = option_map f (find (fun p => String.eqb (page_id p) id) ps).
Proof.
  induction ps as [|q ps IH]; simpl; [reflexivity|].
  destruct (String.eqb (page_id q) id) eqn:E.
  - rewrite f_keeps_id, E. reflexivity.
  - rewrite E. exact IH.
Qed.

Lemma update_rows_twice (g : Page -> Page) (ps : list Page) :
  Prisma.update_rows id g (Prisma.update_rows id f ps)
  = Prisma.update_rows id (fun p => g (f p)) ps.
Proof.
  unfold Prisma.update_rows. rewrite map_map. apply map_ext.
  intros q. destruct (String.eqb (page_id q) id) eqn:E.
  - rewrite f_keeps_id, E. reflexivity.
  - rewrite E. reflexivity.
Qed.

Lemma findUnique_update (db : Db) (p : Page) :
  Prisma.page_findUnique id db = Some p ->
  Prisma.page_update id f db
  = Ok (f p, mkDb (Prisma.update_rows id f (pages db)) (links db)).
Proof. unfold Prisma.page_update. intros ->. reflexivity. Qed.

Lemma findUnique_after_update (ps : list Page) (ls : list Link) (p : Page) :
  Prisma.page_findUnique id (mkDb ps ls) = Some p ->
  Prisma.page_findUnique id (mkDb (Prisma.update_rows id f ps) ls) = Some (f p).
Proof.
  unfold Prisma.page_findUnique. simpl. intros H.
  rewrite find_update_rows, H. reflexivity.
Qed.

End StoreFacts.

Lemma update_rows_absent (id : string) (f : Page -> Page) (ps : list Page) :
  find (fun p => String.eqb (page_id p) id) ps = None ->
  Prisma.update_rows id f ps = ps.
Proof.
  induction ps as [|q ps IH]; simpl; [reflexivity|].
  destruct (String.eqb (page_id q) id) eqn:E; [discriminate|].
  intros H. rewrite (IH H). reflexivity.
Qed.

Lemma links_of_app (id : string) (ps : list Page) (l1 l2 : list Link) :
  links_of id (mkDb ps (l1 ++ l2))
  = links_of id (mkDb ps l1) ++ filter (fun l => String.eqb (link_pageId l) id) l2.
Proof. unfold links_of. simpl. apply filter_app. Qed.

Lemma filter_link_row (id : string) (ls : list ScrapedLink) :
  filter (fun l => String.eqb (link_pageId l) id) (map (link_row id) ls)
  = map (link_row id) ls.
Proof.
  induction ls as [|l ls IH]; simpl; [reflexivity|].
  rewrite String.eqb_refl, IH. reflexivity.
Qed.

(** ** The worker, case by case *)

Section WorkerFacts.

Context {U : URLParser}.

Lemma expired_after_await_any (view : Db) (ms : Z) :
  tx_expired (mkTxState view (Z.max 0 ms)) = (tx_timeout <? ms)%Z.
Proof.
  unfold tx_expired, tx_timeout. simpl.
  destruct (5000 <? ms)%Z eqn:E.
  - apply Z.ltb_lt in E. apply Z.ltb_lt. lia.
  - apply Z.ltb_ge in E. apply Z.ltb_ge. lia.
Qed.

(** The run of the callback up to the point where the fetch has settled. *)
Lemma scrape_tx_run (fetch : Fetch) (job : JobData) (db : Db) (p : Page) :
  Prisma.page_findUnique (job_pageId job) db = Some p ->
  let id := job_pageId job in
  let view := processing_view id db in
  let late := (tx_timeout <? fetch_ms fetch)%Z in
  scrape_tx fetch id (job_url job) (mkTxState db 0)
  = mkTxRun [(StatusWritten, view); (FetchInFlight, view)]
            match scrapePage (fetch_settled fetch) (job_url job) None with
            | Err e => Err e
            | Ok data =>
                if late then Err tx_closed
                else Ok (set_completed (sp_title data)
                                       (Z.of_nat (length (sp_links data))) p,
                         mkTxState (completed_store id data db)
                                   (Z.max 0 (fetch_ms fetch)))
            end.
Proof.
  intros Hp id view late.
  assert (Hv : Prisma.page_findUnique id view = Some (set_status PROCESSING p)).
  { unfold view, processing_view. destruct db as [ps ls].
    apply findUnique_after_update; auto. }
  assert (Hlate : forall v, tx_expired (mkTxState v (Z.max 0 (fetch_ms fetch))) = late).
  { intros v. apply expired_after_await_any. }
  fold id in Hp.
  assert (Hu1 : Prisma.page_update id (set_status PROCESSING) db
                = Ok (set_status PROCESSING p, view)).
  { apply (@findUnique_update _ (set_status PROCESSING) db _ Hp). }
  assert (Hu2 : forall f, Prisma.page_update id f view
                = Ok (f (set_status PROCESSING p),
                      mkDb (Prisma.update_rows id f (pages view)) (links view))).
  { intros f. apply (@findUnique_update _ f view _ Hv). }
  unfold scrape_tx, TxM.bind, TxM.read, TxM.write, TxM.mark, TxM.await, TxM.ret.
  cbn [tx_result tx_points tx_view tx_clock].
  change (tx_expired (mkTxState db 0)) with false. cbn iota.
  rewrite Hp. cbn beta iota. cbn [tx_result tx_points tx_view tx_clock].
  change (tx_expired (mkTxState db 0)) with false. cbn iota.
  rewrite Hu1. cbn [tx_result tx_points tx_view tx_clock app].
  destruct (scrapePage (fetch_settled fetch) (job_url job) None) as [data|e];
    cbn [tx_result tx_points tx_view tx_clock app]; [|reflexivity].
  rewrite !Hlate. destruct late; cbn [tx_result tx_points app]; [reflexivity|].
  rewrite Hu2. cbn [tx_result tx_points tx_view tx_clock app].
  assert (Hc : mkDb (Prisma.update_rows id
                       (set_completed (sp_title data)
                                      (Z.of_nat (length (sp_links data))))
                       (pages view)) (links view)
               = mkDb (Prisma.update_rows id
                         (set_completed (sp_title data)
                                        (Z.of_nat (length (sp_links data))))
                         (pages db)) (links db)).
  { unfold view, processing_view. simpl.
    rewrite update_rows_twice by reflexivity. reflexivity. }
  rewrite Hc, length_map.
  destruct (sp_links data) as [|l ls] eqn:El.
  - cbn [length Nat.ltb Nat.leb tx_result tx_points tx_view tx_clock app].
    unfold completed_store. rewrite El. simpl. rewrite app_nil_r. reflexivity.
  - cbn [length Nat.ltb Nat.leb tx_result tx_points tx_view tx_clock app].
    rewrite !Hlate. cbn [tx_result tx_points tx_view tx_clock app].
    unfold completed_store, Prisma.link_createMany. rewrite El. reflexivity.
Qed.

Lemma worker_success (fetch : Fetch) (job : JobData) (db : Db)
      (p : Page) (data : ScrapedPage) :
  Prisma.page_findUnique (job_pageId job) db = Some p ->
  scrapePage (fetch_settled fetch) (job_url job) None = Ok data ->
  (fetch_ms fetch <= tx_timeout)%Z ->
  scraperWorker fetch job db
  = ([mkSeen StatusWritten db (Some (processing_view (job_pageId job) db));
      mkSeen FetchInFlight db (Some (processing_view (job_pageId job) db));
      mkSeen Committed (completed_store (job_pageId job) data db) None],
     completed_store (job_pageId job) data db,
     Ok (set_completed (sp_title data) (Z.of_nat (length (sp_links data))) p)).
Proof.
  intros Hp Hs Hms.
  unfold scraperWorker, transaction. rewrite (scrape_tx_run fetch job db Hp).
  cbn [tx_result tx_points map fst snd]. rewrite Hs.
  replace (tx_timeout <? fetch_ms fetch)%Z with false
    by (symmetry; apply Z.ltb_ge; exact Hms).
  rewrite (@expired_after_await_any (completed_store (job_pageId job) data db)).
  replace (tx_timeout <? fetch_ms fetch)%Z with false
    by (symmetry; apply Z.ltb_ge; exact Hms).
  reflexivity.
Qed.

(** The fetch brought the page, but too late: the transaction has expired,
    the update is refused and the catch block marks the page FAILED. *)
Lemma worker_expired (fetch : Fetch) (job : JobData) (db : Db)
      (p : Page) (data : ScrapedPage) :
  Prisma.page_findUnique (job_pageId job) db = Some p ->
  scrapePage (fetch_settled fetch) (job_url job) None = Ok data ->
  (tx_timeout < fetch_ms fetch)%Z ->
  scraperWorker fetch job db
  = ([mkSeen StatusWritten db (Some (processing_view (job_pageId job) db));
      mkSeen FetchInFlight db (Some (processing_view (job_pageId job) db));
      mkSeen RolledBack db None;
      mkSeen FailureHandled (failed_store (job_pageId job) db) None],
     failed_store (job_pageId job) db,
     Err tx_closed).
Proof.
  intros Hp Hs Hms.
  unfold scraperWorker, transaction. rewrite (scrape_tx_run fetch job db Hp).
  cbn [tx_result tx_points map fst snd]. rewrite Hs.
  replace (tx_timeout <? fetch_ms fetch)%Z with true
    by (symmetry; apply Z.ltb_lt; exact Hms).
  cbn [app]. unfold record_failure. rewrite Hp.
  rewrite (@findUnique_update _ set_failed db _ Hp).
  reflexivity.
Qed.

Lemma worker_failure (fetch : Fetch) (job : JobData) (db : Db)
      (p : Page) (e : string) :
  Prisma.page_findUnique (job_pageId job) db = Some p ->
  scrapePage (fetch_settled fetch) (job_url job) None = Err e ->
  scraperWorker fetch job db
  = ([mkSeen StatusWritten db (Some (processing_view (job_pageId job) db));
      mkSeen FetchInFlight db (Some (processing_view (job_pageId job) db));
      mkSeen RolledBack db None;
      mkSeen FailureHandled (failed_store (job_pageId job) db) None],
     failed_store (job_pageId job) db,
     Err e).
Proof.
  intros Hp Hs.
  unfold scraperWorker, transaction. rewrite (scrape_tx_run fetch job db Hp).
  cbn [tx_result tx_points map fst snd]. rewrite Hs.
  cbn [app]. unfold record_failure. rewrite Hp.
  rewrite (@findUnique_update _ set_failed db _ Hp).
  reflexivity.
Qed.

Lemma worker_page_absent (fetch : Fetch) (job : JobData) (db : Db) :
  Prisma.page_findUnique (job_pageId job) db = None ->
  scraperWorker fetch job db
  = ([mkSeen RolledBack db None; mkSeen FailureHandled db None],
     db, Err "Page not found").
Proof.
  intros Hp.
  unfold scraperWorker, transaction, scrape_tx, TxM.bind, TxM.read, TxM.throw.
  cbn [tx_result tx_points tx_view tx_clock].
  change (tx_expired (mkTxState db 0)) with false. cbn iota.
  rewrite Hp. cbn [tx_result tx_points map app].
  unfold record_failure. rewrite Hp. reflexivity.
Qed.

(** The four ways a run of the processor can go. *)
Lemma worker_cases (fetch : Fetch) (job : JobData) (db : Db) :
  let id := job_pageId job in
  (Prisma.page_findUnique id db = None
   /\ scraperWorker fetch job db
      = ([mkSeen RolledBack db None; mkSeen FailureHandled db None],
         db, Err "Page not found"))
  \/ (exists p e,
        Prisma.page_findUnique id db = Some p
        /\ scrapePage (fetch_settled fetch) (job_url job) None = Err e
        /\ scraperWorker fetch job db
           = ([mkSeen StatusWritten db (Some (processing_view id db));
               mkSeen FetchInFlight db (Some (processing_view id db));
               mkSeen RolledBack db None;
               mkSeen FailureHandled (failed_store id db) None],
              failed_store id db, Err e))
  \/ (exists p data,
        Prisma.page_findUnique id db = Some p
        /\ scrapePage (fetch_settled fetch) (job_url job) None = Ok data
        /\ (tx_timeout < fetch_ms fetch)%Z
        /\ scraperWorker fetch job db
           = ([mkSeen StatusWritten db (Some (processing_view id db));
               mkSeen FetchInFlight db (Some (processing_view id db));
               mkSeen RolledBack db None;
               mkSeen FailureHandled (failed_store id db) None],
              failed_store id db, Err tx_closed))
  \/ (exists p data,
        Prisma.page_findUnique id db = Some p
        /\ scrapePage (fetch_settled fetch) (job_url job) None = Ok data
        /\ (fetch_ms fetch <= tx_timeout)%Z
        /\ scraperWorker fetch job db
           = ([mkSeen StatusWritten db (Some (processing_view id db));
               mkSeen FetchInFlight db (Some (processing_view id db));
               mkSeen Committed (completed_store id data db) None],
              completed_store id data db,
              Ok (set_completed (sp_title data)
                                (Z.of_nat (length (sp_links data))) p))).
Proof.
  intros id. subst id.
  destruct (Prisma.page_findUnique (job_pageId job) db) as [p|] eqn:Hp.
  - right.
    destruct (scrapePage (fetch_settled fetch) (job_url job) None)
      as [data|e] eqn:Hs.
    + right. destruct (Z_lt_le_dec tx_timeout (fetch_ms fetch)) as [Hl|Hl].
      * left. exists p, data. repeat split; auto.
        apply (worker_expired fetch job db Hp Hs Hl).
      * right. exists p, data. repeat split; auto.
        apply (worker_success fetch job db Hp Hs Hl).
    + left. exists p, e. repeat split; auto.
      apply (worker_failure fetch job db Hp Hs).
  - left. split; auto. apply worker_page_absent; exact Hp.
Qed.

End WorkerFacts.

(** ** The Scrape Executor *)

(** C1 (as amended).  A job succeeds only on an existing page whose fetch
    and extraction succeed before the transaction runs out of time, and a
    successful job lands title, COMPLETED, linkCount and the extracted link
    rows in one commit: readers see the store of before the job until the
    commit and the completed store from then on.  linkCount is the number of
    links of this run; the rows are appended to those the page already had,
    so linkCount equals the number of rows stored for the page when the page
    had none before the job. *)
Theorem C1_success_is_one_commit
        (U : URLParser) (fetch : Fetch) (job : JobData) (db : Db) (r : Page) :
  worker_result fetch job db = Ok r ->
  let id := job_pageId job in
  let db' := worker_store fetch job db in
  exists p data,
    let n := Z.of_nat (length (sp_links data)) in
    Prisma.page_findUnique id db = Some p
    /\ scrapePage (fetch_settled fetch) (job_url job) None = Ok data
    /\ (fetch_ms fetch <= tx_timeout)%Z
    /\ r = set_completed (sp_title data) n p
    /\ map committed (worker_timeline fetch job db) = [db; db; db']
    /\ pages db' = Prisma.update_rows id (set_completed (sp_title data) n) (pages db)
    /\ Prisma.page_findUnique id db' = Some r
    /\ links db' = links db ++ map (link_row id) (sp_links data)
    /\ link_rows id db' = (link_rows id db + n)%Z
    /\ (link_rows id db = 0%Z ->
        option_map page_linkCount (Prisma.page_findUnique id db')
        = Some (link_rows id db')).
Proof.
  intros Hr id db'. subst db'.
  unfold worker_result, worker_timeline, worker_store in *.
  destruct (worker_cases fetch job db)
    as [[_ Hw]|[(p & e & _ & _ & Hw)|[(p & data & _ & _ & _ & Hw)
       |(p & data & Hp & Hs & Hms & Hw)]]];
    rewrite Hw in *; simpl in Hr; try discriminate.
  injection Hr as Hr. subst r. fold id in Hp |- *.
  exists p, data. cbv zeta. simpl.
  set (n := Z.of_nat (length (sp_links data))).
  assert (Hf : Prisma.page_findUnique id (completed_store id data db)
               = Some (set_completed (sp_title data) n p)).
  { unfold completed_store. destruct db as [ps ls]. simpl.
    apply findUnique_after_update; auto. }
  assert (Hl : link_rows id (completed_store id data db) = (link_rows id db + n)%Z).
  { unfold link_rows, completed_store. destruct db as [ps ls]. simpl.
    unfold links_of. simpl. rewrite filter_app, filter_link_row.
    rewrite length_app, length_map. subst n. lia. }
  repeat split; auto.
  intros H0. rewrite Hf, Hl, H0. reflexivity.
Qed.

Lemma C1_success_is_one_commit_witness :
  worker_result (U := SampleURL.parser) Sample.fetched Sample.job1
                (srv_db Sample.server1)
  = Ok (mkPage "p1" Sample.base (Some "Example Page") COMPLETED 3 "u1")
  /\ exists p data,
       Prisma.page_findUnique "p1" (srv_db Sample.server1) = Some p
       /\ map committed (worker_timeline (U := SampleURL.parser) Sample.fetched
                                         Sample.job1 (srv_db Sample.server1))
          = [srv_db Sample.server1; srv_db Sample.server1;
             completed_store "p1" data (srv_db Sample.server1)]
       /\ link_rows "p1" (completed_store "p1" data (srv_db Sample.server1)) = 3%Z.
Proof.
  split; [reflexivity|].
  destruct (@C1_success_is_one_commit SampleURL.parser Sample.fetched Sample.job1
              (srv_db Sample.server1)
              (mkPage "p1" Sample.base (Some "Example Page") COMPLETED 3 "u1")
              eq_refl)
    as (p & data & Hp & Hs & _ & _ & Ht & _ & _ & _ & Hl & _).
  exists p, data. split; [exact Hp|]. split.
  - rewrite Ht. injection Hs as Hs. subst data. reflexivity.
  - injection Hs as Hs. subst data. reflexivity.
Defined.

(** C1 as stated fails on a page that already has link rows: after a failed
    first attempt and a retry, both jobs succeed; the page is COMPLETED with
    linkCount 3 while 6 link rows are stored for it. *)
Lemma C1_counterexample :
  is_ok (worker_result (U := SampleURL.parser) Sample.fetched Sample.job1
                       Sample.db4) = true
  /\ option_map page_status (Prisma.page_findUnique "p1" Sample.db5) = Some COMPLETED
  /\ option_map page_linkCount (Prisma.page_findUnique "p1" Sample.db5) = Some 3%Z
  /\ link_rows "p1" Sample.db5 = 6%Z.
Proof. repeat split; reflexivity. Qed.

(** C2.  When the fetch or the extraction of a job on an existing page fails,
    the transaction is rolled back and the catch block records the failure:
    the page is FAILED, its title is the marker "Scraping Failed", its
    linkCount is what it was, the links table is untouched, and no store a
    reader could see during the run holds any other link rows. *)
Theorem C2_failure_marks_page_failed
        (U : URLParser) (fetch : Fetch) (job : JobData) (db : Db)
        (p : Page) (e : string) :
  Prisma.page_findUnique (job_pageId job) db = Some p ->
  scrapePage (fetch_settled fetch) (job_url job) None = Err e ->
  let id := job_pageId job in
  let db' := worker_store fetch job db in
  worker_result fetch job db = Err e
  /\ Prisma.page_findUnique id db'
     = Some (mkPage (page_id p) (page_url p) (Some "Scraping Failed") FAILED
                    (page_linkCount p) (page_userId p))
  /\ pages db' = Prisma.update_rows id set_failed (pages db)
  /\ links db' = links db
  /\ Forall (fun s => links (committed s) = links db)
            (worker_timeline fetch job db).
Proof.
  intros Hp Hs id db'.
  assert (Hw := worker_failure fetch job db Hp Hs).
  unfold worker_result, worker_timeline. subst db'. unfold worker_store.
  rewrite Hw. simpl. fold id.
  repeat split; auto.
  unfold failed_store. destruct db as [ps ls]. simpl.
  apply (@findUnique_after_update id set_failed); auto.
Qed.

Lemma C2_failure_marks_page_failed_witness :
  Prisma.page_findUnique "p1" (srv_db Sample.server1)
  = Some (mkPage "p1" Sample.base None PENDING 0 "u1")
  /\ Prisma.page_findUnique "p1" Sample.db2
     = Some (mkPage "p1" Sample.base (Some "Scraping Failed") FAILED 0 "u1")
  /\ links Sample.db2 = [].
Proof.
  split; [reflexivity|].
  pose proof (@C2_failure_marks_page_failed SampleURL.parser
                Sample.timed_out Sample.job1
                (srv_db Sample.server1)
                (mkPage "p1" Sample.base None PENDING 0 "u1")
                "Failed to scrape page: timeout of 30000ms exceeded"
                eq_refl eq_refl) as H.
  exact (conj (proj1 (proj2 H)) (proj1 (proj2 (proj2 (proj2 H))))).
Defined.

(** C3 (as amended).  A job whose page does not exist changes nothing in the
    store and its processor throws "Page not found"; the queue treats this as
    any other failure and makes every configured attempt, three for a job
    enqueued by [addScrapingJob], each of which finds the page absent. *)
Theorem C3_absent_page_uses_all_attempts
        (U : URLParser) (fetches : nat -> Fetch) (job : Job) (db : Db) :
  Prisma.page_findUnique (job_pageId (job_data job)) db = None ->
  scraperWorker (fetches 0%nat) (job_data job) db
  = ([mkSeen RolledBack db None; mkSeen FailureHandled db None],
     db, Err "Page not found")
  /\ process_job fetches job db
     = (db, repeat (Err "Page not found") (job_attempts job))
  /\ (forall q pageId url userId,
        addScrapingJob pageId url userId q = q ++ [job] ->
        length (snd (process_job fetches job db)) = 3%nat).
Proof.
  intros Hp.
  assert (Hrun : forall left k,
             run_attempts left k fetches (job_data job) db
             = (db, repeat (Err "Page not found") left)).
  { induction left as [|left IH]; intros k; simpl; [reflexivity|].
    unfold worker_store, worker_result.
    rewrite (worker_page_absent (fetches k) (job_data job) db Hp). simpl.
    rewrite IH. reflexivity. }
  split; [apply worker_page_absent; exact Hp|].
  split; [apply Hrun|].
  intros q pageId url userId Hq.
  unfold addScrapingJob in Hq. apply app_inv_head in Hq.
  injection Hq as Hq. subst job.
  unfold process_job. rewrite Hrun. simpl. reflexivity.
Qed.

Lemma C3_absent_page_uses_all_attempts_witness :
  Prisma.page_findUnique "p1" (mkDb [] []) = None
  /\ process_job (U := SampleURL.parser) (fun _ => Sample.fetched)
                 (mkJob Sample.job1 3 2000) (mkDb [] [])
     = (mkDb [] [], [Err "Page not found"; Err "Page not found"; Err "Page not found"]).
Proof.
  split; [reflexivity|].
  exact (proj1 (proj2 (@C3_absent_page_uses_all_attempts SampleURL.parser
                         (fun _ => Sample.fetched) (mkJob Sample.job1 3 2000)
                         (mkDb [] []) eq_refl))).
Defined.

(** C3 as stated fails: the job enqueued for a page that is gone is attempted
    three times, not once. *)
Lemma C3_counterexample :
  addScrapingJob "p1" Sample.base "u1" [] = [mkJob Sample.job1 3 2000]
  /\ Prisma.page_findUnique "p1" (mkDb [] []) = None
  /\ length (snd (process_job (U := SampleURL.parser) (fun _ => Sample.fetched)
                              (mkJob Sample.job1 3 2000) (mkDb [] [])))
     = 3%nat.
Proof. repeat split; reflexivity. Qed.

(** C4 (the code departs from the claim).  PROCESSING is written through
    the transaction before the fetch begins, so it stays private to the
    transaction: while the fetch is in flight the transaction's own view shows
    the page as PROCESSING, and the store other connections read is still the
    store of before the job.  Unless the page was PROCESSING already, no store
    committed during the run shows it as PROCESSING, however the fetch
    settles. *)
Theorem C4_processing_never_committed
        (U : URLParser) (fetch : Fetch) (job : JobData) (db : Db) (p : Page) :
  Prisma.page_findUnique (job_pageId job) db = Some p ->
  let id := job_pageId job in
  let t := worker_timeline fetch job db in
  nth_error t 0 = Some (mkSeen StatusWritten db (Some (processing_view id db)))
  /\ nth_error t 1 = Some (mkSeen FetchInFlight db (Some (processing_view id db)))
  /\ Prisma.page_findUnique id (processing_view id db)
     = Some (set_status PROCESSING p)
  /\ (page_status p <> PROCESSING ->
      forallb (fun s => negb (shows_status id PROCESSING (committed s))) t = true).
Proof.
  intros Hp id t.
  assert (Hview : Prisma.page_findUnique id (processing_view id db)
                  = Some (set_status PROCESSING p)).
  { unfold processing_view. destruct db as [ps ls]. simpl.
    apply findUnique_after_update; auto. }
  assert (Hdb : page_status p <> PROCESSING ->
                shows_status id PROCESSING db = false).
  { intros Hn. unfold shows_status. fold id in Hp. rewrite Hp.
    destruct (page_status p); try reflexivity. contradiction. }
  assert (Hc : forall data,
             shows_status id PROCESSING (completed_store id data db) = false).
  { intros data. unfold shows_status, completed_store.
    destruct db as [ps ls]. simpl.
    erewrite findUnique_after_update; eauto. }
  assert (Hf : shows_status id PROCESSING (failed_store id db) = false).
  { unfold shows_status, failed_store. destruct db as [ps ls]. simpl.
    erewrite findUnique_after_update; eauto. }
  subst t. unfold worker_timeline.
  destruct (worker_cases fetch job db)
    as [[Hq _]|[(q & e & _ & _ & Hw)|[(q & data & _ & _ & _ & Hw)
       |(q & data & _ & _ & _ & Hw)]]].
  - cbv zeta in Hq. rewrite Hp in Hq. discriminate.
  - rewrite Hw. simpl. fold id. repeat split; auto.
    intros Hn. rewrite (Hdb Hn), Hf. reflexivity.
  - rewrite Hw. simpl. fold id. repeat split; auto.
    intros Hn. rewrite (Hdb Hn), Hf. reflexivity.
  - rewrite Hw. simpl. fold id. repeat split; auto.
    intros Hn. rewrite (Hdb Hn), Hc. reflexivity.
Qed.

(** On the sample store: the page is PENDING, the fetch succeeds in time,
    and the committed store shows PENDING at both points before the commit
    and PROCESSING at none. *)
Lemma C4_processing_never_committed_witness :
  Prisma.page_findUnique "p1" (srv_db Sample.server1)
  = Some (mkPage "p1" Sample.base None PENDING 0 "u1")
  /\ is_ok (worker_result (U := SampleURL.parser) Sample.fetched Sample.job1
                          (srv_db Sample.server1)) = true
  /\ map (fun s => (at_point s, shows_status "p1" PENDING (committed s)))
         (worker_timeline (U := SampleURL.parser) Sample.fetched Sample.job1
                          (srv_db Sample.server1))
     = [(StatusWritten, true); (FetchInFlight, true); (Committed, false)]
  /\ forallb (fun s => negb (shows_status "p1" PROCESSING (committed s)))
             (worker_timeline (U := SampleURL.parser) Sample.fetched Sample.job1
                              (srv_db Sample.server1)) = true.
Proof.
  split; [reflexivity|]. split; [reflexivity|]. split; [reflexivity|].
  refine (proj2 (proj2 (proj2 (@C4_processing_never_committed
                   SampleURL.parser Sample.fetched Sample.job1
                   (srv_db Sample.server1)
                   (mkPage "p1" Sample.base None PENDING 0 "u1") eq_refl))) _).
  discriminate.
Defined.

(** ** The Link Extractor *)

Lemma fold_push_each (each : Anchor -> option ScrapedLink) (anchors : list Anchor)
      (acc : list ScrapedLink) :
  fold_left (push_each each) anchors acc
  = acc ++ flat_map (fun a => match each a with Some l => [l] | None => [] end)
                    anchors.
Proof.
  revert acc. induction anchors as [|a anchors IH]; intros acc; simpl.
  - rewrite app_nil_r. reflexivity.
  - rewrite IH. unfold push_each. destruct (each a); simpl.
    + rewrite <- app_assoc. reflexivity.
    + reflexivity.
Qed.

Section ExtractorFacts.

Context {U : URLParser}.



(** The flag of every emitted record is the prefix test on its href. *)
Lemma extractLinks_isExternal (doc : Document) (baseUrl : string) :
  Forall (fun l => isExternal l
                   = negb (String.prefix (url_origin baseUrl) (href l)))
         (extractLinks doc baseUrl).
Proof.
  unfold extractLinks. rewrite fold_push_each. simpl.
  apply Forall_forall. intros l Hl. apply in_flat_map in Hl.
  destruct Hl as [a [_ Hl]]. unfold extractLinks_each in Hl.
  destruct (skipped_href (a_href a)); [destruct Hl|].
  destruct (url_href (a_href a) baseUrl); [|destruct Hl].
  destruct Hl as [<-|[]]. reflexivity.
Qed.

(** Without [maxLinks], [scrapePage] emits the records of the same anchors;
    only the link names may differ. *)
Lemma scrapePage_links (doc : Document) (url : string) :
  exists data,
    scrapePage (Ok doc) url None = Ok data
    /\ map (fun l => (href l, isExternal l)) (sp_links data)
       = map (fun l => (href l, isExternal l)) (extractLinks doc url).
Proof.
  eexists. split; [reflexivity|]. simpl.
  unfold extractLinks. rewrite !fold_push_each. simpl.
  induction (doc_anchors doc) as [|a anchors IH]; simpl; [reflexivity|].
  rewrite !map_app, IH. f_equal.
  unfold scrapePage_each, extractLinks_each.
  destruct (skipped_href (a_href a)); [reflexivity|].
  destruct (url_href (a_href a) url); reflexivity.
Qed.

End ExtractorFacts.




(** The skip test of the code is the literal prefix test: a javascript:
    pseudo-URL whose scheme is spelled in another letter case passes it, is
    resolved, and is emitted with the scheme in lower case. *)
Lemma mixed_case_javascript_href_is_emitted :
  @javascript_hrefs_plain SampleURL.parser Sample.mixed_case Sample.base = false
  /\ @extractLinks SampleURL.parser Sample.mixed_case Sample.base
     = [ mkScrapedLink "javascript:void(0)" "Run" true None ].
Proof. split; reflexivity. Qed.

(** C6.  The flag is computed by a prefix test on the resolved URL, which is
    weaker than origin inequality: a link to http://example.com.evil.org/login
    found on http://example.com/ has another origin and is flagged internal. *)
Theorem C6_prefix_test_misses_foreign_origin :
  @extractLinks SampleURL.parser Sample.lookalike "http://example.com/"
  = [ mkScrapedLink "http://example.com.evil.org/login" "Sign in" false None ]
  /\ SampleURL.origin "http://example.com.evil.org/login"
     = "http://example.com.evil.org"
  /\ SampleURL.origin "http://example.com/" = "http://example.com"
  /\ SampleURL.origin "http://example.com.evil.org/login"
     <> SampleURL.origin "http://example.com/".
Proof. repeat split; try reflexivity. discriminate. Qed.

(** ** The page routes *)

Lemma find_app_none {A} (f : A -> bool) (l l' : list A) :
  find f l = None -> find f (l ++ l') = find f l'.
Proof.
  induction l as [|x l IH]; simpl; [reflexivity|].
  destruct (f x); [discriminate|]. exact IH.
Qed.

Lemma find_none_filter {A} (f : A -> bool) (l : list A) :
  find f l = None -> filter f l = [].
Proof.
  induction l as [|x l IH]; simpl; [reflexivity|].
  destruct (f x); [discriminate|]. exact IH.
Qed.

Lemma find_update_rows_gen (P : Page -> bool) (id : string) (f : Page -> Page)
      (ps : list Page) :
  (forall p, P (f p) = P p) ->
  find P (Prisma.update_rows id f ps)
  = option_map (fun p => if String.eqb (page_id p) id then f p else p) (find P ps).
Proof.
  intros HP. induction ps as [|q ps IH]; simpl; [reflexivity|].
  destruct (String.eqb (page_id q) id) eqn:E.
  - rewrite HP. destruct (P q); simpl; [rewrite E; reflexivity|exact IH].
  - destruct (P q); simpl; [rewrite E; reflexivity|exact IH].
Qed.

Lemma findFirst_id_findUnique (id userId : string) (db : Db) (page : Page) :
  Prisma.page_findFirst_id id userId db = Some page ->
  page_id page = id /\ page_userId page = userId
  /\ exists q, Prisma.page_findUnique id db = Some q.
Proof.
  unfold Prisma.page_findFirst_id, Prisma.page_findUnique.
  intros H. pose proof (find_some _ _ H) as [Hin Hb].
  apply andb_true_iff in Hb. destruct Hb as [Hi Hu].
  apply String.eqb_eq in Hi. apply String.eqb_eq in Hu.
  repeat split; auto.
  destruct (find (fun p => String.eqb (page_id p) id) (pages db)) as [q|] eqn:E.
  - eauto.
  - exfalso. pose proof (find_none _ _ E _ Hin) as Hn. simpl in Hn.
    rewrite Hi, String.eqb_refl in Hn. discriminate.
Qed.

(** C7 (as amended).  The create route compares the submitted URL with the
    stored ones exactly.  For a valid URL the owner has not submitted yet, the
    first create answers 201 with a PENDING page and enqueues its job; a second
    create of the same URL string is rejected with status 400 and the error
    "This URL has already been added for scraping", changes nothing, and the
    owner has exactly one page with that URL.  A second create of any other
    URL string is judged on its own: without the lower-case prefix http:// or
    https:// it is rejected by the validation and changes nothing; when it is
    valid and new to the owner it is accepted, also when it differs from the
    first URL in letter case only, and the owner then has two pages whose
    URLs are equal when case is ignored. *)
Theorem C7_same_url_submitted_twice
        (isURL : string -> bool) (id1 id2 url userId : string) (s : Server) :
  validateUrl isURL url = true ->
  Prisma.page_findFirst_url url userId (srv_db s) = None ->
  Prisma.page_findUnique id1 (srv_db s) = None ->
  let page := mkPage id1 url None PENDING 0 userId in
  let s1 := mkServer (mkDb (pages (srv_db s) ++ [page]) (links (srv_db s)))
                     (srv_queue s ++ [mkJob (mkJobData id1 url userId) 3 2000]) in
  post_pages isURL id1 url userId s
  = (s1, mkResponse 201 (CreatedBody "Page scraping started" page))
  /\ post_pages isURL id2 url userId s1
     = (s1, mkResponse 400 (ErrorBody "This URL has already been added for scraping"))
  /\ length (filter (fun p => String.eqb (page_url p) url
                              && String.eqb (page_userId p) userId)
                    (pages (srv_db s1))) = 1%nat
  /\ (forall url2,
        String.prefix "http://" url2 = false ->
        String.prefix "https://" url2 = false ->
        post_pages isURL id2 url2 userId s1 = (s1, mkResponse 400 ValidationErrors))
  /\ (forall url2,
        url2 <> url ->
        validateUrl isURL url2 = true ->
        Prisma.page_findFirst_url url2 userId (srv_db s) = None ->
        Prisma.page_findUnique id2 (srv_db s) = None ->
        id2 <> id1 ->
        let page2 := mkPage id2 url2 None PENDING 0 userId in
        let s2 := mkServer (mkDb (pages (srv_db s1) ++ [page2]) (links (srv_db s1)))
                           (srv_queue s1
                            ++ [mkJob (mkJobData id2 url2 userId) 3 2000]) in
        post_pages isURL id2 url2 userId s1
        = (s2, mkResponse 201 (CreatedBody "Page scraping started" page2))
        /\ (JS.toLowerCase url2 = JS.toLowerCase url ->
            (2 <= length (pages_with_url_ci url userId (srv_db s2)))%nat)).
Proof.
  intros Hv Hnone Hfresh page s1.
  assert (Hfound : Prisma.page_findFirst_url url userId (srv_db s1) = Some page).
  { unfold Prisma.page_findFirst_url in *. subst s1. simpl.
    rewrite (find_app_none _ _ _ Hnone). simpl.
    rewrite !String.eqb_refl. reflexivity. }
  split; [|split; [|split; [|split]]].
  - unfold post_pages. rewrite Hv. simpl. rewrite Hnone.
    unfold Prisma.page_create. rewrite Hfresh. reflexivity.
  - unfold post_pages. rewrite Hv. cbn [negb]. rewrite Hfound. reflexivity.
  - subst s1. simpl. rewrite filter_app.
    unfold Prisma.page_findFirst_url in Hnone.
    rewrite (find_none_filter _ _ Hnone). simpl.
    rewrite !String.eqb_refl. reflexivity.
  - intros url2 H1 H2. unfold post_pages, validateUrl. rewrite H1, H2.
    rewrite andb_false_r. reflexivity.
  - intros url2 Hne Hv2 Hnone2 Hfresh2 Hid page2 s2.
    assert (Hu : Prisma.page_findFirst_url url2 userId (srv_db s1) = None).
    { unfold Prisma.page_findFirst_url in *. subst s1. simpl.
      rewrite (find_app_none _ _ _ Hnone2). simpl.
      replace (String.eqb url url2) with false; [reflexivity|].
      symmetry. apply String.eqb_neq. congruence. }
    assert (Hi : Prisma.page_findUnique id2 (srv_db s1) = None).
    { unfold Prisma.page_findUnique in *. subst s1. simpl.
      rewrite (find_app_none _ _ _ Hfresh2). simpl.
      replace (String.eqb id1 id2) with false; [reflexivity|].
      symmetry. apply String.eqb_neq. congruence. }
    split.
    + unfold post_pages. rewrite Hv2. cbn [negb]. rewrite Hu.
      unfold Prisma.page_create. rewrite Hi. reflexivity.
    + intros Hci. subst s2 s1. unfold pages_with_url_ci. simpl.
      rewrite !filter_app, !length_app. simpl.
      rewrite Hci, !String.eqb_refl. simpl. lia.
Qed.

Lemma C7_same_url_submitted_twice_witness :
  validateUrl Sample.accept_all Sample.base = true
  /\ Prisma.page_findFirst_url Sample.base "u1" (srv_db Sample.server0) = None
  /\ Prisma.page_findUnique "p1" (srv_db Sample.server0) = None
  /\ post_pages Sample.accept_all "p2" Sample.base "u1" Sample.server1
     = (Sample.server1,
        mkResponse 400 (ErrorBody "This URL has already been added for scraping"))
  /\ post_pages Sample.accept_all "p2" "HTTPS://example.com/" "u1" Sample.server1
     = (Sample.server1, mkResponse 400 ValidationErrors)
  /\ res_status (snd (post_pages Sample.accept_all "p2" "https://EXAMPLE.com/" "u1"
                                 Sample.server1)) = 201%Z
  /\ (2 <= length (pages_with_url_ci Sample.base "u1"
                     (srv_db (fst (post_pages Sample.accept_all "p2"
                                              "https://EXAMPLE.com/" "u1"
                                              Sample.server1)))))%nat.
Proof.
  split; [reflexivity|]. split; [reflexivity|]. split; [reflexivity|].
  destruct (@C7_same_url_submitted_twice Sample.accept_all "p1" "p2"
              Sample.base "u1" Sample.server0 eq_refl eq_refl eq_refl)
    as (_ & Hdup & _ & Hbad & Hnew).
  split; [exact Hdup|].
  split; [exact (Hbad "HTTPS://example.com/" eq_refl eq_refl)|].
  assert (Hne : "https://EXAMPLE.com/" <> Sample.base) by discriminate.
  assert (Hid : "p2" <> "p1") by discriminate.
  destruct (Hnew "https://EXAMPLE.com/" Hne eq_refl eq_refl eq_refl Hid)
    as [Hcreated Hci].
  split.
  - change Sample.server1
      with (mkServer (mkDb (pages (srv_db Sample.server0)
                            ++ [mkPage "p1" Sample.base None PENDING 0 "u1"])
                           (links (srv_db Sample.server0)))
                     (srv_queue Sample.server0
                      ++ [mkJob (mkJobData "p1" Sample.base "u1") 3 2000])).
    rewrite Hcreated. reflexivity.
  - change Sample.server1
      with (mkServer (mkDb (pages (srv_db Sample.server0)
                            ++ [mkPage "p1" Sample.base None PENDING 0 "u1"])
                           (links (srv_db Sample.server0)))
                     (srv_queue Sample.server0
                      ++ [mkJob (mkJobData "p1" Sample.base "u1") 3 2000])).
    rewrite Hcreated. exact (Hci eq_refl).
Defined.

(** C7 as stated fails for submissions that differ only in letter case: both
    are created, and the owner has two pages whose URLs are equal when case is
    ignored. *)
Lemma C7_counterexample :
  JS.toLowerCase "https://example.com/Docs" = JS.toLowerCase "https://example.com/docs"
  /\ res_status (snd (post_pages Sample.accept_all "p1" "https://example.com/Docs"
                                 "u1" Sample.server0)) = 201%Z
  /\ res_status
       (snd (post_pages Sample.accept_all "p2" "https://example.com/docs" "u1"
               (fst (post_pages Sample.accept_all "p1" "https://example.com/Docs"
                                "u1" Sample.server0)))) = 201%Z
  /\ length
       (pages_with_url_ci "https://example.com/docs" "u1"
          (srv_db
             (fst (post_pages Sample.accept_all "p2" "https://example.com/docs" "u1"
                     (fst (post_pages Sample.accept_all "p1"
                                      "https://example.com/Docs" "u1"
                                      Sample.server0)))))) = 2%nat.
Proof. repeat split; reflexivity. Qed.

(** C8.  For a page of the requesting owner, retry answers 200 exactly when
    the page is FAILED; it then sets the status to PENDING, leaving the other
    fields, and enqueues a scrape job for the page.  For a page in any other
    status it answers 400 "Only failed pages can be retried" and the store and
    the queue are unchanged. *)
Theorem C8_retry_only_from_failed
        (id userId : string) (s : Server) (page : Page) :
  Prisma.page_findFirst_id id userId (srv_db s) = Some page ->
  (res_status (snd (post_retry id userId s)) = 200%Z <-> page_status page = FAILED)
  /\ (page_status page = FAILED ->
      post_retry id userId s
      = (mkServer (mkDb (Prisma.update_rows id (set_status PENDING)
                                            (pages (srv_db s)))
                        (links (srv_db s)))
                  (srv_queue s ++ [mkJob (mkJobData id (page_url page) userId) 3 2000]),
         mkResponse 200 (MessageBody "Page scraping restarted"))
      /\ Prisma.page_findFirst_id id userId (srv_db (fst (post_retry id userId s)))
         = Some (mkPage (page_id page) (page_url page) (page_title page) PENDING
                        (page_linkCount page) (page_userId page)))
  /\ (page_status page <> FAILED ->
      post_retry id userId s
      = (s, mkResponse 400 (ErrorBody "Only failed pages can be retried"))).
Proof.
  intros Hp.
  destruct (findFirst_id_findUnique _ _ _ Hp) as [Hid [Hu [q Hq]]].
  assert (Hfailed : page_status page = FAILED ->
            post_retry id userId s
            = (mkServer (mkDb (Prisma.update_rows id (set_status PENDING)
                                                  (pages (srv_db s)))
                              (links (srv_db s)))
                        (srv_queue s ++ [mkJob (mkJobData id (page_url page) userId) 3 2000]),
               mkResponse 200 (MessageBody "Page scraping restarted"))).
  { intros Hs. unfold post_retry. rewrite Hp, Hs. simpl.
    unfold Prisma.page_update. rewrite Hq. unfold addScrapingJob.
    rewrite Hid. reflexivity. }
  assert (Hother : page_status page <> FAILED ->
            post_retry id userId s
            = (s, mkResponse 400 (ErrorBody "Only failed pages can be retried"))).
  { intros Hs. unfold post_retry. rewrite Hp.
    destruct (page_status page); try reflexivity. contradiction. }
  split; [|split; [|exact Hother]].
  - split.
    + intros H200. destruct (page_status page) eqn:E; try reflexivity;
        rewrite Hother in H200 by (rewrite ?E; discriminate); discriminate.
    + intros Hs. rewrite (Hfailed Hs). reflexivity.
  - intros Hs. split; [exact (Hfailed Hs)|].
    rewrite (Hfailed Hs). simpl.
    unfold Prisma.page_findFirst_id in *. simpl.
    rewrite find_update_rows_gen by reflexivity.
    rewrite Hp. simpl. rewrite Hid, String.eqb_refl.
    unfold set_status. rewrite Hid. reflexivity.
Qed.

Lemma C8_retry_only_from_failed_witness :
  Prisma.page_findFirst_id "p1" "u1" Sample.db2
  = Some (mkPage "p1" Sample.base (Some "Scraping Failed") FAILED 0 "u1")
  /\ Prisma.page_findFirst_id "p1" "u1" (srv_db Sample.server3)
     = Some (mkPage "p1" Sample.base (Some "Scraping Failed") PENDING 0 "u1")
  /\ post_retry "p1" "u1" Sample.server1
     = (Sample.server1, mkResponse 400 (ErrorBody "Only failed pages can be retried")).
Proof.
  split; [reflexivity|]. split.
  - exact (proj2 (proj1 (proj2 (@C8_retry_only_from_failed "p1" "u1"
                   (mkServer Sample.db2 (srv_queue Sample.server1))
                   (mkPage "p1" Sample.base (Some "Scraping Failed") FAILED 0 "u1")
                   eq_refl)) eq_refl)).
  - refine (proj2 (proj2 (@C8_retry_only_from_failed "p1" "u1" Sample.server1
                   (mkPage "p1" Sample.base None PENDING 0 "u1") eq_refl)) _).
    discriminate.
Defined.

(** ** Notification de-duplication *)

Module StrSetFacts.

Lemma has_In (k : string) (s : list string) :
  StrSet.has k s = true <-> In k s.
Proof.
  unfold StrSet.has. rewrite existsb_exists. split.
  - intros [x [Hin He]]. apply String.eqb_eq in He. subst. exact Hin.
  - intros Hin. exists k. split; [exact Hin|apply String.eqb_refl].
Qed.

Lemma has_false (k : string) (s : list string) :
  StrSet.has k s = false <-> ~ In k s.
Proof.
  rewrite <- has_In. destruct (StrSet.has k s); split; intros H;
    try discriminate; try reflexivity; auto. exfalso. apply H. reflexivity.
Qed.

Lemma add_In (k x : string) (s : list string) :
  In x (StrSet.add k s) <-> x = k \/ In x s.
Proof.
  unfold StrSet.add. destruct (StrSet.has k s) eqn:E.
  - apply has_In in E. split; [auto|]. intros [->|H]; auto.
  - rewrite in_app_iff. simpl. split.
    + intros [H|[H|[]]]; auto.
    + intros [H|H]; auto.
Qed.

Lemma fold_add_In (l acc : list string) (x : string) :
  In x (fold_left (fun a k => StrSet.add k a) l acc) <-> In x l \/ In x acc.
Proof.
  revert acc. induction l as [|k l IH]; intros acc; simpl.
  - split; [auto|]. intros [[]|H]; exact H.
  - rewrite IH, add_In. split.
    + intros [H|[H|H]]; auto.
    + intros [[H|H]|H]; auto.
Qed.

Lemma of_array_In (l : list string) (x : string) :
  In x (StrSet.of_array l) <-> In x l.
Proof.
  unfold StrSet.of_array. rewrite fold_add_In. simpl. split; [|auto].
  intros [H|[]]; exact H.
Qed.

End StrSetFacts.

(** Keys of different statuses or pages do not collide. *)
Section PageKeys.

Lemma chars_append (a b : string) :
  list_ascii_of_string (a ++ b)
  = list_ascii_of_string a ++ list_ascii_of_string b.
Proof. induction a as [|c a IH]; simpl; [reflexivity|]. rewrite IH. reflexivity. Qed.

Lemma chars_inj (a b : string) :
  list_ascii_of_string a = list_ascii_of_string b -> a = b.
Proof.
  intros H. rewrite <- (string_of_list_ascii_of_string a),
              <- (string_of_list_ascii_of_string b), H. reflexivity.
Qed.

Lemma rev_key (id : string) (s : Status) :
  rev (list_ascii_of_string (pageKey id s))
  = rev (list_ascii_of_string (Status_text s))
    ++ "-"%char :: rev (list_ascii_of_string id).
Proof.
  unfold pageKey. rewrite chars_append. simpl.
  rewrite rev_app_distr. simpl. rewrite <- app_assoc. reflexivity.
Qed.

Lemma pageKey_inj (a b : string) (s : Status) :
  pageKey a s = pageKey b s -> a = b.
Proof.
  intros H. apply (f_equal (fun k => rev (list_ascii_of_string k))) in H.
  rewrite !rev_key in H. apply app_inv_head in H. injection H as H.
  apply chars_inj. rewrite <- (rev_involutive (list_ascii_of_string a)), H.
  apply rev_involutive.
Qed.

Lemma pageKey_failed_completed (a b : string) :
  pageKey a FAILED <> pageKey b COMPLETED.
Proof.
  intros H. apply (f_equal (fun k => rev (list_ascii_of_string k))) in H.
  rewrite !rev_key in H. simpl in H. discriminate H.
Qed.

End PageKeys.

Lemma announcements_app (id : string) (s : Status) (t1 t2 : list Toast) :
  announcements id s (t1 ++ t2) = (announcements id s t1 + announcements id s t2)%nat.
Proof. unfold announcements. rewrite filter_app, length_app. reflexivity. Qed.

Lemma announces_success (id pid msg : string) (s : Status) :
  announces id s (toast_success ("completed-" ++ pid) msg) = true
  <-> s = COMPLETED /\ id = pid.
Proof.
  simpl. rewrite andb_true_iff. split.
  - intros [Hs He]. apply String.eqb_eq in He.
    destruct s; try discriminate. auto.
  - intros [-> ->]. split; [reflexivity|apply String.eqb_refl].
Qed.

Lemma announces_error (id pid msg : string) (s : Status) :
  announces id s (toast_error ("failed-" ++ pid) msg) = true
  <-> s = FAILED /\ id = pid.
Proof.
  simpl. rewrite andb_true_iff. split.
  - intros [Hs He]. apply String.eqb_eq in He.
    destruct s; try discriminate. auto.
  - intros [-> ->]. split; [reflexivity|apply String.eqb_refl].
Qed.

Lemma announcements_one (id : string) (s : Status) (t : Toast) :
  announcements id s [t] = if announces id s t then 1%nat else 0%nat.
Proof. unfold announcements. simpl. destruct (announces id s t); reflexivity. Qed.

(** One page of the loop of [checkForCompletedJobs]. *)
Lemma check_page_cases (n : Notifier) (ts : list Toast) (b : bool) (page : PageView) :
  let key := pageKey (pv_id page) (pv_status page) in
  let ref' := notifiedPagesRef n ++ [key] in
  (check_page (n, ts, b) page = (n, ts, b)
   /\ (announceable page -> In key (notifiedPagesRef n))
   /\ (pv_isTemporary page = false -> pv_status page = FAILED ->
       In key (notifiedPagesRef n)))
  \/ (announceable page /\ ~ In key (notifiedPagesRef n)
      /\ exists msg,
          check_page (n, ts, b) page
          = (mkNotifier ref' (Some ref'),
             ts ++ [toast_success ("completed-" ++ pv_id page) msg], true))
  \/ (pv_isTemporary page = false /\ pv_status page = FAILED
      /\ ~ In key (notifiedPagesRef n)
      /\ check_page (n, ts, b) page
         = (mkNotifier ref' (Some ref'),
            ts ++ [toast_error ("failed-" ++ pv_id page)
                     ("Scraping failed for "
                      ++ JS.or_else (pv_title page) (pv_url page))], true)).
Proof.
  intros key ref'. unfold check_page, announceable. fold key.
  destruct (pv_isTemporary page) eqn:Et.
  { left. split; [reflexivity|]. split; [intros [H _]|intros H]; discriminate. }
  destruct (StrSet.has key (notifiedPagesRef n)) eqn:Eh.
  { left. rewrite !andb_false_r. simpl.
    apply StrSetFacts.has_In in Eh. auto. }
  assert (Hadd : StrSet.add key (notifiedPagesRef n) = ref').
  { unfold StrSet.add. rewrite Eh. reflexivity. }
  apply StrSetFacts.has_false in Eh.
  destruct (pv_status page) eqn:Es; simpl.
  - left. split; [reflexivity|]. split; [intros [_ [H _]]|intros _ H]; discriminate.
  - left. split; [reflexivity|]. split; [intros [_ [H _]]|intros _ H]; discriminate.
  - destruct (0 <? pv_linkCount page)%Z eqn:El; simpl.
    + right. left. apply Z.ltb_lt in El. repeat split; auto.
      rewrite Hadd. eexists. reflexivity.
    + left. apply Z.ltb_ge in El. split; [reflexivity|].
      split; [intros [_ [_ H]]; exfalso; lia|intros _ H; discriminate].
  - right. right. rewrite Hadd. repeat split; auto.
Qed.

Lemma tracks_refl (n : Notifier) : synced n -> tracks n n [].
Proof.
  intros Hs. constructor; auto.
  - apply incl_refl.
  - intros id s H. unfold announcements in H. simpl in H. exfalso. lia.
Qed.

Lemma tracks_trans (n n1 n2 : Notifier) (t1 t2 : list Toast) :
  tracks n n1 t1 -> tracks n1 n2 t2 -> tracks n n2 (t1 ++ t2).
Proof.
  intros [S1 G1 O1 K1 R1 P1] [S2 G2 O2 K2 R2 P2]. constructor.
  - exact S2.
  - eapply incl_tran; eauto.
  - intros id s. rewrite announcements_app.
    destruct (announcements id s t1) as [|a] eqn:Ea.
    + simpl. apply O2.
    + assert (Hin : In (pageKey id s) (notifiedPagesRef n1)).
      { apply R1. rewrite Ea. lia. }
      rewrite (K2 _ _ Hin). specialize (O1 id s). lia.
  - intros id s Hin. rewrite announcements_app, (K1 _ _ Hin).
    apply K2. apply G1. exact Hin.
  - intros id s. rewrite announcements_app. intros H.
    destruct (announcements id s t2) as [|a] eqn:Ea.
    + apply G2. apply R1. lia.
    + apply R2. rewrite Ea. lia.
  - intros k Hk. destruct (P2 k Hk) as [H1|[id H]].
    + destruct (P1 k H1) as [H0|[id H]]; [left; exact H0|].
      right. exists id. rewrite !announcements_app.
      destruct H as [[-> H]|[-> H]]; [left|right]; split; auto; lia.
    + right. exists id. rewrite !announcements_app.
      destruct H as [[-> H]|[-> H]]; [left|right]; split; auto; lia.
Qed.

Lemma tracks_check_page (n : Notifier) (ts : list Toast) (b : bool) (page : PageView) :
  synced n ->
  exists n' new b',
    check_page (n, ts, b) page = (n', ts ++ new, b') /\ tracks n n' new.
Proof.
  intros Hs.
  destruct (check_page_cases n ts b page) as [[E _]|[[[Ht [Hst Hl]] [Hn [msg E]]]|[Ht [Hst [Hn E]]]]].
  - exists n, [], b. rewrite app_nil_r. split; [exact E|apply tracks_refl; exact Hs].
  - eexists _, _, _. split; [exact E|]. rewrite Hst in *. constructor; cbn [notifiedPagesRef].
    + intros k. reflexivity.
    + apply incl_appl, incl_refl.
    + intros id s. rewrite announcements_one. destruct (announces id s _); lia.
    + intros id s Hin. rewrite announcements_one.
      destruct (announces id s _) eqn:Ea; [|reflexivity].
      apply announces_success in Ea. destruct Ea as [-> ->]. contradiction.
    + intros id s. rewrite announcements_one.
      destruct (announces id s _) eqn:Ea; [|lia]. intros _.
      apply announces_success in Ea. destruct Ea as [-> ->].
      apply in_or_app. right. left. reflexivity.
    + intros k Hk. apply in_app_or in Hk. destruct Hk as [Hk|[<-|[]]]; [auto|].
      right. exists (pv_id page). left. split; [reflexivity|].
      rewrite announcements_one.
      rewrite (proj2 (announces_success (pv_id page) (pv_id page) msg COMPLETED)); auto.
  - eexists _, _, _. split; [exact E|]. rewrite Hst in *. constructor; cbn [notifiedPagesRef].
    + intros k. reflexivity.
    + apply incl_appl, incl_refl.
    + intros id s. rewrite announcements_one. destruct (announces id s _); lia.
    + intros id s Hin. rewrite announcements_one.
      destruct (announces id s _) eqn:Ea; [|reflexivity].
      apply announces_error in Ea. destruct Ea as [-> ->]. contradiction.
    + intros id s. rewrite announcements_one.
      destruct (announces id s _) eqn:Ea; [|lia]. intros _.
      apply announces_error in Ea. destruct Ea as [-> ->].
      apply in_or_app. right. left. reflexivity.
    + intros k Hk. apply in_app_or in Hk. destruct Hk as [Hk|[<-|[]]]; [auto|].
      right. exists (pv_id page). right. split; [reflexivity|].
      rewrite announcements_one.
      rewrite (proj2 (announces_error (pv_id page) (pv_id page) _ FAILED)); auto.
Qed.

Lemma tracks_check_fold (pages : list PageView) (n : Notifier) (ts : list Toast)
      (b : bool) :
  synced n ->
  exists n' new b',
    fold_left check_page pages (n, ts, b) = (n', ts ++ new, b')
    /\ tracks n n' new
    /\ (forall p, In p pages -> announceable p ->
                  In (pageKey (pv_id p) COMPLETED) (notifiedPagesRef n')).
Proof.
  revert n ts b. induction pages as [|page pages IH]; intros n ts b Hs; cbn [fold_left].
  - exists n, [], b. rewrite app_nil_r. split; [reflexivity|].
    split; [apply tracks_refl; exact Hs|]. intros p [].
  - destruct (tracks_check_page ts b page Hs) as [n1 [new1 [b1 [E1 T1]]]].
    rewrite E1.
    destruct (IH n1 (ts ++ new1) b1 (tr_synced T1)) as [n2 [new2 [b2 [E2 [T2 H2]]]]].
    exists n2, (new1 ++ new2), b2. rewrite app_assoc.
    split; [exact E2|]. split; [eapply tracks_trans; eauto|].
    intros p [<-|Hin] Ha; [|apply H2; auto].
    apply (tr_grows T2).
    destruct (check_page_cases n ts b page)
      as [[E [Hk _]]|[[_ [_ [msg E]]]|[_ [Hst _]]]].
    + rewrite E in E1. injection E1 as <- _ _.
      pose proof (Hk Ha) as Hk'. destruct Ha as [_ [Hst _]].
      rewrite Hst in Hk'. exact Hk'.
    + rewrite E in E1. injection E1 as <- _ _. simpl.
      destruct Ha as [_ [Hst _]]. rewrite Hst.
      apply in_or_app. right. left. reflexivity.
    + destruct Ha as [_ [Hc _]]. rewrite Hc in Hst. discriminate.
Qed.

Lemma synced_mount (saved : option (list string)) : synced (mount saved).
Proof.
  intros k. unfold mount, stored. destruct saved as [l|]; simpl.
  - apply StrSetFacts.of_array_In.
  - reflexivity.
Qed.

Lemma tracks_reload (n : Notifier) (l : list string) :
  synced n -> localStorage_notifiedPages n = Some l ->
  tracks n (mkNotifier (StrSet.of_array l) (Some l)) [].
Proof.
  intros Hs Hl.
  assert (Hk : forall k, In k (notifiedPagesRef n) <-> In k (StrSet.of_array l)).
  { intros k. rewrite StrSetFacts.of_array_In, (Hs k). unfold stored.
    rewrite Hl. reflexivity. }
  constructor; cbn [notifiedPagesRef].
  - intros k. apply StrSetFacts.of_array_In.
  - intros k. apply Hk.
  - intros id s. unfold announcements. simpl. lia.
  - reflexivity.
  - intros id s H. unfold announcements in H. simpl in H. exfalso. lia.
  - intros k H. left. apply Hk. exact H.
Qed.

Lemma tracks_step (n : Notifier) (e : ClientEvent) :
  synced n -> tracks n (fst (client_step n e)) (snd (client_step n e)).
Proof.
  intros Hs. destruct e as [| |pages loading]; simpl.
  - unfold mount. destruct (localStorage_notifiedPages n) as [l|] eqn:El.
    + apply tracks_reload; assumption.
    + assert (Hnil : notifiedPagesRef n = []).
      { destruct (notifiedPagesRef n) as [|k r] eqn:Er; [reflexivity|].
        exfalso. assert (Hin : In k (notifiedPagesRef n)) by (rewrite Er; left; reflexivity).
        apply Hs in Hin. unfold stored in Hin. rewrite El in Hin. exact Hin. }
      destruct n as [r st]. simpl in *. subst. apply tracks_refl. exact Hs.
  - destruct (localStorage_notifiedPages n) as [l|] eqn:El.
    + apply tracks_reload; assumption.
    + apply tracks_refl. exact Hs.
  - destruct ((0 <? length pages)%nat && negb loading).
    + unfold checkForCompletedJobs.
      destruct (tracks_check_fold pages [] false Hs) as [n' [new [b' [E [T _]]]]].
      rewrite E. exact T.
    + apply tracks_refl. exact Hs.
Qed.

Lemma client_run_cons (e : ClientEvent) (es : list ClientEvent) (n : Notifier) :
  client_run (e :: es) n
  = (fst (client_run es (fst (client_step n e))),
     snd (client_step n e) ++ snd (client_run es (fst (client_step n e)))).
Proof.
  simpl. destruct (client_step n e) as [n1 t1]. simpl.
  destruct (client_run es n1) as [n2 t2]. reflexivity.
Qed.

Lemma tracks_run (es : list ClientEvent) (n : Notifier) :
  synced n -> tracks n (fst (client_run es n)) (snd (client_run es n)).
Proof.
  revert n. induction es as [|e es IH]; intros n Hs.
  - apply tracks_refl. exact Hs.
  - rewrite client_run_cons. cbn [fst snd].
    pose proof (tracks_step e Hs) as T1.
    eapply tracks_trans; [exact T1|]. apply IH. exact (tr_synced T1).
Qed.

(** Once an announceable page has been rendered, its key is recorded. *)
Lemma run_records (es : list ClientEvent) (n : Notifier) (pages : list PageView)
      (p : PageView) :
  synced n -> In (Rendered pages false) es -> In p pages -> announceable p ->
  In (pageKey (pv_id p) COMPLETED) (notifiedPagesRef (fst (client_run es n))).
Proof.
  revert n. induction es as [|e es IH]; intros n Hs Hev Hp Ha; [destruct Hev|].
  rewrite client_run_cons. cbn [fst].
  pose proof (tracks_step e Hs) as T1.
  destruct Hev as [->|Hev]; [|apply IH; auto; exact (tr_synced T1)].
  apply (tr_grows (tracks_run es (tr_synced T1))).
  simpl. destruct pages as [|q pages]; [destruct Hp|].
  cbn [length Nat.ltb Nat.leb negb andb]. unfold checkForCompletedJobs.
  destruct (tracks_check_fold (q :: pages) [] false Hs) as [n' [new [b' [E [_ H]]]]].
  rewrite E. simpl. apply H; assumption.
Qed.



(** C9 (as amended).  Whatever the client does after mounting with a saved
    notification history (polls, renders, reloads), a page and status is
    announced at most once, never again if the saved history already holds
    its key, and every announcement is recorded in localStorage, from which a
    reload restores the same keys.  A COMPLETED page that is not temporary and
    has linkCount above 0 is announced exactly once over all renders of that
    state; a COMPLETED page with linkCount 0 is not announced. *)
Theorem C9_announced_once_across_polls_and_reloads
        (saved : option (list string)) (es : list ClientEvent) :
  let n' := fst (client_run es (mount saved)) in
  let ts := snd (client_run es (mount saved)) in
  (forall id s, (announcements id s ts <= 1)%nat)
  /\ (forall id s, In (pageKey id s) (stored (mount saved)) ->
                   announcements id s ts = 0%nat)
  /\ (forall id s, (0 < announcements id s ts)%nat -> In (pageKey id s) (stored n'))
  /\ (forall k, In k (notifiedPagesRef (mount (localStorage_notifiedPages n')))
                <-> In k (notifiedPagesRef n'))
  /\ (forall pages p,
        In (Rendered pages false) es -> In p pages -> announceable p ->
        ~ In (pageKey (pv_id p) COMPLETED) (stored (mount saved)) ->
        announcements (pv_id p) COMPLETED ts = 1%nat).
Proof.
  intros n' ts.
  pose proof (synced_mount saved) as Hs.
  pose proof (tracks_run es Hs) as T. fold n' in T. fold ts in T.
  split; [exact (tr_once T)|].
  split; [intros id s Hin; apply (tr_known T); apply Hs; exact Hin|].
  split; [intros id s H; apply (tr_synced T); apply (tr_recorded T); exact H|].
  split.
  { intros k. rewrite (synced_mount (localStorage_notifiedPages n') k).
    unfold mount, stored. simpl. symmetry. apply (tr_synced T). }
  intros pages p Hev Hp Ha Hnew.
  pose proof (@run_records es _ _ _ Hs Hev Hp Ha) as Hin. fold n' in Hin.
  pose proof (tr_once T (pv_id p) COMPLETED) as Hle.
  destruct (tr_origin T _ Hin) as [H0|[id [[Hk H]|[Hk H]]]].
  - exfalso. apply Hnew. apply Hs. exact H0.
  - apply pageKey_inj in Hk. subst id. lia.
  - exfalso. symmetry in Hk. exact (pageKey_failed_completed _ _ Hk).
Qed.

Lemma C9_announced_once_across_polls_and_reloads_witness :
  In (Rendered [Sample.done5; Sample.done0] false) Sample.session
  /\ In Sample.done5 [Sample.done5; Sample.done0]
  /\ announceable Sample.done5
  /\ ~ In (pageKey "real-1" COMPLETED) (stored (mount None))
  /\ announcements "real-1" COMPLETED (snd (client_run Sample.session (mount None)))
     = 1%nat.
Proof.
  assert (Hev : In (Rendered [Sample.done5; Sample.done0] false) Sample.session)
    by (right; left; reflexivity).
  assert (Hp : In Sample.done5 [Sample.done5; Sample.done0]) by (left; reflexivity).
  assert (Ha : announceable Sample.done5) by (repeat split; reflexivity).
  assert (Hnew : ~ In (pageKey "real-1" COMPLETED) (stored (mount None)))
    by (intros []).
  split; [exact Hev|]. split; [exact Hp|]. split; [exact Ha|].
  split; [exact Hnew|].
  exact (proj2 (proj2 (proj2 (proj2
           (@C9_announced_once_across_polls_and_reloads None Sample.session))))
           _ _ Hev Hp Ha Hnew).
Defined.

(** C9 as stated fails for a page that completes with no links: over the
    same polls and the reload it is never announced, while the page with five
    links is announced once. *)
Lemma C9_counterexample :
  pv_status Sample.done0 = COMPLETED
  /\ pv_isTemporary Sample.done0 = false
  /\ announcements "real-2" COMPLETED
       (snd (client_run Sample.session (mount None))) = 0%nat
  /\ snd (client_run Sample.session (mount None))
     = [toast_success "completed-real-1" "Scraping completed for X: 5 links found!"].
Proof. repeat split; reflexivity. Qed.



(* ================================================================== *)
(** * Further properties of the code *)

(** ** Rows under an update *)

Lemma map_update_rows {B} (g : Page -> B) (id : string) (f : Page -> Page)
      (ps : list Page) :
  (forall p, g (f p) = g p) ->
  map g (Prisma.update_rows id f ps) = map g ps.
Proof.
  intros Hg. unfold Prisma.update_rows. rewrite map_map. apply map_ext.
  intros p. destruct (String.eqb (page_id p) id); [apply Hg|reflexivity].
Qed.

Lemma find_update_rows_other (id id' : string) (f : Page -> Page) (ps : list Page) :
  (forall p, page_id (f p) = page_id p) -> id' <> id ->
  find (fun p => String.eqb (page_id p) id') (Prisma.update_rows id f ps)
  = find (fun p => String.eqb (page_id p) id') ps.
Proof.
  intros Hf Hne. induction ps as [|q ps IH]; simpl; [reflexivity|].
  destruct (String.eqb (page_id q) id) eqn:E.
  - rewrite Hf. apply String.eqb_eq in E.
    destruct (String.eqb (page_id q) id') eqn:E'.
    + apply String.eqb_eq in E'. congruence.
    + exact IH.
  - destruct (String.eqb (page_id q) id'); [reflexivity|exact IH].
Qed.

Lemma find_none_not_in {A B} (g : A -> B) (eqb : B -> B -> bool) (k : B)
      (l : list A) :
  (forall a b, eqb a b = true <-> a = b) ->
  find (fun x => eqb (g x) k) l = None -> ~ In k (map g l).
Proof.
  intros Heq Hf Hin. apply in_map_iff in Hin. destruct Hin as [x [Hx Hin]].
  pose proof (find_none _ _ Hf _ Hin) as Hn. simpl in Hn.
  rewrite (proj2 (Heq _ _) Hx) in Hn. discriminate.
Qed.

Lemma find_some_in_ids (id : string) (ps : list Page) (p : Page) :
  find (fun q => String.eqb (page_id q) id) ps = Some p ->
  In p ps /\ page_id p = id.
Proof.
  intros H. apply find_some in H. destruct H as [Hin He].
  apply String.eqb_eq in He. auto.
Qed.

Lemma NoDup_map_inj {A B} (f : A -> B) (l : list A) (a b : A) :
  NoDup (map f l) -> In a l -> In b l -> f a = f b -> a = b.
Proof.
  induction l as [|x l IH]; simpl; intros Hnd Ha Hb Hf; [destruct Ha|].
  inversion Hnd as [|? ? Hx Hnd']; subst.
  destruct Ha as [->|Ha], Hb as [->|Hb]; auto.
  - exfalso. apply Hx. rewrite Hf. apply in_map. exact Hb.
  - exfalso. apply Hx. rewrite <- Hf. apply in_map. exact Ha.
Qed.

Lemma NoDup_map_filter {A B} (f : A -> B) (g : A -> bool) (l : list A) :
  NoDup (map f l) -> NoDup (map f (filter g l)).
Proof.
  induction l as [|x l IH]; simpl; intros Hnd; [constructor|].
  inversion Hnd as [|? ? Hx Hnd']; subst.
  destruct (g x); simpl; [|auto].
  constructor; [|auto]. intros Hin. apply Hx.
  apply in_map_iff in Hin. destruct Hin as [y [Hy Hin]].
  apply filter_In in Hin. rewrite <- Hy. apply in_map. tauto.
Qed.

(** ** What one run of the worker leaves behind *)

Section WorkerFrame.

Context {U : URLParser}.

Lemma worker_store_shape (fetch : Fetch) (job : JobData) (db : Db) :
  exists (f : Page -> Page) (added : list ScrapedLink),
    (forall p, page_id (f p) = page_id p /\ page_url (f p) = page_url p
               /\ page_userId (f p) = page_userId p)
    /\ worker_store fetch job db
       = mkDb (Prisma.update_rows (job_pageId job) f (pages db))
              (links db ++ map (link_row (job_pageId job)) added)
    /\ (is_ok (worker_result fetch job db) = false -> added = []).
Proof.
  unfold worker_store, worker_result.
  destruct (worker_cases fetch job db)
    as [[_ E]|[(p & e & _ & _ & E)|[(p & data & _ & _ & _ & E)
       |(p & data & _ & _ & _ & E)]]];
    rewrite E; cbn [fst snd].
  - exists (fun p => p), []. split; [auto|]. split; [|auto].
    simpl. rewrite app_nil_r. unfold Prisma.update_rows.
    rewrite (map_ext _ (fun p => p)) by (intros q; destruct (String.eqb _ _); reflexivity).
    rewrite map_id. destruct db; reflexivity.
  - exists set_failed, []. split; [auto|]. split; [|auto].
    unfold failed_store. simpl. rewrite app_nil_r. reflexivity.
  - exists set_failed, []. split; [auto|]. split; [|auto].
    unfold failed_store. simpl. rewrite app_nil_r. reflexivity.
  - exists (set_completed (sp_title data) (Z.of_nat (length (sp_links data)))),
      (sp_links data).
    split; [auto|]. split; [reflexivity|]. discriminate.
Qed.

End WorkerFrame.

(** X1.  A run of the worker, however the fetch ends, touches one page only:
    every page keeps its id, url and owner, in the same order, and the row
    and the links of every other page are what they were. *)
Theorem worker_touches_one_page
        (U : URLParser) (fetch : Fetch) (job : JobData) (db : Db) :
  let db' := worker_store fetch job db in
  map (fun p => (page_id p, page_url p, page_userId p)) (pages db')
  = map (fun p => (page_id p, page_url p, page_userId p)) (pages db)
  /\ (forall id, id <> job_pageId job ->
                 Prisma.page_findUnique id db' = Prisma.page_findUnique id db
                 /\ links_of id db' = links_of id db).
Proof.
  intros db'. subst db'.
  destruct (worker_store_shape fetch job db) as [f [added [Hf [E _]]]].
  rewrite E. simpl. split.
  - apply map_update_rows. intros p. destruct (Hf p) as [-> [-> ->]]. reflexivity.
  - intros id Hne. split.
    + unfold Prisma.page_findUnique. simpl.
      apply find_update_rows_other; [intros p; apply Hf|exact Hne].
    + unfold links_of. simpl. rewrite filter_app.
      assert (Hnil : filter (fun l => String.eqb (link_pageId l) id)
                            (map (link_row (job_pageId job)) added) = []).
      { clear E. induction added as [|l added IH]; simpl; [reflexivity|].
        destruct (String.eqb (job_pageId job) id) eqn:Eq; [|exact IH].
        apply String.eqb_eq in Eq. congruence. }
      rewrite Hnil. apply app_nil_r.
Qed.

Lemma worker_touches_one_page_witness :
  "p2" <> job_pageId Sample.job1
  /\ links_of "p2" (worker_store (U := SampleURL.parser) Sample.fetched
                                 Sample.job1 Sample.db4)
     = links_of "p2" Sample.db4.
Proof.
  assert (Hne : "p2" <> job_pageId Sample.job1) by discriminate.
  split; [exact Hne|].
  exact (proj2 (proj2 (@worker_touches_one_page SampleURL.parser Sample.fetched
                         Sample.job1 Sample.db4) "p2" Hne)).
Defined.

(** X2.  The worker only ever appends link rows, all of them for the page of
    the job, and appends none when the run fails. *)
Theorem worker_only_appends_links
        (U : URLParser) (fetch : Fetch) (job : JobData) (db : Db) :
  exists added,
    links (worker_store fetch job db) = links db ++ added
    /\ Forall (fun l => link_pageId l = job_pageId job) added
    /\ (is_ok (worker_result fetch job db) = false -> added = []).
Proof.
  destruct (worker_store_shape fetch job db) as [f [added [_ [E Hadd]]]].
  exists (map (link_row (job_pageId job)) added). rewrite E. simpl.
  split; [reflexivity|]. split.
  - apply Forall_forall. intros l Hl. apply in_map_iff in Hl.
    destruct Hl as [x [<- _]]. reflexivity.
  - intros H. rewrite (Hadd H). reflexivity.
Qed.

(** ** A job over all its attempts *)

Lemma failed_store_find (id : string) (db : Db) (p : Page) :
  Prisma.page_findUnique id db = Some p ->
  Prisma.page_findUnique id (failed_store id db) = Some (set_failed p).
Proof.
  intros H. unfold failed_store. destruct db as [ps ls]. simpl.
  apply (@findUnique_after_update id set_failed); auto.
Qed.

Lemma completed_store_find (id : string) (data : ScrapedPage) (db : Db) (p : Page) :
  Prisma.page_findUnique id db = Some p ->
  Prisma.page_findUnique id (completed_store id data db)
  = Some (set_completed (sp_title data) (Z.of_nat (length (sp_links data))) p).
Proof.
  intros H. unfold completed_store. destruct db as [ps ls]. simpl.
  apply (@findUnique_after_update id (set_completed _ _)); auto.
Qed.

Lemma failed_store_twice (id : string) (db : Db) :
  failed_store id (failed_store id db) = failed_store id db.
Proof.
  unfold failed_store. simpl. rewrite update_rows_twice by reflexivity.
  reflexivity.
Qed.

Lemma completed_after_failed (id : string) (data : ScrapedPage) (db : Db) :
  completed_store id data (failed_store id db) = completed_store id data db.
Proof.
  unfold completed_store, failed_store. simpl.
  rewrite update_rows_twice by reflexivity. reflexivity.
Qed.

Section JobAttempts.

Context {U : URLParser}.

Variable job : JobData.
Variable fetches : nat -> Fetch.

(** An attempt on an existing page fails with [e] when its fetch or the
    extraction fails with [e], or when the fetch brings the page after the
    time limit of the transaction and [e] is the error of the refused
    query. *)
Lemma attempt_fails (fetch : Fetch) (e : string) (db : Db) (p : Page) :
  Prisma.page_findUnique (job_pageId job) db = Some p ->
  scrapePage (fetch_settled fetch) (job_url job) None = Err e
  \/ (is_ok (scrapePage (fetch_settled fetch) (job_url job) None) = true
      /\ (tx_timeout < fetch_ms fetch)%Z /\ e = tx_closed) ->
  worker_store fetch job db = failed_store (job_pageId job) db
  /\ worker_result fetch job db = Err e.
Proof.
  intros Hp [Hs|[Hs [Hms He]]]; unfold worker_store, worker_result.
  - rewrite (worker_failure fetch job db Hp Hs). auto.
  - destruct (scrapePage (fetch_settled fetch) (job_url job) None)
      as [data|e0] eqn:Hd; [|discriminate Hs].
    rewrite (worker_expired fetch job db Hp Hd Hms). subst e. auto.
Qed.

Lemma run_attempts_failures (errs : nat -> string) (j : nat) :
  forall left k0 db p,
    Prisma.page_findUnique (job_pageId job) db = Some p ->
    (forall i, (i < j)%nat ->
       scrapePage (fetch_settled (fetches (k0 + i))) (job_url job) None
       = Err (errs (k0 + i))
       \/ (is_ok (scrapePage (fetch_settled (fetches (k0 + i))) (job_url job) None)
           = true
           /\ (tx_timeout < fetch_ms (fetches (k0 + i)))%Z
           /\ errs (k0 + i) = tx_closed)) ->
    run_attempts (j + left) k0 fetches job db
    = (fst (run_attempts left (k0 + j) fetches job
              (match j with O => db | S _ => failed_store (job_pageId job) db end)),
       map (fun k => Err (errs k)) (seq k0 j)
       ++ snd (run_attempts left (k0 + j) fetches job
                 (match j with O => db | S _ => failed_store (job_pageId job) db end))).
Proof.
  induction j as [|j IH]; intros left k0 db p Hp Hfail.
  - simpl. rewrite Nat.add_0_r. destruct (run_attempts left k0 fetches job db).
    reflexivity.
  - assert (H0 : worker_store (fetches k0) job db = failed_store (job_pageId job) db
                 /\ worker_result (fetches k0) job db = Err (errs k0)).
    { apply (attempt_fails _ _ Hp).
      specialize (Hfail 0%nat). rewrite Nat.add_0_r in Hfail. apply Hfail. lia. }
    destruct H0 as [Hst Hres].
    cbn [Nat.add run_attempts]. rewrite Hst, Hres.
    rewrite (IH left (S k0) (failed_store (job_pageId job) db) (set_failed p)).
    + replace (k0 + S j)%nat with (S k0 + j)%nat by lia.
      assert (Hdb : match j with
                    | O => failed_store (job_pageId job) db
                    | S _ => failed_store (job_pageId job)
                                          (failed_store (job_pageId job) db)
                    end = failed_store (job_pageId job) db).
      { destruct j; [reflexivity|apply failed_store_twice]. }
      rewrite Hdb. reflexivity.
    + apply failed_store_find. exact Hp.
    + intros i Hi. replace (S k0 + i)%nat with (k0 + S i)%nat by lia.
      apply Hfail. lia.
Qed.

End JobAttempts.

(** X3.  When every fetch of a job on an existing page fails, however long
    it takes to fail, the queue uses all the attempts of the job, each
    reporting its own error; the page ends FAILED with the marker title, and
    its linkCount and the links table are as before the job. *)
Theorem job_exhausts_attempts_and_fails
        (U : URLParser) (msgs : nat -> string) (ms : nat -> Z)
        (job : Job) (db : Db) (p : Page) :
  Prisma.page_findUnique (job_pageId (job_data job)) db = Some p ->
  (0 < job_attempts job)%nat ->
  let id := job_pageId (job_data job) in
  let out := process_job (fun k => mkFetch (Err (msgs k)) (ms k)) job db in
  snd out = map (fun k => Err ("Failed to scrape page: " ++ msgs k))
                (seq 0 (job_attempts job))
  /\ fst out = failed_store id db
  /\ Prisma.page_findUnique id (fst out)
     = Some (mkPage (page_id p) (page_url p) (Some "Scraping Failed") FAILED
                    (page_linkCount p) (page_userId p))
  /\ links (fst out) = links db.
Proof.
  intros Hp Hpos id out. subst out. unfold process_job.
  pose proof (@run_attempts_failures U (job_data job)
                (fun k => mkFetch (Err (msgs k)) (ms k))
                (fun k => "Failed to scrape page: " ++ msgs k)%string
                (job_attempts job) 0 0 db p Hp) as H.
  rewrite Nat.add_0_r in H. rewrite H by (intros i _; left; reflexivity).
  cbn [run_attempts fst snd]. rewrite app_nil_r.
  destruct (job_attempts job) as [|n]; [lia|].
  repeat split; try reflexivity.
  apply (failed_store_find _ _ Hp).
Qed.

Lemma job_exhausts_attempts_and_fails_witness :
  Prisma.page_findUnique "p1" (srv_db Sample.server1)
  = Some (mkPage "p1" Sample.base None PENDING 0 "u1")
  /\ (0 < 3)%nat
  /\ snd (process_job (U := SampleURL.parser)
                      (fun _ => mkFetch (Err "ECONNREFUSED") 12)
                      (mkJob Sample.job1 3 2000) (srv_db Sample.server1))
     = [Err "Failed to scrape page: ECONNREFUSED";
        Err "Failed to scrape page: ECONNREFUSED";
        Err "Failed to scrape page: ECONNREFUSED"].
Proof.
  split; [reflexivity|]. split; [lia|].
  exact (proj1 (@job_exhausts_attempts_and_fails SampleURL.parser
                  (fun _ => "ECONNREFUSED") (fun _ => 12%Z)
                  (mkJob Sample.job1 3 2000)
                  (srv_db Sample.server1)
                  (mkPage "p1" Sample.base None PENDING 0 "u1")
                  eq_refl (Nat.lt_0_succ 2))).
Defined.

(** X4.  When the first [j] attempts of a job fail, each because its fetch
    fails or because its fetch brings the page only after the time limit of
    the transaction, and the fetch of the next attempt succeeds within the
    time limit and within the attempts of the job, the queue stops there;
    the store is the one a success on the first attempt would have
    committed, so the failed attempts leave no trace. *)
Theorem job_succeeds_after_failures
        (U : URLParser) (fetches : nat -> Fetch) (errs : nat -> string)
        (j : nat) (doc : Document) (job : Job) (db : Db) (p : Page) :
  Prisma.page_findUnique (job_pageId (job_data job)) db = Some p ->
  (forall i, (i < j)%nat ->
     scrapePage (fetch_settled (fetches i)) (job_url (job_data job)) None
     = Err (errs i)
     \/ (is_ok (scrapePage (fetch_settled (fetches i)) (job_url (job_data job)) None)
         = true
         /\ (tx_timeout < fetch_ms (fetches i))%Z
         /\ errs i = tx_closed)) ->
  fetch_settled (fetches j) = Ok doc ->
  (fetch_ms (fetches j) <= tx_timeout)%Z ->
  (j < job_attempts job)%nat ->
  let id := job_pageId (job_data job) in
  let out := process_job fetches job db in
  exists data,
    scrapePage (Ok doc) (job_url (job_data job)) None = Ok data
    /\ fst out = completed_store id data db
    /\ fst out = worker_store (fetches j) (job_data job) db
    /\ snd out
       = map (fun k => Err (errs k)) (seq 0 j)
         ++ [Ok (set_completed (sp_title data)
                               (Z.of_nat (length (sp_links data))) p)].
Proof.
  intros Hp Hfail Hok Hms Hlt id out. subst out. unfold process_job.
  destruct (scrapePage (Ok doc) (job_url (job_data job)) None) as [data|e] eqn:Hs;
    [|discriminate Hs].
  rewrite <- Hok in Hs.
  exists data. split; [reflexivity|].
  replace (job_attempts job) with (j + S (job_attempts job - S j))%nat by lia.
  rewrite (@run_attempts_failures U (job_data job) fetches errs j _ 0 db p Hp)
    by exact Hfail.
  cbn [Nat.add].
  assert (Hrun : forall db0 p0,
             Prisma.page_findUnique id db0 = Some p0 ->
             run_attempts (S (job_attempts job - S j)) j fetches (job_data job) db0
             = (completed_store id data db0,
                [Ok (set_completed (sp_title data)
                                   (Z.of_nat (length (sp_links data))) p0)])).
  { intros db0 p0 Hp0. cbn [run_attempts]. unfold worker_store, worker_result.
    rewrite (worker_success (fetches j) (job_data job) db0 Hp0 Hs Hms).
    reflexivity. }
  unfold worker_store.
  rewrite (worker_success (fetches j) (job_data job) db Hp Hs Hms).
  cbn [fst snd]. fold id.
  destruct j as [|j'].
  - rewrite (Hrun db p Hp). auto.
  - rewrite (Hrun (failed_store id db) (set_failed p) (failed_store_find _ _ Hp)).
    cbn [fst snd]. rewrite completed_after_failed. auto.
Qed.

(** The first fetch times out, the second brings the page after 5.5 s, the
    third brings it in time. *)
Lemma job_succeeds_after_failures_witness :
  Prisma.page_findUnique "p1" (srv_db Sample.server1)
  = Some (mkPage "p1" Sample.base None PENDING 0 "u1")
  /\ (2 < 3)%nat
  /\ exists data,
      scrapePage (U := SampleURL.parser) (Ok Sample.fixture) Sample.base None = Ok data
      /\ fst (process_job (U := SampleURL.parser)
                (fun k => match k with
                          | O => Sample.timed_out
                          | S O => Sample.slow
                          | _ => Sample.fetched
                          end)
                (mkJob Sample.job1 3 2000) (srv_db Sample.server1))
         = completed_store "p1" data (srv_db Sample.server1)
      /\ map is_ok
             (snd (process_job (U := SampleURL.parser)
                     (fun k => match k with
                               | O => Sample.timed_out
                               | S O => Sample.slow
                               | _ => Sample.fetched
                               end)
                     (mkJob Sample.job1 3 2000) (srv_db Sample.server1)))
         = [false; false; true].
Proof.
  split; [reflexivity|]. split; [lia|].
  destruct (@job_succeeds_after_failures SampleURL.parser
              (fun k => match k with
                        | O => Sample.timed_out
                        | S O => Sample.slow
                        | _ => Sample.fetched
                        end)
              (fun k => match k with
                        | O => "Failed to scrape page: timeout of 30000ms exceeded"
                        | _ => tx_closed
                        end)
              2 Sample.fixture (mkJob Sample.job1 3 2000)
              (srv_db Sample.server1)
              (mkPage "p1" Sample.base None PENDING 0 "u1") eq_refl)
    as [data [Hd [Hst [_ Hres]]]].
  - intros i Hi. destruct i as [|[|i]].
    + left. reflexivity.
    + right. split; [reflexivity|]. split; [reflexivity|reflexivity].
    + exfalso. lia.
  - reflexivity.
  - discriminate.
  - simpl. lia.
  - exists data. split; [exact Hd|]. split; [exact Hst|].
    rewrite Hres. reflexivity.
Defined.

Lemma run_attempts_step (U : URLParser) (fetches : nat -> Fetch)
      (job : JobData) (left k : nat) (db : Db) :
  run_attempts (S left) k fetches job db
  = match worker_result (fetches k) job db with
    | Ok page => (worker_store (fetches k) job db, [Ok page])
    | Err e =>
        (fst (run_attempts left (S k) fetches job
                (worker_store (fetches k) job db)),
         Err e :: snd (run_attempts left (S k) fetches job
                         (worker_store (fetches k) job db)))
    end.
Proof.
  cbn [run_attempts]. destruct (worker_result (fetches k) job db); [reflexivity|].
  destruct (run_attempts left (S k) fetches job _). reflexivity.
Qed.

Lemma run_attempts_terminal (U : URLParser) (fetches : nat -> Fetch)
      (job : JobData) (left : nat) :
  forall k db p,
    Prisma.page_findUnique (job_pageId job) db = Some p ->
    let out := run_attempts (S left) k fetches job db in
    exists p' r rs,
      Prisma.page_findUnique (job_pageId job) (fst out) = Some p'
      /\ terminal (page_status p') = true
      /\ snd out = rs ++ [r]
      /\ (length rs <= left)%nat
      /\ Forall (fun x => is_ok x = false) rs
      /\ (is_ok r = true <-> page_status p' = COMPLETED).
Proof.
  assert (Hlast : forall fetch db p,
             Prisma.page_findUnique (job_pageId job) db = Some p ->
             exists p',
               Prisma.page_findUnique (job_pageId job) (worker_store fetch job db)
               = Some p'
               /\ terminal (page_status p') = true
               /\ (is_ok (worker_result fetch job db) = true
                   <-> page_status p' = COMPLETED)
               /\ (is_ok (worker_result fetch job db) = false ->
                   worker_store fetch job db = failed_store (job_pageId job) db)).
  { intros fetch db p Hp. unfold worker_store, worker_result.
    destruct (worker_cases fetch job db)
      as [[Hq _]|[(q & e & _ & _ & E)|[(q & data & _ & _ & _ & E)
         |(q & data & _ & _ & _ & E)]]].
    - cbv zeta in Hq. rewrite Hp in Hq. discriminate.
    - rewrite E. cbn [fst snd]. exists (set_failed p).
      split; [apply failed_store_find; exact Hp|].
      simpl. repeat split; auto; discriminate.
    - rewrite E. cbn [fst snd]. exists (set_failed p).
      split; [apply failed_store_find; exact Hp|].
      simpl. repeat split; auto; discriminate.
    - rewrite E. cbn [fst snd]. eexists.
      split; [apply completed_store_find; exact Hp|].
      simpl. repeat split; auto; discriminate. }
  induction left as [|left IH]; intros k db p Hp out; subst out;
    rewrite run_attempts_step;
    destruct (Hlast (fetches k) db p Hp) as (p1 & Hf1 & Ht1 & Hiff1 & Hst1);
    destruct (worker_result (fetches k) job db) as [page|e] eqn:Hr.
  - cbn [fst snd]. exists p1, (Ok page), []. repeat split; auto; try apply Hiff1.
  - cbn [fst snd run_attempts]. exists p1, (Err e), [].
    repeat split; auto; try apply Hiff1.
  - cbn [fst snd]. exists p1, (Ok page), [].
    repeat split; auto; try apply Hiff1. simpl. lia.
  - cbn [fst snd]. rewrite (Hst1 eq_refl).
    destruct (IH (S k) _ _ (failed_store_find _ _ Hp))
      as [p' [r [rs [Hf [Ht [Hrs [Hlen [Hall Hiff]]]]]]]].
    exists p', r, (Err e :: rs).
    split; [exact Hf|]. split; [exact Ht|].
    split; [rewrite Hrs; reflexivity|].
    split; [simpl; lia|].
    split; [constructor; [reflexivity|exact Hall]|exact Hiff].
Qed.

(** X5.  Whatever the fetches do, a job with at least one attempt on an
    existing page ends with the page COMPLETED or FAILED, never PENDING or
    PROCESSING.  The queue makes between one and [attempts] attempts; all but
    the last fail, and the page is COMPLETED exactly when the last one
    succeeds. *)
Theorem job_leaves_page_terminal
        (U : URLParser) (fetches : nat -> Fetch) (job : Job) (db : Db)
        (p : Page) :
  Prisma.page_findUnique (job_pageId (job_data job)) db = Some p ->
  (0 < job_attempts job)%nat ->
  let out := process_job fetches job db in
  exists p' r rs,
    Prisma.page_findUnique (job_pageId (job_data job)) (fst out) = Some p'
    /\ terminal (page_status p') = true
    /\ snd out = rs ++ [r]
    /\ (length (snd out) <= job_attempts job)%nat
    /\ Forall (fun x => is_ok x = false) rs
    /\ (is_ok r = true <-> page_status p' = COMPLETED).
Proof.
  intros Hp Hpos out. subst out. unfold process_job.
  destruct (job_attempts job) as [|left]; [lia|].
  destruct (run_attempts_terminal U fetches (job_data job) left 0 db Hp)
    as [p' [r [rs [Hf [Ht [Hrs [Hlen [Hall Hiff]]]]]]]].
  exists p', r, rs. repeat split; auto; try apply Hiff.
  rewrite Hrs, length_app. simpl. lia.
Qed.

Lemma job_leaves_page_terminal_witness :
  Prisma.page_findUnique "p1" (srv_db Sample.server1)
  = Some (mkPage "p1" Sample.base None PENDING 0 "u1")
  /\ (0 < 3)%nat
  /\ exists p',
      Prisma.page_findUnique "p1"
        (fst (process_job (U := SampleURL.parser)
                (fun k => match k with O => Sample.timed_out | _ => Sample.fetched end)
                (mkJob Sample.job1 3 2000) (srv_db Sample.server1))) = Some p'
      /\ terminal (page_status p') = true.
Proof.
  split; [reflexivity|]. split; [lia|].
  destruct (@job_leaves_page_terminal SampleURL.parser
              (fun k => match k with O => Sample.timed_out | _ => Sample.fetched end)
              (mkJob Sample.job1 3 2000) (srv_db Sample.server1)
              (mkPage "p1" Sample.base None PENDING 0 "u1") eq_refl (Nat.lt_0_succ 2))
    as [p' [_ [_ [Hf [Ht _]]]]].
  exists p'. split; [exact Hf|exact Ht].
Defined.

(** ** Routes and the store as a whole *)

Lemma findUnique_none_fresh (id : string) (db : Db) :
  Prisma.page_findUnique id db = None -> ~ In id (map page_id (pages db)).
Proof.
  unfold Prisma.page_findUnique. intros H.
  apply (find_none_not_in page_id String.eqb id (pages db) String.eqb_eq H).
Qed.

Lemma findFirst_url_none_fresh (url userId : string) (db : Db) :
  Prisma.page_findFirst_url url userId db = None ->
  ~ In (url, userId) (map (fun p => (page_url p, page_userId p)) (pages db)).
Proof.
  unfold Prisma.page_findFirst_url. intros H Hin.
  apply in_map_iff in Hin. destruct Hin as [p [Hp Hin]].
  injection Hp as Hu Ho. pose proof (find_none _ _ H _ Hin) as Hn. simpl in Hn.
  rewrite Hu, Ho, !String.eqb_refl in Hn. discriminate.
Qed.

Lemma NoDup_snoc {A} (l : list A) (x : A) :
  NoDup l -> ~ In x l -> NoDup (l ++ [x]).
Proof.
  intros Hnd Hx. apply NoDup_rev in Hnd.
  rewrite <- (rev_involutive (l ++ [x])). apply NoDup_rev.
  rewrite rev_app_distr. simpl. constructor; [|exact Hnd].
  rewrite <- in_rev. exact Hx.
Qed.

Lemma store_ok_update (id : string) (f : Page -> Page) (db : Db) (added : list Link) :
  (forall p, page_id (f p) = page_id p /\ page_url (f p) = page_url p
             /\ page_userId (f p) = page_userId p) ->
  (forall l, In l added -> In (link_pageId l) (map page_id (pages db))) ->
  store_ok db ->
  store_ok (mkDb (Prisma.update_rows id f (pages db)) (links db ++ added)).
Proof.
  intros Hf Hadd [Hi [Hu Hl]]. unfold store_ok, unique_ids, unique_urls_per_owner,
    links_have_pages. simpl.
  rewrite (map_update_rows page_id) by (intros p; apply Hf).
  rewrite (map_update_rows (fun p => (page_url p, page_userId p)))
    by (intros p; destruct (Hf p) as [_ [-> ->]]; reflexivity).
  split; [exact Hi|]. split; [exact Hu|].
  intros l Hin. apply in_app_or in Hin. destruct Hin; auto.
Qed.

Section Reachable.

Context {U : URLParser}.
Variable isURL : string -> bool.

Lemma act_keeps_store_ok (s : Server) (a : Action) :
  store_ok (srv_db s) -> store_ok (srv_db (act isURL s a)).
Proof.
  intros Hok. destruct a as [newId url userId|id userId|id userId|fetch job];
    simpl.
  - unfold post_pages. destruct (negb (validateUrl isURL url)); [exact Hok|].
    destruct (Prisma.page_findFirst_url url userId (srv_db s)) eqn:Hu; [exact Hok|].
    unfold Prisma.page_create.
    destruct (Prisma.page_findUnique newId (srv_db s)) eqn:Hi; [exact Hok|].
    simpl. destruct Hok as [H1 [H2 H3]].
    unfold store_ok, unique_ids, unique_urls_per_owner, links_have_pages. simpl.
    rewrite !map_app. simpl. split; [|split].
    + apply NoDup_snoc; [exact H1|apply findUnique_none_fresh; exact Hi].
    + apply NoDup_snoc; [exact H2|apply findFirst_url_none_fresh; exact Hu].
    + intros l Hl. apply in_or_app. left. apply H3. exact Hl.
  - unfold post_retry.
    destruct (Prisma.page_findFirst_id id userId (srv_db s)); [|exact Hok].
    destruct (negb (Status_eqb (page_status p) FAILED)); [exact Hok|].
    unfold Prisma.page_update.
    destruct (Prisma.page_findUnique id (srv_db s)); [|exact Hok]. simpl.
    rewrite <- (app_nil_r (links (srv_db s))).
    apply store_ok_update; auto. intros l [].
  - unfold delete_page.
    destruct (Prisma.page_findFirst_id id userId (srv_db s)); [|exact Hok].
    unfold PrismaMore.page_delete.
    destruct (Prisma.page_findUnique id (srv_db s)); [|exact Hok]. simpl.
    destruct Hok as [H1 [H2 H3]].
    unfold store_ok, unique_ids, unique_urls_per_owner, links_have_pages. simpl.
    split; [apply NoDup_map_filter; exact H1|].
    split; [apply NoDup_map_filter; exact H2|].
    intros l Hl. apply filter_In in Hl. destruct Hl as [Hl Hne].
    specialize (H3 l Hl). apply in_map_iff in H3. destruct H3 as [q [Hq Hin]].
    apply in_map_iff. exists q. split; [exact Hq|].
    apply filter_In. split; [exact Hin|]. rewrite Hq. exact Hne.
  - unfold worker_store.
    destruct (worker_cases fetch job (srv_db s))
      as [[_ E]|[(p & e & _ & _ & E)|[(p & data & _ & _ & _ & E)
         |(p & data & Hp & _ & _ & E)]]];
      rewrite E; cbn [fst snd].
    + exact Hok.
    + unfold failed_store. rewrite <- (app_nil_r (links (srv_db s))).
      apply store_ok_update; auto. intros l [].
    + unfold failed_store. rewrite <- (app_nil_r (links (srv_db s))).
      apply store_ok_update; auto. intros l [].
    + unfold completed_store. apply store_ok_update; auto.
      intros l Hl. apply in_map_iff in Hl. destruct Hl as [x [<- _]]. simpl.
      unfold Prisma.page_findUnique in Hp. apply find_some_in_ids in Hp.
      destruct Hp as [Hin <-]. apply in_map. exact Hin.
Qed.

End Reachable.

(** X6.  In every store reachable from the empty one by submissions,
    retries, deletions and runs of the worker (on any job, with any outcome
    of the fetch), page ids are unique, no owner has two pages with the same
    URL string, and every link row belongs to a page that exists. *)
Theorem reachable_stores_are_consistent
        (U : URLParser) (isURL : string -> bool) (actions : list Action) :
  let db := srv_db (run_actions isURL actions (mkServer (mkDb [] []) [])) in
  unique_ids db /\ unique_urls_per_owner db /\ links_have_pages db.
Proof.
  intros db. subst db. unfold run_actions.
  assert (H0 : store_ok (srv_db (mkServer (mkDb [] []) []))).
  { repeat split; try constructor. intros l []. }
  revert H0. generalize (mkServer (mkDb [] []) []).
  induction actions as [|a actions IH]; intros s Hs; simpl; [exact Hs|].
  apply IH. apply act_keeps_store_ok. exact Hs.
Qed.

(** X8.  With unique page ids, a page is invisible to every user but its
    owner: for anyone else the detail, links, retry and delete routes answer
    as if the page did not exist, and change nothing, even when the page is
    FAILED. *)
Theorem page_hidden_from_other_users
        (newest_links : list Link -> list Link)
        (id userId : string) (s : Server) (p : Page) :
  unique_ids (srv_db s) ->
  Prisma.page_findUnique id (srv_db s) = Some p ->
  page_userId p <> userId ->
  get_page id userId (srv_db s) = None
  /\ get_page_links newest_links id QAbsent QAbsent userId (srv_db s) = ListingNotFound
  /\ post_retry id userId s = (s, mkResponse 404 (ErrorBody "Page not found"))
  /\ delete_page id userId s = (s, mkResponse 404 (ErrorBody "Page not found")).
Proof.
  intros Hnd Hp Hown.
  assert (Hnone : Prisma.page_findFirst_id id userId (srv_db s) = None).
  { destruct (Prisma.page_findFirst_id id userId (srv_db s)) as [q|] eqn:Hq;
      [|reflexivity].
    exfalso. unfold Prisma.page_findFirst_id in Hq. apply find_some in Hq.
    destruct Hq as [Hinq Hb]. apply andb_true_iff in Hb. destruct Hb as [Hi Hu].
    apply String.eqb_eq in Hi. apply String.eqb_eq in Hu.
    unfold Prisma.page_findUnique in Hp. apply find_some_in_ids in Hp.
    destruct Hp as [Hinp Hidp].
    assert (q = p) by (apply (NoDup_map_inj page_id _ _ _ Hnd Hinq Hinp); congruence).
    subst q. contradiction. }
  unfold get_page, get_page_links, post_retry, delete_page. rewrite Hnone.
  simpl. auto.
Qed.

Lemma page_hidden_from_other_users_witness :
  unique_ids Sample.db2
  /\ Prisma.page_findUnique "p1" Sample.db2
     = Some (mkPage "p1" Sample.base (Some "Scraping Failed") FAILED 0 "u1")
  /\ "u1" <> "u2"
  /\ post_retry "p1" "u2" (mkServer Sample.db2 [])
     = (mkServer Sample.db2 [], mkResponse 404 (ErrorBody "Page not found")).
Proof.
  assert (Hnd : unique_ids Sample.db2).
  { unfold unique_ids. simpl. constructor; [intros []|constructor]. }
  assert (Hne : "u1" <> "u2") by discriminate.
  split; [exact Hnd|]. split; [reflexivity|]. split; [exact Hne|].
  exact (proj1 (proj2 (proj2
    (@page_hidden_from_other_users (fun l => l) "p1" "u2" (mkServer Sample.db2 [])
       (mkPage "p1" Sample.base (Some "Scraping Failed") FAILED 0 "u1")
       Hnd eq_refl Hne)))).
Defined.

Lemma find_filter_implied {A} (P Q : A -> bool) (l : list A) :
  (forall x, P x = true -> Q x = true) ->
  find P (filter Q l) = find P l.
Proof.
  intros H. induction l as [|x l IH]; simpl; [reflexivity|].
  destruct (Q x) eqn:Eq; simpl.
  - destruct (P x); [reflexivity|exact IH].
  - destruct (P x) eqn:Ep; [rewrite (H x Ep) in Eq; discriminate|exact IH].
Qed.

Lemma filter_filter_implied {A} (P Q : A -> bool) (l : list A) :
  (forall x, P x = true -> Q x = true) ->
  filter P (filter Q l) = filter P l.
Proof.
  intros H. induction l as [|x l IH]; simpl; [reflexivity|].
  destruct (Q x) eqn:Eq; simpl.
  - destruct (P x); [rewrite IH; reflexivity|exact IH].
  - destruct (P x) eqn:Ep; [rewrite (H x Ep) in Eq; discriminate|exact IH].
Qed.

Lemma filter_filter_excluded {A} (P Q : A -> bool) (l : list A) :
  (forall x, P x = true -> Q x = false) ->
  filter P (filter Q l) = [].
Proof.
  intros H. induction l as [|x l IH]; simpl; [reflexivity|].
  destruct (Q x) eqn:Eq; simpl; [|exact IH].
  destruct (P x) eqn:Ep; [rewrite (H x Ep) in Eq; discriminate|exact IH].
Qed.

Lemma eqb_other (a id id' : string) :
  id' <> id -> String.eqb a id' = true -> negb (String.eqb a id) = true.
Proof.
  intros Hne H. apply String.eqb_eq in H. subst a.
  destruct (String.eqb id' id) eqn:E; [|reflexivity].
  apply String.eqb_eq in E. contradiction.
Qed.

Lemma delete_page_owner (id userId : string) (s : Server) (p : Page) :
  Prisma.page_findFirst_id id userId (srv_db s) = Some p ->
  delete_page id userId s
  = (mkServer
       (mkDb (filter (fun q => negb (String.eqb (page_id q) id)) (pages (srv_db s)))
             (filter (fun l => negb (String.eqb (link_pageId l) id)) (links (srv_db s))))
       (srv_queue s),
     mkResponse 200 (MessageBody "Page deleted successfully")).
Proof.
  intros Hp. destruct (findFirst_id_findUnique _ _ _ Hp) as [_ [_ [q Hq]]].
  unfold delete_page, PrismaMore.page_delete. rewrite Hp, Hq. reflexivity.
Qed.

Lemma deleted_page_absent (id userId : string) (s : Server) (p : Page) :
  Prisma.page_findFirst_id id userId (srv_db s) = Some p ->
  Prisma.page_findUnique id (srv_db (fst (delete_page id userId s))) = None.
Proof.
  intros Hp. rewrite (delete_page_owner _ _ _ Hp). simpl.
  unfold Prisma.page_findUnique. simpl.
  destruct (find _ (filter _ _)) as [q|] eqn:E; [|reflexivity].
  apply find_some in E. destruct E as [Hin Hq]. apply filter_In in Hin.
  destruct Hin as [_ Hn]. rewrite Hq in Hn. discriminate.
Qed.

(** X9.  When its owner deletes a page, the route answers 200, the page is
    gone together with all its link rows, every other page and its links are
    untouched, and the queue keeps the jobs it had. *)
Theorem delete_cascades_to_links
        (id userId : string) (s : Server) (p : Page) :
  Prisma.page_findFirst_id id userId (srv_db s) = Some p ->
  let s' := fst (delete_page id userId s) in
  snd (delete_page id userId s)
  = mkResponse 200 (MessageBody "Page deleted successfully")
  /\ Prisma.page_findUnique id (srv_db s') = None
  /\ links_of id (srv_db s') = []
  /\ (forall id', id' <> id ->
        Prisma.page_findUnique id' (srv_db s') = Prisma.page_findUnique id' (srv_db s)
        /\ links_of id' (srv_db s') = links_of id' (srv_db s))
  /\ srv_queue s' = srv_queue s.
Proof.
  intros Hp s'. subst s'. pose proof (deleted_page_absent _ _ _ Hp) as Habs.
  rewrite (delete_page_owner _ _ _ Hp) in *. simpl in *.
  split; [reflexivity|]. split; [exact Habs|split; [|split; [|reflexivity]]].
  - unfold links_of. simpl. apply filter_filter_excluded.
    intros l H. rewrite H. reflexivity.
  - intros id' Hne. split.
    + unfold Prisma.page_findUnique. simpl. apply find_filter_implied.
      intros q. apply eqb_other. exact Hne.
    + unfold links_of. simpl. apply filter_filter_implied.
      intros l. apply eqb_other. exact Hne.
Qed.

Lemma delete_cascades_to_links_witness :
  Prisma.page_findFirst_id "p1" "u1" Sample.db4
  = Some (mkPage "p1" Sample.base (Some "Example Page") COMPLETED 3 "u1")
  /\ length (links_of "p1" Sample.db4) = 3%nat
  /\ links_of "p1" (srv_db (fst (delete_page "p1" "u1" (mkServer Sample.db4 []))))
     = [].
Proof.
  split; [reflexivity|]. split; [reflexivity|].
  exact (proj1 (proj2 (proj2
    (@delete_cascades_to_links "p1" "u1" (mkServer Sample.db4 [])
       (mkPage "p1" Sample.base (Some "Example Page") COMPLETED 3 "u1") eq_refl)))).
Defined.

Lemma run_attempts_absent (U : URLParser) (fetches : nat -> Fetch)
      (job : JobData) (db : Db) :
  Prisma.page_findUnique (job_pageId job) db = None ->
  forall left k,
    run_attempts left k fetches job db = (db, repeat (Err "Page not found") left).
Proof.
  intros Hp. induction left as [|left IH]; intros k; [reflexivity|].
  rewrite run_attempts_step. unfold worker_result, worker_store.
  rewrite (worker_page_absent (fetches k) job db Hp). cbn [fst snd].
  rewrite IH. reflexivity.
Qed.

(** X10.  Deleting a page is what cancels its queued job: once the owner has
    deleted the page, processing a job for it, whatever the fetch would
    return, fails every attempt with "Page not found" and leaves the store
    exactly as the deletion left it; no page or link row comes back. *)
Theorem deleted_page_job_changes_nothing
        (U : URLParser) (fetches : nat -> Fetch) (job : Job)
        (userId : string) (s : Server) (p : Page) :
  Prisma.page_findFirst_id (job_pageId (job_data job)) userId (srv_db s) = Some p ->
  let db' := srv_db (fst (delete_page (job_pageId (job_data job)) userId s)) in
  process_job fetches job db'
  = (db', repeat (Err "Page not found") (job_attempts job)).
Proof.
  intros Hp db'. unfold process_job. apply run_attempts_absent.
  exact (deleted_page_absent _ _ _ Hp).
Qed.

Lemma deleted_page_job_changes_nothing_witness :
  Prisma.page_findFirst_id "p1" "u1" (srv_db Sample.server1)
  = Some (mkPage "p1" Sample.base None PENDING 0 "u1")
  /\ process_job (U := SampleURL.parser) (fun _ => Sample.fetched)
       (mkJob Sample.job1 3 2000)
       (srv_db (fst (delete_page "p1" "u1" Sample.server1)))
     = (mkDb [] [],
        [Err "Page not found"; Err "Page not found"; Err "Page not found"]).
Proof.
  split; [reflexivity|].
  exact (@deleted_page_job_changes_nothing SampleURL.parser
           (fun _ => Sample.fetched) (mkJob Sample.job1 3 2000) "u1"
           Sample.server1 (mkPage "p1" Sample.base None PENDING 0 "u1") eq_refl).
Defined.

(** ** Listings and pagination *)

Lemma ceil_div_bounds (total limit : Z) :
  (0 < limit)%Z ->
  ((ceil_div total limit - 1) * limit < total <= ceil_div total limit * limit)%Z.
Proof.
  intros Hl. unfold ceil_div.
  pose proof (Z.div_mod (- total) limit) as Hd.
  pose proof (Z.mod_pos_bound (- total) limit Hl) as Hm.
  nia.
Qed.

Lemma hasNextPage_iff (total page limit : Z) :
  (0 < limit)%Z ->
  hasNextPage (pagination_of total page limit) = true <-> (page * limit < total)%Z.
Proof.
  intros Hl. unfold pagination_of. simpl. rewrite Z.ltb_lt.
  pose proof (ceil_div_bounds total Hl) as Hb. split; intros H; nia.
Qed.

Lemma skip_take_length {A} (rows : list A) (page limit : Z) :
  length (skip_take rows page limit)
  = Nat.min (Z.to_nat limit) (length rows - Z.to_nat ((page - 1) * limit)).
Proof. unfold skip_take. rewrite length_firstn, length_skipn. reflexivity. Qed.

Lemma firstn_plus {A} (a b : nat) (l : list A) :
  firstn (a + b) l = firstn a l ++ firstn b (skipn a l).
Proof.
  revert l. induction a as [|a IH]; intros l; [reflexivity|].
  destruct l as [|x l]; simpl.
  - rewrite firstn_nil. reflexivity.
  - rewrite IH. reflexivity.
Qed.

Lemma concat_chunks {A} (n : nat) (l : list A) (m : nat) :
  concat (map (fun k => firstn n (skipn (k * n) l)) (seq 0 m)) = firstn (m * n) l.
Proof.
  induction m as [|m IH]; [reflexivity|].
  rewrite seq_S, map_app, concat_app, IH. simpl. rewrite app_nil_r.
  rewrite (Nat.add_comm n (m * n)). symmetry. apply firstn_plus.
Qed.

Lemma concat_skip_take {A} (rows : list A) (limit : Z) (m : nat) :
  (0 < limit)%Z ->
  concat (map (fun k => skip_take rows (Z.of_nat k) limit) (seq 1 m))
  = firstn (m * Z.to_nat limit) rows.
Proof.
  intros Hl. rewrite <- seq_shift, map_map, <- concat_chunks. f_equal.
  apply map_ext. intros k. unfold skip_take. f_equal. f_equal. nia.
Qed.

Lemma in_skip_take {A} (rows : list A) (page limit : Z) (x : A) :
  In x (skip_take rows page limit) -> In x rows.
Proof.
  unfold skip_take. intros H.
  rewrite <- (firstn_skipn (Z.to_nat ((page - 1) * limit)) rows).
  apply in_or_app. right.
  rewrite <- (firstn_skipn (Z.to_nat limit) (skipn _ rows)).
  apply in_or_app. left. exact H.
Qed.

Section ListingFacts.

Variable newest_pages : list Page -> list Page.
Hypothesis newest_pages_perm : forall l, Permutation (newest_pages l) l.

Lemma get_pages_ok (page limit : Z) (userId : string) (db : Db) :
  (1 <= page)%Z -> (1 <= limit <= 100)%Z ->
  get_pages newest_pages (QInt page) (QInt limit) userId db
  = ListingOk (skip_take (newest_pages (PrismaMore.pages_where_user userId db))
                         page limit)
              (pagination_of (PrismaMore.page_count_user userId db) page limit).
Proof.
  intros Hp Hl. unfold get_pages, validatePagination, valid_int, parse_or.
  replace (1 <=? page)%Z with true by (symmetry; apply Z.leb_le; lia).
  replace (1 <=? limit)%Z with true by (symmetry; apply Z.leb_le; lia).
  replace (limit <=? 100)%Z with true by (symmetry; apply Z.leb_le; lia).
  replace (page =? 0)%Z with false by (symmetry; apply Z.eqb_neq; lia).
  replace (limit =? 0)%Z with false by (symmetry; apply Z.eqb_neq; lia).
  reflexivity.
Qed.

(** X11.  For valid parameters, with a page number small enough for the
    last row of the page to have a position JavaScript counts exactly, the
    page listing returns only pages of the requesting user, at most [limit]
    of them; [hasNextPage] holds exactly when rows remain after this page, in
    which case the page is full; a page number within [totalPages] is never
    empty and one beyond it always is. *)
Theorem listing_page_contents
        (page limit : Z) (userId : string) (db : Db) :
  (1 <= page)%Z -> (1 <= limit <= 100)%Z ->
  (page * limit <= JS.MAX_SAFE_INTEGER)%Z ->
  exists rows pg,
    get_pages newest_pages (QInt page) (QInt limit) userId db = ListingOk rows pg
    /\ Forall (fun p => page_userId p = userId /\ In p (pages db)) rows
    /\ totalItems pg = PrismaMore.page_count_user userId db
    /\ (Z.of_nat (length rows) <= limit)%Z
    /\ (hasNextPage pg = true <-> (page * limit < totalItems pg)%Z)
    /\ (hasNextPage pg = true -> Z.of_nat (length rows) = limit)
    /\ (hasPrevPage pg = true <-> (1 < page)%Z)
    /\ ((page <= totalPages pg)%Z -> rows <> [])
    /\ ((totalPages pg < page)%Z -> rows = []).
Proof.
  intros Hp Hl _. eexists _, _. split; [apply get_pages_ok; assumption|].
  set (mine := PrismaMore.pages_where_user userId db).
  assert (Hlen : length (newest_pages mine) = length mine)
    by (apply Permutation_length, newest_pages_perm).
  assert (Htot : PrismaMore.page_count_user userId db = Z.of_nat (length mine))
    by reflexivity.
  pose proof (@ceil_div_bounds (Z.of_nat (length mine)) limit ltac:(lia)) as Hb.
  pose proof (skip_take_length (newest_pages mine) page limit) as Hst.
  rewrite Hlen in Hst.
  split; [|split; [reflexivity|]].
  { apply Forall_forall. intros p Hin. apply in_skip_take in Hin.
    apply (Permutation_in _ (newest_pages_perm mine)) in Hin.
    unfold mine, PrismaMore.pages_where_user in Hin. apply filter_In in Hin.
    destruct Hin as [Hin He]. apply String.eqb_eq in He. auto. }
  cbn [totalItems totalPages hasPrevPage pagination_of].
  rewrite Htot.
  split; [lia|].
  split; [apply hasNextPage_iff; lia|].
  split; [intros H; apply hasNextPage_iff in H; [nia|lia]|].
  split; [apply Z.ltb_lt|].
  split.
  - intros Hle Hnil. apply (f_equal (@length Page)) in Hnil. simpl in Hnil.
    rewrite Hnil in Hst. nia.
  - intros Hgt. apply length_zero_iff_nil. nia.
Qed.

(** X12.  The pages of a listing partition it: read from page 1 to
    [totalPages] with the same limit, their rows put end to end are all the
    pages of the user, each exactly once, in the order of the listing. *)
Theorem listing_pages_cover_all
        (limit : Z) (userId : string) (db : Db) :
  (1 <= limit <= 100)%Z ->
  let total := PrismaMore.page_count_user userId db in
  concat (map (fun k => rows_of (get_pages newest_pages (QInt (Z.of_nat k))
                                           (QInt limit) userId db))
              (seq 1 (Z.to_nat (ceil_div total limit))))
  = newest_pages (PrismaMore.pages_where_user userId db).
Proof.
  intros Hl total.
  set (mine := PrismaMore.pages_where_user userId db).
  rewrite (map_ext_in _ (fun k => skip_take (newest_pages mine) (Z.of_nat k) limit)).
  - rewrite concat_skip_take by lia. apply firstn_all2.
    rewrite (Permutation_length (newest_pages_perm mine)).
    pose proof (@ceil_div_bounds total limit ltac:(lia)) as Hb.
    unfold total, PrismaMore.page_count_user in *. fold mine in Hb |- *. nia.
  - intros k Hk. apply in_seq in Hk.
    rewrite get_pages_ok by lia. reflexivity.
Qed.

End ListingFacts.

Lemma listing_page_contents_witness :
  (forall l : list Page, Permutation (rev l) l)
  /\ (1 <= 1)%Z /\ (1 <= 10 <= 100)%Z /\ (1 * 10 <= JS.MAX_SAFE_INTEGER)%Z
  /\ exists rows pg,
      get_pages (@rev Page) (QInt 1) (QInt 10) "u1" Sample.db4 = ListingOk rows pg
      /\ totalItems pg = 1%Z.
Proof.
  assert (Hperm : forall l : list Page, Permutation (rev l) l)
    by (intros l; apply Permutation_sym, Permutation_rev).
  split; [exact Hperm|]. split; [lia|]. split; [lia|].
  split; [discriminate|].
  destruct (@listing_page_contents (@rev Page) Hperm 1 10 "u1" Sample.db4
              ltac:(lia) ltac:(lia) ltac:(discriminate))
    as [rows [pg [E [_ [Ht _]]]]].
  exists rows, pg. split; [exact E|exact Ht].
Defined.

Lemma listing_pages_cover_all_witness :
  (forall l : list Page, Permutation (rev l) l)
  /\ (1 <= 10 <= 100)%Z
  /\ concat (map (fun k => rows_of (get_pages (@rev Page) (QInt (Z.of_nat k))
                                              (QInt 10) "u1" Sample.db4))
                 (seq 1 (Z.to_nat (ceil_div (PrismaMore.page_count_user "u1" Sample.db4) 10))))
     = rev (PrismaMore.pages_where_user "u1" Sample.db4).
Proof.
  assert (Hperm : forall l : list Page, Permutation (rev l) l)
    by (intros l; apply Permutation_sym, Permutation_rev).
  split; [exact Hperm|]. split; [lia|].
  exact (@listing_pages_cover_all (@rev Page) Hperm 10 "u1" Sample.db4 ltac:(lia)).
Defined.

(** ** More on scraping *)

Lemma length_append (a b : string) :
  String.length (a ++ b) = (String.length a + String.length b)%nat.
Proof. induction a as [|c a IH]; simpl; [reflexivity|]. rewrite IH. reflexivity. Qed.

Lemma length_substring_0 (n : nat) (s : string) :
  (n <= String.length s)%nat -> String.length (String.substring 0 n s) = n.
Proof.
  revert s. induction n as [|n IH]; intros s H.
  - destruct s; reflexivity.
  - destruct s as [|c s]; simpl in *; [lia|]. rewrite IH by lia. reflexivity.
Qed.

Lemma or_else_nonempty (a : option string) (d : string) :
  d <> "" -> JS.or_else a d <> "".
Proof.
  intros Hd. unfold JS.or_else. destruct a as [s|]; [|exact Hd].
  destruct (String.eqb s "") eqn:E; [exact Hd|].
  apply String.eqb_neq. exact E.
Qed.

Lemma linkName_of_bounds (a : Anchor) :
  linkName_of a <> "" /\ (String.length (linkName_of a) <= 200)%nat.
Proof.
  unfold linkName_of.
  set (name := if String.eqb (JS.trim (a_text a)) "" then _ else _).
  assert (Hne : name <> "").
  { subst name. destruct (String.eqb (JS.trim (a_text a)) "") eqn:E.
    - destruct (a_imgs a) as [|img imgs].
      + apply or_else_nonempty. discriminate.
      + apply or_else_nonempty, or_else_nonempty. discriminate.
    - apply String.eqb_neq. exact E. }
  destruct (200 <? String.length name)%nat eqn:El.
  - apply Nat.ltb_lt in El. split.
    + intros H. apply (f_equal String.length) in H.
      rewrite length_append, length_substring_0 in H by lia. simpl in H. lia.
    + rewrite length_append, length_substring_0 by lia. simpl. lia.
  - apply Nat.ltb_ge in El. auto.
Qed.

Lemma Forall_flat_map_each {A B} (P : B -> Prop) (f : A -> option B) (l : list A) :
  (forall a b, f a = Some b -> P b) ->
  Forall P (flat_map (fun a => match f a with Some b => [b] | None => [] end) l).
Proof.
  intros H. apply Forall_forall. intros b Hb. apply in_flat_map in Hb.
  destruct Hb as [a [_ Hb]]. destruct (f a) as [b'|] eqn:E; [|destruct Hb].
  destruct Hb as [<-|[]]. exact (H a b' E).
Qed.

Lemma limit_links_prefix (options : option ScrapingOptions) (ls : list ScrapedLink) :
  exists rest, ls = limit_links options ls ++ rest.
Proof.
  unfold limit_links. destruct options as [o|]; [|exists []; symmetry; apply app_nil_r].
  destruct (maxLinks o) as [n|]; [|exists []; symmetry; apply app_nil_r].
  destruct (n =? 0)%Z; [exists []; symmetry; apply app_nil_r|].
  unfold JS.slice0. destruct (n <? 0)%Z; eexists; symmetry; apply firstn_skipn.
Qed.

(** X13.  Every link [scrapePage] returns, under any options, has a name
    that is not empty and is at most 200 characters long. *)
Theorem scraped_link_names_are_bounded
        (U : URLParser) (response : result Document) (url : string)
        (options : option ScrapingOptions) (data : ScrapedPage) :
  scrapePage response url options = Ok data ->
  Forall (fun l => text l <> "" /\ (String.length (text l) <= 200)%nat)
         (sp_links data).
Proof.
  unfold scrapePage. destruct response as [doc|m]; [|discriminate].
  intros H. injection H as <-. simpl.
  destruct (limit_links_prefix options
              (fold_left (push_each (scrapePage_each url)) (doc_anchors doc) []))
    as [rest Hrest].
  assert (Hall : Forall (fun l => text l <> "" /\ (String.length (text l) <= 200)%nat)
                        (fold_left (push_each (scrapePage_each url)) (doc_anchors doc) [])).
  { rewrite fold_push_each. simpl. apply Forall_flat_map_each.
    intros a l. unfold scrapePage_each.
    destruct (skipped_href (a_href a)); [discriminate|].
    destruct (url_href (a_href a) url); [|discriminate].
    intros E. injection E as <-. simpl.
    destruct (linkName_of_bounds a) as [Hne Hlen].
    destruct (String.eqb (linkName_of a) "") eqn:Ee.
    - apply String.eqb_eq in Ee. contradiction.
    - auto. }
  rewrite Hrest in Hall. apply Forall_app in Hall. apply Hall.
Qed.

Lemma scraped_link_names_are_bounded_witness :
  scrapePage (U := SampleURL.parser) (Ok Sample.fixture) Sample.base None
  = Ok (mkScrapedPage Sample.base "Example Page" ""
          (@extractLinks SampleURL.parser Sample.fixture Sample.base))
  /\ Forall (fun l => text l <> "" /\ (String.length (text l) <= 200)%nat)
            (@extractLinks SampleURL.parser Sample.fixture Sample.base).
Proof.
  split; [reflexivity|].
  exact (@scraped_link_names_are_bounded SampleURL.parser (Ok Sample.fixture)
           Sample.base None _ eq_refl).
Defined.

(** X14.  [maxLinks] only cuts the tail: whatever the options, the links
    returned are a prefix, in document order, of the links returned without
    options, and title and description are the same; a positive [maxLinks]
    returns at most that many links, and 0 or no [maxLinks] returns all. *)
Theorem max_links_keeps_a_prefix
        (U : URLParser) (response : result Document) (url : string)
        (options : option ScrapingOptions) (data : ScrapedPage) :
  scrapePage response url options = Ok data ->
  exists full rest,
    scrapePage response url None = Ok full
    /\ sp_links full = sp_links data ++ rest
    /\ sp_title full = sp_title data
    /\ sp_description full = sp_description data
    /\ (forall o n, options = Some o -> maxLinks o = Some n -> (0 < n)%Z ->
                    length (sp_links data)
                    = Nat.min (Z.to_nat n) (length (sp_links full)))
    /\ ((options = None \/ exists o, options = Some o
                                     /\ (maxLinks o = None \/ maxLinks o = Some 0%Z)) ->
        rest = []).
Proof.
  unfold scrapePage. destruct response as [doc|m]; [|discriminate].
  intros H. injection H as <-. simpl.
  set (ls := fold_left (push_each (scrapePage_each url)) (doc_anchors doc) []).
  assert (Hcases :
            (limit_links options ls = ls)
            \/ exists o n, options = Some o /\ maxLinks o = Some n /\ n <> 0%Z
                           /\ limit_links options ls = JS.slice0 ls n).
  { unfold limit_links. destruct options as [o|]; [|auto].
    destruct (maxLinks o) as [n|] eqn:Em; [|auto].
    destruct (n =? 0)%Z eqn:En; [auto|]. right. exists o, n.
    apply Z.eqb_neq in En. auto. }
  destruct Hcases as [E|[o [n [Ho [Hm [Hn E]]]]]].
  - eexists _, []. rewrite E, app_nil_r. simpl.
    repeat split; auto. intros o n Ho Hm Hpos.
    subst options. unfold limit_links in E. rewrite Hm in E.
    replace (n =? 0)%Z with false in E by (symmetry; apply Z.eqb_neq; lia).
    rewrite <- E at 1. unfold JS.slice0.
    replace (n <? 0)%Z with false by (symmetry; apply Z.ltb_ge; lia).
    rewrite length_firstn. reflexivity.
  - rewrite E.
    assert (Hk : exists k, JS.slice0 ls n = firstn k ls
                           /\ ((0 < n)%Z -> k = Z.to_nat n)).
    { unfold JS.slice0. destruct (n <? 0)%Z eqn:Eneg; eexists; split;
        try reflexivity; intros Hpos.
      apply Z.ltb_lt in Eneg. lia. }
    destruct Hk as [k [Hk Hkn]]. rewrite Hk.
    eexists _, (skipn k ls). split; [reflexivity|]. simpl.
    split; [symmetry; apply firstn_skipn|].
    split; [reflexivity|]. split; [reflexivity|]. split.
    + intros o' n' Ho' Hm' Hpos. rewrite Ho in Ho'. injection Ho' as <-.
      rewrite Hm in Hm'. injection Hm' as <-.
      rewrite (Hkn Hpos), length_firstn. reflexivity.
    + intros [Hnone|[o' [Ho' [Hm'|Hm']]]]; exfalso.
      * rewrite Ho in Hnone. discriminate.
      * rewrite Ho in Ho'. injection Ho' as <-. rewrite Hm in Hm'. discriminate.
      * rewrite Ho in Ho'. injection Ho' as <-. rewrite Hm in Hm'.
        injection Hm' as ->. contradiction.
Qed.

Lemma max_links_keeps_a_prefix_witness :
  exists data,
    scrapePage (U := SampleURL.parser) (Ok Sample.fixture) Sample.base
               (Some (mkScrapingOptions (Some 2%Z))) = Ok data
    /\ length (sp_links data) = 2%nat.
Proof.
  eexists. split; [reflexivity|].
  destruct (@max_links_keeps_a_prefix SampleURL.parser (Ok Sample.fixture) Sample.base
              (Some (mkScrapingOptions (Some 2%Z))) _ eq_refl)
    as [full [rest [Hf [_ [_ [_ [Hlen _]]]]]]].
  injection Hf as <-.
  exact (Hlen (mkScrapingOptions (Some 2%Z)) 2%Z eq_refl eq_refl eq_refl).
Defined.

(** ** The Dashboard's list of pages *)

Lemma merge_server_page_nil (sp : Page) :
  merge_server_page [] sp = [view_of_server sp].
Proof. reflexivity. Qed.

Lemma merge_server_page_cons (x : PageView) (r : list PageView) (sp : Page) :
  merge_server_page (x :: r) sp
  = if String.eqb (pv_id x) (page_id sp) then merge_entry x sp :: r
    else x :: merge_server_page r sp.
Proof.
  unfold merge_server_page. simpl.
  destruct (String.eqb (pv_id x) (page_id sp)); [reflexivity|].
  destruct (findIndex (fun p => String.eqb (pv_id p) (page_id sp)) r) as [i|];
    simpl; [|reflexivity].
  destruct (nth_error r i); reflexivity.
Qed.

Lemma merge_server_page_shape (acc : list PageView) (sp : Page) :
  exists acc' tail,
    merge_server_page acc sp = acc' ++ tail
    /\ map id_and_flag acc' = map id_and_flag acc
    /\ (length tail <= 1)%nat
    /\ In (page_id sp) (map pv_id (acc' ++ tail)).
Proof.
  induction acc as [|x r IH].
  - exists [], [view_of_server sp]. simpl. auto.
  - rewrite merge_server_page_cons.
    destruct (String.eqb (pv_id x) (page_id sp)) eqn:E.
    + apply String.eqb_eq in E. exists (merge_entry x sp :: r), [].
      rewrite app_nil_r. simpl. unfold id_and_flag at 1 3. simpl. rewrite E.
      repeat split; auto.
    + destruct IH as [acc' [tail [Hm [Hmap [Hlen Hin]]]]].
      exists (x :: acc'), tail. rewrite Hm. simpl. rewrite Hmap.
      repeat split; auto.
Qed.

Lemma merge_server_page_fresh (acc : list PageView) (sp : Page) :
  ~ In (page_id sp) (map pv_id acc) ->
  merge_server_page acc sp = acc ++ [view_of_server sp].
Proof.
  induction acc as [|x r IH]; intros Hn; [reflexivity|].
  rewrite merge_server_page_cons. simpl in Hn.
  destruct (String.eqb (pv_id x) (page_id sp)) eqn:E.
  - apply String.eqb_eq in E. exfalso. apply Hn. left. exact E.
  - rewrite IH by (intros H; apply Hn; right; exact H). reflexivity.
Qed.

Lemma merge_fold_prefix (server : list Page) :
  forall acc k,
    (k <= length acc)%nat ->
    map id_and_flag (firstn k (fold_left merge_server_page server acc))
    = map id_and_flag (firstn k acc)
    /\ (length acc <= length (fold_left merge_server_page server acc)
        <= length acc + length server)%nat
    /\ (forall sp, In sp server ->
                   In (page_id sp) (map pv_id (fold_left merge_server_page server acc)))
    /\ incl (map pv_id acc) (map pv_id (fold_left merge_server_page server acc)).
Proof.
  induction server as [|sp server IH]; intros acc k Hk; simpl.
  - split; [reflexivity|]. split; [lia|]. split; [intros sp []|apply incl_refl].
  - destruct (merge_server_page_shape acc sp) as [acc' [tail [Hm [Hmap [Hlen Hin]]]]].
    assert (Hl : length acc' = length acc).
    { rewrite <- (length_map id_and_flag acc'), Hmap. apply length_map. }
    assert (Hids : map pv_id acc' = map pv_id acc).
    { apply (f_equal (map fst)) in Hmap. rewrite !map_map in Hmap. exact Hmap. }
    rewrite Hm.
    destruct (IH (acc' ++ tail) k) as [H1 [H2 [H3 H4]]].
    { rewrite length_app. lia. }
    rewrite length_app in H2.
    split; [|split; [lia|split]].
    + rewrite H1. rewrite firstn_app.
      replace (k - length acc')%nat with 0%nat by lia. simpl. rewrite app_nil_r.
      rewrite <- !firstn_map, Hmap. reflexivity.
    + intros sp' [<-|Hin']; [apply H4; exact Hin|apply H3; exact Hin'].
    + intros x Hx. apply H4. rewrite map_app, Hids. apply in_or_app. left. exact Hx.
Qed.

(** X17.  A refresh never erases or reorders the provisional entries: the
    merged list starts with the temporary entries of the current list, same
    ids, still temporary, in the same order; every page of the server's
    response appears in it; and it has no more entries than the temporary
    ones plus the server's. *)
Theorem refresh_keeps_temporary_entries
        (pages : list PageView) (serverPages : list Page) :
  let temps := filter pv_isTemporary pages in
  let merged := merge_pages pages serverPages in
  map pv_id (firstn (length temps) merged) = map pv_id temps
  /\ Forall (fun v => pv_isTemporary v = true) (firstn (length temps) merged)
  /\ (forall sp, In sp serverPages -> In (page_id sp) (map pv_id merged))
  /\ (length temps <= length merged <= length temps + length serverPages)%nat.
Proof.
  intros temps merged. subst merged. unfold merge_pages. fold temps.
  destruct (@merge_fold_prefix serverPages temps (length temps) (le_n _))
    as [H1 [H2 [H3 _]]].
  rewrite firstn_all in H1.
  set (front := firstn (length temps)
                       (fold_left merge_server_page serverPages temps)) in *.
  assert (Hids : map pv_id front = map pv_id temps).
  { transitivity (map fst (map id_and_flag front)); [rewrite map_map; reflexivity|].
    rewrite H1, map_map. reflexivity. }
  assert (Hflags : map pv_isTemporary front = map pv_isTemporary temps).
  { transitivity (map snd (map id_and_flag front)); [rewrite map_map; reflexivity|].
    rewrite H1, map_map. reflexivity. }
  split; [exact Hids|]. split; [|split; [exact H3|exact H2]].
  apply Forall_forall. intros v Hv.
  assert (Hin : In (pv_isTemporary v) (map pv_isTemporary front))
    by (apply in_map; exact Hv).
  rewrite Hflags in Hin. apply in_map_iff in Hin. destruct Hin as [t [Ht Hin]].
  unfold temps in Hin. apply filter_In in Hin. destruct Hin as [_ Htt].
  rewrite <- Ht. exact Htt.
Qed.

Lemma merge_fold_disjoint (temps : list PageView) (rest : list Page) :
  forall done,
    NoDup (map page_id (done ++ rest)) ->
    (forall t, In t temps -> ~ In (pv_id t) (map page_id rest)) ->
    fold_left merge_server_page rest (temps ++ map view_of_server done)
    = temps ++ map view_of_server (done ++ rest).
Proof.
  induction rest as [|sp rest IH]; intros done Hnd Hdis; simpl.
  - rewrite app_nil_r. reflexivity.
  - rewrite merge_server_page_fresh.
    + rewrite <- app_assoc.
      replace (map view_of_server done ++ [view_of_server sp])
        with (map view_of_server (done ++ [sp])) by (rewrite map_app; reflexivity).
      rewrite IH.
      * rewrite <- app_assoc. reflexivity.
      * rewrite <- app_assoc. exact Hnd.
      * intros t Ht Hin. apply (Hdis t Ht). right. exact Hin.
    + rewrite map_app, map_map. simpl. intros Hin. apply in_app_or in Hin.
      destruct Hin as [Hin|Hin].
      * apply in_map_iff in Hin. destruct Hin as [t [Ht Hin]].
        apply (Hdis t Hin). left. symmetry. exact Ht.
      * rewrite map_app in Hnd. apply NoDup_remove_2 in Hnd.
        apply Hnd. apply in_or_app. left. exact Hin.
Qed.

Lemma merge_pages_disjoint (pages : list PageView) (serverPages : list Page) :
  NoDup (map page_id serverPages) ->
  (forall t, In t pages -> pv_isTemporary t = true ->
             ~ In (pv_id t) (map page_id serverPages)) ->
  merge_pages pages serverPages
  = filter pv_isTemporary pages ++ map view_of_server serverPages.
Proof.
  intros Hnd Hdis. unfold merge_pages.
  rewrite <- (app_nil_r (filter pv_isTemporary pages)) at 1.
  apply (merge_fold_disjoint (filter pv_isTemporary pages) serverPages []).
  - exact Hnd.
  - intros t Ht. apply filter_In in Ht. destruct Ht as [Hin Htt]. auto.
Qed.

(** X18.  When the server's pages have distinct ids and none of them is the
    id of a temporary entry, a refresh shows the temporary entries followed
    by the server's pages exactly as the server sent them, in its order:
    entries that were confirmed before are replaced by the server's version,
    so no page appears twice and none is shown with stale data. *)
Theorem refresh_replaces_confirmed_entries
        (pages : list PageView) (serverPages : list Page) :
  NoDup (map page_id serverPages) ->
  (forall t, In t pages -> pv_isTemporary t = true ->
             ~ In (pv_id t) (map page_id serverPages)) ->
  let merged := merge_pages pages serverPages in
  merged = filter pv_isTemporary pages ++ map view_of_server serverPages
  /\ map pv_id (filter (fun v => negb (pv_isTemporary v)) merged)
     = map page_id serverPages
  /\ NoDup (map pv_id (filter (fun v => negb (pv_isTemporary v)) merged)).
Proof.
  intros Hnd Hdis merged. subst merged.
  rewrite (merge_pages_disjoint pages serverPages Hnd Hdis).
  assert (Hf : filter (fun v => negb (pv_isTemporary v))
                      (filter pv_isTemporary pages ++ map view_of_server serverPages)
               = map view_of_server serverPages).
  { rewrite filter_app.
    rewrite (filter_filter_excluded (fun v => negb (pv_isTemporary v)) pv_isTemporary)
      by (intros v H; destruct (pv_isTemporary v); [discriminate|reflexivity]).
    simpl. induction serverPages as [|sp l IH]; simpl; [reflexivity|].
    inversion Hnd; subst. rewrite IH; auto.
    intros t Ht Htt Hin. apply (Hdis t Ht Htt). right. exact Hin. }
  rewrite Hf, map_map. simpl. auto.
Qed.

Lemma refresh_replaces_confirmed_entries_witness :
  let local := [ mkPageView "temp-2" "https://b.example/" None PENDING 0 true;
                 mkPageView "real-1" Sample.base None PROCESSING 0 false ] in
  let server := [ mkPage "real-1" Sample.base (Some "X") COMPLETED 5 "u1" ] in
  NoDup (map page_id server)
  /\ (forall t, In t local -> pv_isTemporary t = true ->
                ~ In (pv_id t) (map page_id server))
  /\ merge_pages local server
     = [ mkPageView "temp-2" "https://b.example/" None PENDING 0 true;
         mkPageView "real-1" Sample.base (Some "X") COMPLETED 5 false ].
Proof.
  intros local server.
  assert (Hnd : NoDup (map page_id server)).
  { simpl. constructor; [intros []|constructor]. }
  assert (Hdis : forall t, In t local -> pv_isTemporary t = true ->
                           ~ In (pv_id t) (map page_id server)).
  { intros t [<-|[<-|[]]] Htt; simpl; [|discriminate Htt].
    intros [H|[]]. discriminate H. }
  split; [exact Hnd|]. split; [exact Hdis|].
  exact (proj1 (@refresh_replaces_confirmed_entries local server Hnd Hdis)).
Defined.

Lemma is_processing_status (page : PageView) :
  is_processing page = negb (terminal (pv_status page)).
Proof.
  unfold is_processing. destruct (pv_status page), (pv_isTemporary page); reflexivity.
Qed.

(** X19.  Whether polling goes on after a refresh depends on statuses only:
    under the conditions of X18, [hasProcessingPages] of the merged list is
    false exactly when every temporary entry and every page of the server is
    COMPLETED or FAILED; the [isTemporary] flag plays no part. *)
Theorem polling_stops_when_all_terminal
        (pages : list PageView) (serverPages : list Page) :
  NoDup (map page_id serverPages) ->
  (forall t, In t pages -> pv_isTemporary t = true ->
             ~ In (pv_id t) (map page_id serverPages)) ->
  hasProcessingPages (merge_pages pages serverPages) = false
  <-> (forall t, In t pages -> pv_isTemporary t = true ->
                 terminal (pv_status t) = true)
      /\ (forall sp, In sp serverPages -> terminal (page_status sp) = true).
Proof.
  intros Hnd Hdis. rewrite (merge_pages_disjoint pages serverPages Hnd Hdis).
  unfold hasProcessingPages. rewrite existsb_app, orb_false_iff.
  assert (Hall : forall l : list PageView,
             existsb is_processing l = false
             <-> forall v, In v l -> terminal (pv_status v) = true).
  { intros l. split.
    - intros H v Hv. destruct (terminal (pv_status v)) eqn:E; [reflexivity|].
      assert (Hex : existsb is_processing l = true).
      { apply existsb_exists. exists v. split; [exact Hv|].
        rewrite is_processing_status, E. reflexivity. }
      rewrite Hex in H. discriminate.
    - intros H. destruct (existsb is_processing l) eqn:E; [|reflexivity].
      apply existsb_exists in E. destruct E as [v [Hv Hp]].
      rewrite is_processing_status, (H v Hv) in Hp. discriminate. }
  rewrite !Hall. split; intros [H1 H2]; split.
  - intros t Ht Htt. apply H1. apply filter_In. auto.
  - intros sp Hsp. apply (H2 (view_of_server sp)). apply in_map. exact Hsp.
  - intros v Hv. apply filter_In in Hv. destruct Hv. auto.
  - intros v Hv. apply in_map_iff in Hv. destruct Hv as [sp [<- Hsp]].
    simpl. auto.
Qed.

Lemma polling_stops_when_all_terminal_witness :
  let local := [ mkPageView "real-1" Sample.base None PROCESSING 0 false ] in
  let server := [ mkPage "real-1" Sample.base (Some "X") COMPLETED 5 "u1" ] in
  NoDup (map page_id server)
  /\ (forall t, In t local -> pv_isTemporary t = true ->
                ~ In (pv_id t) (map page_id server))
  /\ hasProcessingPages (merge_pages local server) = false.
Proof.
  intros local server.
  assert (Hnd : NoDup (map page_id server)).
  { simpl. constructor; [intros []|constructor]. }
  assert (Hdis : forall t, In t local -> pv_isTemporary t = true ->
                           ~ In (pv_id t) (map page_id server)).
  { intros t [<-|[]] Htt. discriminate Htt. }
  split; [exact Hnd|]. split; [exact Hdis|].
  apply (proj2 (@polling_stops_when_all_terminal local server Hnd Hdis)).
  split.
  - intros t [<-|[]] Htt. discriminate Htt.
  - intros sp [<-|[]]. reflexivity.
Defined.

(** X21.  When the server refuses a submission as a duplicate, the Dashboard
    does not recognise the refusal: the server's message lacks the words the
    client looks for, so the provisional entry is not removed but stays in the
    list as a FAILED, non-temporary entry under its temporary id, and the
    server's message is shown as an error. *)
Theorem server_duplicate_leaves_failed_entry
        (isURL : string -> bool) (newId userId input tempId sent : string) (now : Z)
        (pages prev : list PageView) (s : Server) (existing : Page) :
  handleSubmit input now pages = SubmitSent tempId prev sent ->
  (forall p, In p pages -> pv_id p <> tempId) ->
  validateUrl isURL sent = true ->
  Prisma.page_findFirst_url sent userId (srv_db s) = Some existing ->
  exists o,
    post_outcome (snd (post_pages isURL newId sent userId s)) = Some o
    /\ submit_settled tempId o prev
       = (failed_entry tempId sent :: pages,
          Some (NoticeError "This URL has already been added for scraping"))
    /\ fst (post_pages isURL newId sent userId s) = s.
Proof.
  intros Hsub Hfresh Hv Hdup.
  unfold post_pages. rewrite Hv, Hdup. simpl.
  eexists. split; [reflexivity|]. split; [|reflexivity].
  unfold handleSubmit in Hsub.
  destruct (String.eqb (JS.trim input) ""); [discriminate|].
  destruct (find _ pages); [discriminate|].
  injection Hsub as <- <- <-. simpl. rewrite String.eqb_refl.
  unfold failed_entry. f_equal. f_equal.
  rewrite <- (map_id pages) at 2. apply map_ext_in. intros p Hp.
  destruct (String.eqb (pv_id p) _) eqn:E; [|reflexivity].
  apply String.eqb_eq in E. exfalso. exact (Hfresh p Hp E).
Qed.

Lemma server_duplicate_leaves_failed_entry_witness :
  handleSubmit Sample.base 1700000000000 []
  = SubmitSent "temp-1700000000000"
               [mkPageView "temp-1700000000000" Sample.base None PENDING 0 true]
               Sample.base
  /\ validateUrl Sample.accept_all Sample.base = true
  /\ Prisma.page_findFirst_url Sample.base "u1" (srv_db Sample.server1)
     = Some (mkPage "p1" Sample.base None PENDING 0 "u1")
  /\ exists o,
      post_outcome (snd (post_pages Sample.accept_all "p2" Sample.base "u1"
                                    Sample.server1)) = Some o
      /\ fst (submit_settled "temp-1700000000000" o
                [mkPageView "temp-1700000000000" Sample.base None PENDING 0 true])
         = [failed_entry "temp-1700000000000" Sample.base].
Proof.
  split; [reflexivity|]. split; [reflexivity|]. split; [reflexivity|].
  destruct (@server_duplicate_leaves_failed_entry Sample.accept_all "p2" "u1"
              Sample.base "temp-1700000000000" Sample.base 1700000000000 []
              [mkPageView "temp-1700000000000" Sample.base None PENDING 0 true]
              Sample.server1 (mkPage "p1" Sample.base None PENDING 0 "u1")
              eq_refl (fun p (H : In p []) => match H with end) eq_refl eq_refl)
    as [o [Ho [Hs _]]].
  exists o. split; [exact Ho|]. rewrite Hs. reflexivity.
Defined.

(** ** More on notifications *)

(** A page the loop passes over without doing anything. *)
Lemma check_page_quiet (n : Notifier) (ts : list Toast) (b : bool) (page : PageView) :
  (announceable page -> In (pageKey (pv_id page) (pv_status page)) (notifiedPagesRef n)) ->
  (pv_isTemporary page = false -> pv_status page = FAILED ->
   In (pageKey (pv_id page) (pv_status page)) (notifiedPagesRef n)) ->
  check_page (n, ts, b) page = (n, ts, b).
Proof.
  intros Ha Hf.
  destruct (check_page_cases n ts b page)
    as [[E _]|[[Han [Hn _]]|[Ht [Hs [Hn _]]]]].
  - exact E.
  - exfalso. apply Hn. apply Ha. exact Han.
  - exfalso. apply Hn. apply Hf; assumption.
Qed.

(** After a page has been looked at, its key is recorded if a toast was due,
    and recorded keys stay. *)
Lemma check_page_records (n : Notifier) (ts : list Toast) (b : bool) (page : PageView) :
  let n' := fst (fst (check_page (n, ts, b) page)) in
  incl (notifiedPagesRef n) (notifiedPagesRef n')
  /\ (announceable page -> In (pageKey (pv_id page) (pv_status page)) (notifiedPagesRef n'))
  /\ (pv_isTemporary page = false -> pv_status page = FAILED ->
      In (pageKey (pv_id page) (pv_status page)) (notifiedPagesRef n'))
  /\ exists new,
      snd (fst (check_page (n, ts, b) page)) = ts ++ new
      /\ snd (check_page (n, ts, b) page)
         = (b || match new with [] => false | _ => true end).
Proof.
  destruct (check_page_cases n ts b page)
    as [[E [Ha Hf]]|[[Han [Hn [msg E]]]|[Ht [Hs [Hn E]]]]]; rewrite E; simpl.
  - split; [apply incl_refl|]. split; [exact Ha|]. split; [exact Hf|].
    exists []. rewrite app_nil_r, orb_false_r. auto.
  - split; [apply incl_appl, incl_refl|].
    split; [intros _; apply in_or_app; right; left; reflexivity|].
    split; [intros _ _; apply in_or_app; right; left; reflexivity|].
    eexists [_]. rewrite orb_true_r. auto.
  - split; [apply incl_appl, incl_refl|].
    split; [intros _; apply in_or_app; right; left; reflexivity|].
    split; [intros _ _; apply in_or_app; right; left; reflexivity|].
    eexists [_]. rewrite orb_true_r. auto.
Qed.

Lemma check_fold_records (pages : list PageView) :
  forall n ts b,
    let out := fold_left check_page pages (n, ts, b) in
    incl (notifiedPagesRef n) (notifiedPagesRef (fst (fst out)))
    /\ (forall p, In p pages ->
          (announceable p ->
           In (pageKey (pv_id p) (pv_status p)) (notifiedPagesRef (fst (fst out))))
          /\ (pv_isTemporary p = false -> pv_status p = FAILED ->
              In (pageKey (pv_id p) (pv_status p)) (notifiedPagesRef (fst (fst out)))))
    /\ exists new,
        snd (fst out) = ts ++ new
        /\ snd out = (b || match new with [] => false | _ => true end).
Proof.
  induction pages as [|page pages IH]; intros n ts b out; subst out;
    cbn [fold_left].
  - split; [apply incl_refl|]. split; [intros p []|].
    exists []. rewrite app_nil_r, orb_false_r. auto.
  - destruct (check_page_records n ts b page) as [Hi [Ha [Hf [new1 [Ht1 Hb1]]]]].
    destruct (check_page (n, ts, b) page) as [[n1 ts1] b1] eqn:E.
    cbn [fst snd] in *.
    destruct (IH n1 ts1 b1) as [Hi2 [Hall [new2 [Ht2 Hb2]]]].
    split; [eapply incl_tran; eauto|]. split.
    + intros p [<-|Hin]; [|apply Hall; exact Hin].
      split; intros; apply Hi2; auto.
    + exists (new1 ++ new2). rewrite Ht2, Hb2, Ht1, Hb1, app_assoc.
      split; [reflexivity|].
      destruct new1, new2; simpl; rewrite ?orb_false_r, ?orb_true_r; reflexivity.
Qed.

Lemma check_fold_quiet (pages : list PageView) (n : Notifier) (ts : list Toast)
      (b : bool) :
  (forall p, In p pages ->
     (announceable p -> In (pageKey (pv_id p) (pv_status p)) (notifiedPagesRef n))
     /\ (pv_isTemporary p = false -> pv_status p = FAILED ->
         In (pageKey (pv_id p) (pv_status p)) (notifiedPagesRef n))) ->
  fold_left check_page pages (n, ts, b) = (n, ts, b).
Proof.
  induction pages as [|page pages IH]; intros H; cbn [fold_left]; [reflexivity|].
  rewrite check_page_quiet by (apply H; left; reflexivity).
  apply IH. intros p Hp. apply H. right. exact Hp.
Qed.

(** X23.  Checking the same list again right away is silent: whatever the
    notifier held, a second [checkForCompletedJobs] on the same pages shows
    no toast, changes nothing and reports no status change, so the re-render
    that a status change forces does not trigger another one. *)
Theorem second_check_is_silent (pages : list PageView) (n : Notifier) :
  let n1 := fst (fst (checkForCompletedJobs pages n)) in
  checkForCompletedJobs pages n1 = (n1, [], false).
Proof.
  intros n1. unfold checkForCompletedJobs in *.
  apply check_fold_quiet. intros p Hp.
  destruct (check_fold_records pages n [] false) as [_ [Hall _]].
  exact (Hall p Hp).
Qed.

(** X24.  [checkForCompletedJobs] reports a status change exactly when it
    has shown at least one toast, and then as many keys were added to the
    notified set as toasts were shown. *)
Theorem status_change_means_toast (pages : list PageView) (n : Notifier) :
  let out := checkForCompletedJobs pages n in
  (snd out = true <-> snd (fst out) <> [])
  /\ length (notifiedPagesRef (fst (fst out)))
     = (length (notifiedPagesRef n) + length (snd (fst out)))%nat.
Proof.
  intros out. subst out. unfold checkForCompletedJobs. split.
  - destruct (check_fold_records pages n [] false) as [_ [_ [new [Ht Hb]]]].
    rewrite Ht, Hb. simpl. destruct new; split; intros H; try discriminate;
      try reflexivity. contradiction.
  - assert (Hgen : forall ps m ts b,
               (length (notifiedPagesRef (fst (fst (fold_left check_page ps (m, ts, b)))))
                + length ts
                = length (notifiedPagesRef m)
                  + length (snd (fst (fold_left check_page ps (m, ts, b)))))%nat).
    { induction ps as [|page ps IH]; intros m ts b; cbn [fold_left];
        [simpl; lia|].
      destruct (check_page_cases m ts b page)
        as [[E _]|[[_ [_ [msg E]]]|[_ [_ [_ E]]]]]; rewrite E.
      - apply IH.
      - specialize (IH (mkNotifier
                          (notifiedPagesRef m
                           ++ [pageKey (pv_id page) (pv_status page)])
                          (Some (notifiedPagesRef m
                                 ++ [pageKey (pv_id page) (pv_status page)])))
                       (ts ++ [toast_success ("completed-" ++ pv_id page) msg]) true).
        cbn [notifiedPagesRef] in IH. rewrite !length_app in IH.
        cbn [length] in IH. lia.
      - specialize (IH (mkNotifier
                          (notifiedPagesRef m
                           ++ [pageKey (pv_id page) (pv_status page)])
                          (Some (notifiedPagesRef m
                                 ++ [pageKey (pv_id page) (pv_status page)])))
                       (ts ++ [toast_error ("failed-" ++ pv_id page)
                                 ("Scraping failed for "
                                  ++ JS.or_else (pv_title page) (pv_url page))]) true).
        cbn [notifiedPagesRef] in IH. rewrite !length_app in IH.
        cbn [length] in IH. lia. }
    specialize (Hgen pages n [] false). simpl in Hgen. lia.
Qed.

(** ** Submission, end to end *)

(** X22.  When the server accepts a submission, the provisional entry is
    confirmed in place: it takes the id of the new page, stops being
    temporary and is shown as PROCESSING, while the page the server has just
    stored is PENDING with one job enqueued. *)
Theorem accepted_submission_is_confirmed_in_place
        (isURL : string -> bool) (newId userId input tempId sent : string) (now : Z)
        (pages prev : list PageView) (s : Server) :
  handleSubmit input now pages = SubmitSent tempId prev sent ->
  (forall p, In p pages -> pv_id p <> tempId) ->
  validateUrl isURL sent = true ->
  Prisma.page_findFirst_url sent userId (srv_db s) = None ->
  Prisma.page_findUnique newId (srv_db s) = None ->
  let s' := fst (post_pages isURL newId sent userId s) in
  exists o,
    post_outcome (snd (post_pages isURL newId sent userId s)) = Some o
    /\ submit_settled tempId o prev
       = (mkPageView newId sent None PROCESSING 0 false :: pages,
          Some (NoticeSuccess "Page added for scraping!"))
    /\ Prisma.page_findUnique newId (srv_db s')
       = Some (mkPage newId sent None PENDING 0 userId)
    /\ srv_queue s' = srv_queue s ++ [mkJob (mkJobData newId sent userId) 3 2000].
Proof.
  intros Hsub Hfresh Hv Hnone Hid s'. subst s'.
  unfold post_pages, Prisma.page_create. rewrite Hv, Hnone, Hid. simpl.
  eexists. split; [reflexivity|].
  unfold handleSubmit in Hsub.
  destruct (String.eqb (JS.trim input) ""); [discriminate|].
  destruct (find _ pages); [discriminate|].
  injection Hsub as <- <- <-. simpl. rewrite String.eqb_refl.
  split; [|split; [|reflexivity]].
  - f_equal. f_equal. rewrite <- (map_id pages) at 2. apply map_ext_in.
    intros p Hp. destruct (String.eqb (pv_id p) _) eqn:E; [|reflexivity].
    apply String.eqb_eq in E. exfalso. exact (Hfresh p Hp E).
  - unfold Prisma.page_findUnique in *. simpl.
    rewrite (find_app_none _ _ _ Hid). simpl. rewrite String.eqb_refl. reflexivity.
Qed.

Lemma accepted_submission_is_confirmed_in_place_witness :
  handleSubmit Sample.base 1700000000000 []
  = SubmitSent "temp-1700000000000"
               [mkPageView "temp-1700000000000" Sample.base None PENDING 0 true]
               Sample.base
  /\ validateUrl Sample.accept_all Sample.base = true
  /\ Prisma.page_findFirst_url Sample.base "u1" (srv_db Sample.server0) = None
  /\ Prisma.page_findUnique "p1" (srv_db Sample.server0) = None
  /\ exists o,
      post_outcome (snd (post_pages Sample.accept_all "p1" Sample.base "u1"
                                    Sample.server0)) = Some o
      /\ fst (submit_settled "temp-1700000000000" o
                [mkPageView "temp-1700000000000" Sample.base None PENDING 0 true])
         = [mkPageView "p1" Sample.base None PROCESSING 0 false].
Proof.
  split; [reflexivity|]. split; [reflexivity|]. split; [reflexivity|].
  split; [reflexivity|].
  destruct (@accepted_submission_is_confirmed_in_place Sample.accept_all "p1" "u1"
              Sample.base "temp-1700000000000" Sample.base 1700000000000 []
              [mkPageView "temp-1700000000000" Sample.base None PENDING 0 true]
              Sample.server0
              eq_refl (fun p (H : In p []) => match H with end) eq_refl eq_refl eq_refl)
    as [o [Ho [Hs _]]].
  exists o. split; [exact Ho|]. rewrite Hs. reflexivity.
Defined.

(** ** linkCount against the stored rows *)

Lemma link_rows_update (id id' : string) (f : Page -> Page) (ps : list Page)
      (ls added : list Link) :
  (link_rows id' (mkDb ps ls)
   <= link_rows id' (mkDb (Prisma.update_rows id f ps) (ls ++ added)))%Z.
Proof.
  unfold link_rows, links_of. simpl. rewrite filter_app, length_app. lia.
Qed.

Lemma in_update_rows (id : string) (f : Page -> Page) (ps : list Page) (q : Page) :
  In q (Prisma.update_rows id f ps) ->
  exists p, In p ps
            /\ ((page_id p = id /\ q = f p) \/ (page_id p <> id /\ q = p)).
Proof.
  unfold Prisma.update_rows. intros H. apply in_map_iff in H.
  destruct H as [p [Hq Hin]]. exists p. split; [exact Hin|].
  destruct (String.eqb (page_id p) id) eqn:E.
  - left. apply String.eqb_eq in E. auto.
  - right. apply String.eqb_neq in E. auto.
Qed.

Section ReachableCounts.

Context {U : URLParser}.
Variable isURL : string -> bool.

Lemma act_keeps_linkcount (s : Server) (a : Action) :
  linkcount_within_rows (srv_db s) ->
  linkcount_within_rows (srv_db (act isURL s a)).
Proof.
  intros Hok. destruct a as [newId url userId|id userId|id userId|fetch job];
    simpl.
  - unfold post_pages. destruct (negb (validateUrl isURL url)); [exact Hok|].
    destruct (Prisma.page_findFirst_url url userId (srv_db s)); [exact Hok|].
    unfold Prisma.page_create.
    destruct (Prisma.page_findUnique newId (srv_db s)); [exact Hok|].
    simpl. intros p Hp. simpl in Hp. apply in_app_or in Hp.
    destruct Hp as [Hp|[<-|[]]].
    + apply (Hok p Hp).
    + simpl. unfold link_rows. lia.
  - unfold post_retry.
    destruct (Prisma.page_findFirst_id id userId (srv_db s)); [|exact Hok].
    destruct (negb (Status_eqb (page_status p) FAILED)); [exact Hok|].
    unfold Prisma.page_update.
    destruct (Prisma.page_findUnique id (srv_db s)); [|exact Hok]. simpl.
    intros q Hq. simpl in Hq. apply in_update_rows in Hq.
    destruct Hq as [p1 [Hin [[_ ->]|[_ ->]]]]; apply (Hok p1 Hin).
  - unfold delete_page.
    destruct (Prisma.page_findFirst_id id userId (srv_db s)); [|exact Hok].
    unfold PrismaMore.page_delete.
    destruct (Prisma.page_findUnique id (srv_db s)); [|exact Hok]. simpl.
    intros q Hq. simpl in Hq. apply filter_In in Hq. destruct Hq as [Hin Hne].
    specialize (Hok q Hin). unfold link_rows, links_of in *. simpl.
    rewrite filter_filter_implied; [exact Hok|].
    intros l Hl. apply String.eqb_eq in Hl. rewrite Hl. exact Hne.
  - unfold worker_store.
    destruct (worker_cases fetch job (srv_db s))
      as [[_ E]|[(p & e & _ & _ & E)|[(p & data & _ & _ & _ & E)
         |(p & data & Hp & _ & _ & E)]]];
      rewrite E; cbn [fst snd].
    + exact Hok.
    + unfold failed_store. intros q Hq. simpl in Hq.
      apply in_update_rows in Hq.
      destruct Hq as [p1 [Hin [[_ ->]|[_ ->]]]]; apply (Hok p1 Hin).
    + unfold failed_store. intros q Hq. simpl in Hq.
      apply in_update_rows in Hq.
      destruct Hq as [p1 [Hin [[_ ->]|[_ ->]]]]; apply (Hok p1 Hin).
    + unfold completed_store. intros q Hq. simpl in Hq.
      apply in_update_rows in Hq. destruct Hq as [p1 [Hin [[Hid ->]|[Hid ->]]]].
      * simpl. rewrite Hid. unfold link_rows, links_of. simpl.
        rewrite filter_app, filter_link_row, length_app, length_map. lia.
      * specialize (Hok p1 Hin). destruct (srv_db s) as [ps ls]. simpl in *.
        pose proof (link_rows_update (job_pageId job) (page_id p1)
                      (set_completed (sp_title data)
                                     (Z.of_nat (length (sp_links data))))
                      ps ls (map (link_row (job_pageId job)) (sp_links data))).
        lia.
Qed.

End ReachableCounts.

(** X25.  In every store reachable from the empty one by submissions,
    retries, deletions and runs of the worker, no page has a linkCount above
    the number of link rows stored for it: a count can fall behind the rows
    (rows of earlier runs are kept) but never runs ahead of them. *)
Theorem reachable_linkcount_never_exceeds_rows
        (U : URLParser) (isURL : string -> bool) (actions : list Action) :
  linkcount_within_rows
    (srv_db (run_actions isURL actions (mkServer (mkDb [] []) []))).
Proof.
  unfold run_actions.
  assert (H0 : linkcount_within_rows (srv_db (mkServer (mkDb [] []) [])))
    by (intros p []).
  revert H0. generalize (mkServer (mkDb [] []) []).
  induction actions as [|a actions IH]; intros s Hs; simpl; [exact Hs|].
  apply IH. apply act_keeps_linkcount. exact Hs.
Qed.

(** ** [scrapePage] against [extractLinks] *)

Lemma linkName_of_plain (a : Anchor) :
  JS.trim (a_text a) <> "" ->
  (String.length (JS.trim (a_text a)) <= 200)%nat ->
  linkName_of a = JS.trim (a_text a).
Proof.
  intros Hne Hlen. unfold linkName_of.
  replace (String.eqb (JS.trim (a_text a)) "") with false
    by (symmetry; apply String.eqb_neq; exact Hne).
  replace (200 <? String.length (JS.trim (a_text a)))%nat with false
    by (symmetry; apply Nat.ltb_ge; exact Hlen).
  reflexivity.
Qed.

(** X15.  Without options, [scrapePage] returns a link for the same anchors
    as [extractLinks], in the same order, with the same URL, externality flag
    and title attribute; the two differ in the link names only, and not at
    all when every anchor has a visible text of at most 200 characters. *)
Theorem scrape_and_extract_agree
        (U : URLParser) (doc : Document) (url : string) :
  exists data,
    scrapePage (Ok doc) url None = Ok data
    /\ map (fun l => (href l, isExternal l, title l)) (sp_links data)
       = map (fun l => (href l, isExternal l, title l)) (extractLinks doc url)
    /\ ((forall a, In a (doc_anchors doc) ->
                   JS.trim (a_text a) <> ""
                   /\ (String.length (JS.trim (a_text a)) <= 200)%nat) ->
        sp_links data = extractLinks doc url).
Proof.
  eexists. split; [reflexivity|]. simpl.
  unfold extractLinks. rewrite !fold_push_each. simpl. split.
  - induction (doc_anchors doc) as [|a anchors IH]; simpl; [reflexivity|].
    rewrite !map_app, IH. f_equal.
    unfold scrapePage_each, extractLinks_each.
    destruct (skipped_href (a_href a)); [reflexivity|].
    destruct (url_href (a_href a) url); reflexivity.
  - induction (doc_anchors doc) as [|a anchors IH]; intros Hall; simpl;
      [reflexivity|].
    rewrite IH by (intros b Hb; apply Hall; right; exact Hb). f_equal.
    destruct (Hall a (or_introl eq_refl)) as [Hne Hlen].
    unfold scrapePage_each, extractLinks_each.
    rewrite (linkName_of_plain a Hne Hlen). reflexivity.
Qed.
